(** * Ai_Humanizer: the request-handling and model-fallback layer

    A shallow embedding of the deployment variants of the backend:
    - the serverless rewrite function ([handler] of [api/rewrite.ts]),
    - the two serverless verify functions, both called [handler]: the one
      with the rate limiter in front, and the plain one without it,
    - the Express server ([startServer]) with its rate-limiting middleware
      and its [/api/verify] and [/api/rewrite] routes.

    Upstream generation calls are the only interaction of a handler with the
    outside world; a handler is therefore a small interaction tree over one
    effect.  The rate-limit map is explicit state, the clock reading
    ([Date.now()]) and the environment ([process.env.GEMINI_API_KEY]) are
    inputs.  Console logging is not modelled. *)

From Stdlib Require Import ZArith QArith String Ascii List Bool Lia.
From stdpp Require Import base decidable countable gmap strings.

Local Open Scope string_scope.
Local Open Scope Z_scope.

(** ** JavaScript values the handlers inspect *)

Module Js.

(** [String.prototype.includes]: does [sub] occur somewhere in [s]? *)
Fixpoint includes (s sub : string) : bool :=
  String.prefix sub s ||
  match s with
  | EmptyString => false
  | String _ rest => includes rest sub
  end.

(** Truthiness of a possibly-undefined string: [undefined] and the empty
    string are falsy. *)
Definition truthy (v : option string) : bool :=
  match v with
  | Some s => negb (String.eqb s "")
  | None => false
  end.

(** [a || b] on possibly-undefined strings. *)
Definition or (a b : option string) : option string :=
  if truthy a then a else b.

(** [a || d] where [d] is a number literal. *)
Definition or_num (a : option Z) (d : Z) : Z :=
  match a with
  | Some n => if n =? 0 then d else n
  | None => d
  end.

(** [a || d] where [d] is a string literal. *)
Definition or_str (a : option string) (d : string) : string :=
  match a with
  | Some s => if String.eqb s "" then d else s
  | None => d
  end.

(** [a === n] for a possibly-undefined number. *)
Definition num_is (a : option Z) (n : Z) : bool :=
  match a with
  | Some m => m =? n
  | None => false
  end.

(** [a === s] for a possibly-undefined string. *)
Definition str_is (a : option string) (s : string) : bool :=
  match a with
  | Some t => String.eqb t s
  | None => false
  end.

(** [a?.includes(sub)] followed by [||]: [undefined] counts as false. *)
Definition opt_includes (a : option string) (sub : string) : bool :=
  match a with
  | Some s => includes s sub
  | None => false
  end.

End Js.

(** ** Upstream errors

    The object a rejected [generateContent] call throws, with the fields the
    handlers read: [status], [message], the nested [error.code] and
    [error.status], and [serialized], the text [JSON.stringify] returns for
    the object. *)

Record NestedError := {
  code : option Z;
  nested_status : option string
}.

Record JsError := {
  status : option Z;
  message : option string;
  error : option NestedError;
  serialized : string
}.

(** [proError.error?.code] and [proError.error?.status]. *)
Definition error_code (e : JsError) : option Z :=
  match error e with Some n => code n | None => None end.

Definition error_status (e : JsError) : option string :=
  match error e with Some n => nested_status n | None => None end.

(** The quota check in the [catch (proError)] block of the rewrite flow,
    the same text in the serverless function and in the Express route. *)
Definition isQuotaError (proError : JsError) : bool :=
  Js.num_is (status proError) 429 ||
  Js.opt_includes (message proError) "429" ||
  Js.opt_includes (message proError) "RESOURCE_EXHAUSTED" ||
  Js.num_is (error_code proError) 429 ||
  Js.str_is (error_status proError) "RESOURCE_EXHAUSTED" ||
  Js.includes (serialized proError) "RESOURCE_EXHAUSTED".

(** ** The upstream generation service *)

(** The double-quote character, which the prompt text contains. *)
Definition dquote : string := String (ascii_of_nat 34) EmptyString.

(** [SYSTEM_INSTRUCTION]: the fixed rewrite prompt, passed through to the
    upstream service and never interpreted here.  The text is cut at its
    double quotes. *)
Definition SYSTEM_INSTRUCTION : string :=
  String.concat dquote
    ["You are a human ghostwriter. Your ONLY job is to rewrite text so it bypasses ZeroGPT and Grammarly with a 0% AI score.

**The ";
     "Nuclear";
     " Bypass Protocol:**
AI detectors look for *average* writing. You must write *abnormal* writing.

**Strict Rules to Break the Algorithm:**
1.  **The ";
     "Fragment";
     " Rule:**
    *   Use sentence fragments. Often. Like this.
    *   *Never* write a standard ";
     "Subject-Verb-Object";
     " paragraph. Break it up.
2.  **The ";
     "Anti-Flow";
     " Rule:**
    *   AI flows perfectly. Humans stumble.
    *   Use **Em-dashes (—)** to interrupt yourself mid-sentence.
    *   Use **Parentheses** to add (unnecessary but human) context.
    *   Start sentences with ";
     "And,";
     " ";
     "But,";
     " ";
     "So,";
     " ";
     "Or.";
     "
3.  **Vocabulary ";
     "Downgrade";
     ":**
    *   **BANNED (Immediate Fail):** Utilize, facilitate, leverage, underscore, highlight, demonstrate, exhibit, thus, therefore, hence, moreover, furthermore, in conclusion, additionally, significantly, crucial, pivotal, landscape, tapestry, delve.
    *   **USE INSTEAD:** Use, help, show, so, also, big, important, scene, dig into.
    *   *If a 5th grader wouldn't say it, don't write it.*
4.  **Variable Sentence Length (The ";
     "Jagged";
     " Graph):**
    *   Write a long, winding sentence that uses commas and dashes to connect multiple thoughts into one stream of consciousness.
    *   Then stop.
    *   Write a short one.
5.  **Tone Check:**
    *   Be direct. Be slightly casual.
    *   Use contractions for EVERYTHING (it's, don't, can't, won't, shouldn't).
6.  **Length Control:**
    *   Keep the total word count roughly the same as the original (±10%).
    *   Do not bloat the text with unnecessary fluff.

**Output:**
*   Return **ONLY** the rewritten text."].

(** The sampling configuration of a rewrite call. *)
Record GenerationConfig := {
  systemInstruction : string;
  temperature : Q;
  topP : Q;
  topK : Z
}.

(** One [ai.models.generateContent] call: the credential the client object
    [ai] was built with, the model, the user text (possibly [undefined]) and
    the optional [config]. *)
Record GenerationRequest := {
  apiKey : option string;
  model : string;
  contents : option string;
  config : option GenerationConfig
}.

(** What awaiting the call gives: a result whose [text] may be [undefined],
    or a thrown error. *)
Inductive Awaited :=
| Fulfilled (text : option string)
| Rejected (e : JsError).

(** ** Handlers as interaction trees over the upstream call *)

Inductive Prog (A : Type) : Type :=
| Ret (a : A)
| Call (req : GenerationRequest) (k : Awaited -> Prog A).

Arguments Ret {A} a.
Arguments Call {A} req k.

Fixpoint bind {A B : Type} (m : Prog A) (f : A -> Prog B) : Prog B :=
  match m with
  | Ret a => f a
  | Call req k => Call req (fun o => bind (k o) f)
  end.

(** A block of an [async] function either completes with a value or throws. *)
Definition Throws (A : Type) : Type := Prog (JsError + A).

Definition ret {A : Type} (a : A) : Throws A := Ret (inr a).

Definition throw {A : Type} (e : JsError) : Throws A := Ret (inl e).

Definition andThen {A B : Type} (m : Throws A) (f : A -> Throws B) : Throws B :=
  bind m (fun r => match r with
                   | inl e => Ret (inl e)
                   | inr a => f a
                   end).

(** [try { m } catch (e) { h e }] where the catch block may throw again. *)
Definition tryCatch {A : Type} (m : Throws A) (h : JsError -> Throws A) : Throws A :=
  bind m (fun r => match r with
                   | inl e => h e
                   | inr a => Ret (inr a)
                   end).

(** [try { m } catch (e) { h e }] where the catch block cannot throw. *)
Definition tryCatchAll {A : Type} (m : Throws A) (h : JsError -> A) : Prog A :=
  bind m (fun r => match r with
                   | inl e => Ret (h e)
                   | inr a => Ret a
                   end).

(** [await ai.models.generateContent(req)]. *)
Definition generateContent (req : GenerationRequest) : Throws (option string) :=
  Call req (fun o => match o with
                     | Fulfilled text => ret text
                     | Rejected e => throw e
                     end).

Declare Scope prog_scope.
Delimit Scope prog_scope with prog.
Notation "x <- m ;; k" := (andThen m (fun x => k))
  (at level 100, m at next level, right associativity) : prog_scope.

(** Running a handler against an upstream service with state [U]: the value,
    the calls issued in order, and the state of the service afterwards. *)
Section Exec.
Context {U : Type} (upstream : U -> GenerationRequest -> Awaited * U).

Fixpoint exec {A : Type} (p : Prog A) (u : U) : A * list GenerationRequest * U :=
  match p with
  | Ret a => (a, [], u)
  | Call req k =>
      let '(o, u1) := upstream u req in
      let '(a, calls, u2) := exec (k o) u1 in
      (a, req :: calls, u2)
  end.

End Exec.

(** ** Responses *)

(** A response: the status code and the JSON object sent as body, as the list
    of its fields. *)
Record Response := {
  statusCode : Z;
  body : list (string * string)
}.

(** [JSON.stringify] of an object literal: fields whose value is [undefined]
    are left out. *)
Fixpoint json (fields : list (string * option string)) : list (string * string) :=
  match fields with
  | [] => []
  | (name, Some v) :: rest => (name, v) :: json rest
  | (name, None) :: rest => json rest
  end.

(** [res.status(st).json(fields)]. *)
Definition respond (st : Z) (fields : list (string * option string)) : Response :=
  {| statusCode := st; body := json fields |}.

(** The value of a field of a JSON body. *)
Fixpoint field (name : string) (b : list (string * string)) : option string :=
  match b with
  | [] => None
  | (n, v) :: rest => if String.eqb n name then Some v else field name rest
  end.

(** ** Requests *)

(** The value of the [x-forwarded-for] header when it is set: a string, or an
    array of strings.  An array is an object, identified by [ref]. *)
Inductive HeaderValue :=
| HString (s : string)
| HArray (ref : positive) (values : list string).

(** [req.body] when it can be destructured: the [text] and [apiKey] that
    [const { text, apiKey } = req.body] binds, each possibly [undefined] (as
    both are when the body is a JSON string or number).  Fields with values
    other than strings are not modelled. *)
Module Body.

Record t := {
  text : option string;
  apiKey : option string
}.

End Body.

(** [req.body]: the parsed JSON value, or [undefined] when the request came
    without a body, or [null] when the body was the JSON text [null]. *)
Inductive BodyValue :=
| BObject (b : Body.t)
| BUndefined
| BNull.

(** An incoming request: [req.method], the path name (read by the Express
    router only), [req.headers['x-forwarded-for']],
    [req.socket.remoteAddress], and [req.body] as the handler finds it, that
    is, as the serverless platform or [express.json()] left it. *)
Record Request := {
  method : string;
  url : string;
  x_forwarded_for : option HeaderValue;
  remoteAddress : option string;
  req_body : BodyValue
}.

(** The [text] and the [apiKey] a request carries, if any. *)
Definition body_text (req : Request) : option string :=
  match req_body req with
  | BObject b => Body.text b
  | _ => None
  end.

Definition body_apiKey (req : Request) : option string :=
  match req_body req with
  | BObject b => Body.apiKey b
  | _ => None
  end.

(** The [TypeError] that [const { text, apiKey } = req.body] and
    [const { apiKey } = req.body] throw at the first property when
    [req.body] is [undefined] or [null], with the message V8 gives it; it has
    no [status], and no enumerable property to serialize. *)
Definition cannotDestructure (property : string) (value : BodyValue) : JsError :=
  {| status := None;
     message :=
       Some (String.append "Cannot destructure property '"
              (String.append property
                (String.append "' of 'req.body' as it is "
                  (String.append (match value with BNull => "null" | _ => "undefined" end)
                                 "."))));
     error := None;
     serialized := "{}" |}.

(** [req.body] is [undefined] or [null]. *)
Definition nullish (value : BodyValue) : Prop :=
  forall b, value <> BObject b.

(** ** The rate limiter *)

(** Keys of the [rateLimit] map.  A JavaScript [Map] compares strings by
    content and objects by identity. *)
Inductive MapKey :=
| KString (s : string)
| KObject (ref : positive).

#[global] Instance MapKey_eq_dec : EqDecision MapKey.
Proof. solve_decision. Defined.

#[global] Instance MapKey_countable : Countable MapKey :=
  inj_countable'
    (fun k => match k with KString s => inl s | KObject r => inr r end)
    (fun x => match x with inl s => KString s | inr r => KObject r end)
    (fun k => match k with KString _ => eq_refl | KObject _ => eq_refl end).

Record RateRecord := {
  count : Z;
  lastReset : Z
}.

Definition WINDOW_MS : Z := 60 * 1000.
Definition MAX_REQUESTS : Z := 20.

(** The rate-limiting statements, from [rateLimit.get(ip)] to
    [rateLimit.set(ip, record)], which the serverless rewrite function, the
    rate-limited verify function and [rateLimiterMiddleware] of the Express
    server share word for word:
    [None] when the request is answered with 429, otherwise the map after
    [rateLimit.set(ip, record)]. *)
Definition rateLimitCheck (rateLimit : gmap MapKey RateRecord) (ip : MapKey) (now : Z)
  : option (gmap MapKey RateRecord) :=
  let record :=
    match rateLimit !! ip with
    | Some record =>
        if now - lastReset record >? WINDOW_MS
        then {| count := 0; lastReset := now |}
        else record
    | None => {| count := 0; lastReset := now |}
    end in
  if count record >=? MAX_REQUESTS then None
  else Some (<[ip := {| count := count record + 1; lastReset := lastReset record |}]> rateLimit).

Definition tooManyRequests : Response :=
  respond 429 [("error", Some "Too many requests. Please try again later.")].

Definition methodNotAllowed : Response :=
  respond 405 [("error", Some "Method Not Allowed")].

(** [Array.isArray(forwarded) ? forwarded[0] : forwarded]. *)
Definition firstForwarded (forwarded : option HeaderValue) : option string :=
  match forwarded with
  | Some (HArray _ values) => head values
  | Some (HString s) => Some s
  | None => None
  end.

(** ** The generation requests of the two models *)

Definition proRequest (keyToUse text : option string) : GenerationRequest :=
  {| apiKey := keyToUse;
     model := "gemini-3.1-pro-preview";
     contents := text;
     config := Some {| systemInstruction := SYSTEM_INSTRUCTION;
                       temperature := 1.1; topP := 0.98; topK := 100 |} |}.

Definition flashRequest (keyToUse text : option string) : GenerationRequest :=
  {| apiKey := keyToUse;
     model := "gemini-3-flash-preview";
     contents := text;
     config := Some {| systemInstruction := SYSTEM_INSTRUCTION;
                       temperature := 1.0; topP := 0.95; topK := 64 |} |}.

(** The probe of the verify operation: the prompt ["Hi"], no [config]. *)
Definition probeRequest (key : option string) : GenerationRequest :=
  {| apiKey := key;
     model := "gemini-3-flash-preview";
     contents := Some "Hi";
     config := None |}.

Definition keyMissing : Response :=
  respond 401 [("error", Some "API Key is missing. Please configure it in Vercel or provide one.")].

Definition keyRequired : Response :=
  respond 400 [("error", Some "API Key is required")].

Local Open Scope prog_scope.

(** What a deployment does with a request: it sends a response, or (Express
    only) no route matches and the request goes on to the Vite or static-file
    middleware, which is not modelled. *)
Inductive Reply :=
| Sent (r : Response)
| Next.

Definition sent (p : Prog Response) : Prog Reply :=
  bind p (fun r => Ret (Sent r)).

(** ** The serverless rewrite function ([api/rewrite.ts]) *)

Module Rewrite.

(** [req.headers['x-forwarded-for'] || 'unknown'], used as the map key as it
    is: an array header is a key of its own. *)
Definition ip (req : Request) : MapKey :=
  match x_forwarded_for req with
  | Some (HString s) => if String.eqb s "" then KString "unknown" else KString s
  | Some (HArray ref _) => KObject ref
  | None => KString "unknown"
  end.

(** The body of the outer [try] block. *)
Definition attempt (env_key : option string) (req : Request) : Throws Response :=
  match req_body req with
  | BObject b =>
      let text := Body.text b in
      let apiKey := Body.apiKey b in
      let keyToUse := Js.or apiKey env_key in
      if negb (Js.truthy keyToUse) then ret keyMissing
      else
        tryCatch
          (responseText <- generateContent (proRequest keyToUse text) ;;
           ret (respond 200 [("text", responseText)]))
          (fun proError =>
             if isQuotaError proError then
               result <- generateContent (flashRequest keyToUse text) ;;
               ret (respond 200 [("text", result)])
             else throw proError)
  | absent => throw (cannotDestructure "text" absent)
  end.

(** The outer [catch] block. *)
Definition serverError (err : JsError) : Response :=
  let st := Js.or_num (status err) 500 in
  let msg := Js.or_str (message err) "Internal Server Error" in
  respond st [("error", Some msg)].

(** The handler from the method check on. *)
Definition afterLimiter (env_key : option string) (req : Request) : Prog Response :=
  if negb (String.eqb (method req) "POST") then Ret methodNotAllowed
  else tryCatchAll (attempt env_key req) serverError.

(** [handler]: [env_key] is [process.env.GEMINI_API_KEY], [rateLimit] the
    module's map, [now] the reading of [Date.now()]. *)
Definition handler (env_key : option string) (rateLimit : gmap MapKey RateRecord)
    (now : Z) (req : Request) : gmap MapKey RateRecord * Prog Response :=
  match rateLimitCheck rateLimit (ip req) now with
  | None => (rateLimit, Ret tooManyRequests)
  | Some rateLimit' => (rateLimit', afterLimiter env_key req)
  end.

End Rewrite.

(** ** The serverless verify function with the rate limiter *)

Module Verify.

(** [(Array.isArray(forwarded) ? forwarded[0] : forwarded) || 'unknown']. *)
Definition ip (req : Request) : MapKey :=
  KString (Js.or_str (firstForwarded (x_forwarded_for req)) "unknown").

(** The body of the [try] block. *)
Definition attempt (req : Request) : Throws Response :=
  match req_body req with
  | BObject b =>
      let apiKey := Body.apiKey b in
      if negb (Js.truthy apiKey) then ret keyRequired
      else
        _ <- generateContent (probeRequest apiKey) ;;
        ret (respond 200 [("status", Some "valid")])
  | absent => throw (cannotDestructure "apiKey" absent)
  end.

(** The [catch] block. *)
Definition verificationError (err : JsError) : Response :=
  respond 400 [("status", Some "invalid"); ("error", message err)].

(** The handler from the method check on. *)
Definition afterLimiter (req : Request) : Prog Response :=
  if negb (String.eqb (method req) "POST") then Ret methodNotAllowed
  else tryCatchAll (attempt req) verificationError.

Definition handler (rateLimit : gmap MapKey RateRecord) (now : Z) (req : Request)
  : gmap MapKey RateRecord * Prog Response :=
  match rateLimitCheck rateLimit (ip req) now with
  | None => (rateLimit, Ret tooManyRequests)
  | Some rateLimit' => (rateLimit', afterLimiter req)
  end.

End Verify.

(** ** The plain serverless verify function: no rate limiting *)

Module VerifyPlain.

Definition handler (req : Request) : Prog Response :=
  if negb (String.eqb (method req) "POST") then Ret methodNotAllowed
  else
    tryCatchAll
      match req_body req with
      | BObject b =>
          let apiKey := Body.apiKey b in
          if negb (Js.truthy apiKey) then ret keyRequired
          else
            _ <- generateContent (probeRequest apiKey) ;;
            ret (respond 200 [("status", Some "valid")])
      | absent => throw (cannotDestructure "apiKey" absent)
      end
      (fun err => respond 400 [("status", Some "invalid"); ("error", message err)]).

End VerifyPlain.

(** ** The Express server ([startServer]) *)

Module Server.

(** [(Array.isArray(forwarded) ? forwarded[0] : forwarded)
    || req.socket.remoteAddress || 'unknown']. *)
Definition ip (req : Request) : MapKey :=
  KString (Js.or_str (Js.or (firstForwarded (x_forwarded_for req)) (remoteAddress req))
                     "unknown").

(** [rateLimiterMiddleware]: [None] stands for the 429 answer, [Some] for
    [next()] with the updated map. *)
Definition rateLimiterMiddleware (rateLimit : gmap MapKey RateRecord) (now : Z)
    (req : Request) : option (gmap MapKey RateRecord) :=
  rateLimitCheck rateLimit (ip req) now.

(** [app.use('/api/', ...)]: the path names under the mount point.  Path
    names are taken in lower case and without a trailing slash. *)
Definition underApi (path : string) : bool :=
  String.prefix "/api/" path || String.eqb path "/api".

(** [app.post("/api/verify", ...)]; [res.json] answers with status 200. *)
Definition verify (req : Request) : Prog Response :=
  tryCatchAll
    match req_body req with
    | BObject b =>
        let apiKey := Body.apiKey b in
        if negb (Js.truthy apiKey) then ret keyRequired
        else
          _ <- generateContent (probeRequest apiKey) ;;
          ret (respond 200 [("status", Some "valid")])
    | absent => throw (cannotDestructure "apiKey" absent)
    end
    (fun err => respond 400 [("status", Some "invalid"); ("error", message err)]).

(** [app.post("/api/rewrite", ...)]. *)
Definition rewrite (env_key : option string) (req : Request) : Prog Response :=
  tryCatchAll
    match req_body req with
    | BObject b =>
        let text := Body.text b in
        let apiKey := Body.apiKey b in
        let keyToUse := Js.or apiKey env_key in
        if negb (Js.truthy keyToUse) then ret keyMissing
        else
          tryCatch
            (responseText <- generateContent (proRequest keyToUse text) ;;
             ret (respond 200 [("text", responseText)]))
            (fun proError =>
               if isQuotaError proError then
                 result <- generateContent (flashRequest keyToUse text) ;;
                 ret (respond 200 [("text", result)])
               else throw proError)
    | absent => throw (cannotDestructure "text" absent)
    end
    (fun err =>
       let st := Js.or_num (status err) 500 in
       let msg := Js.or_str (message err) "Internal Server Error" in
       respond st [("error", Some msg)]).

(** The routes behind the middleware. *)
Definition routes (env_key : option string) (req : Request) : Prog Reply :=
  if String.eqb (method req) "POST" && String.eqb (url req) "/api/verify"
  then sent (verify req)
  else if String.eqb (method req) "POST" && String.eqb (url req) "/api/rewrite"
  then sent (rewrite env_key req)
  else Ret Next.

(** The application: the rate limiter in front of every path under [/api/],
    then the routes. *)
Definition app (env_key : option string) (rateLimit : gmap MapKey RateRecord)
    (now : Z) (req : Request) : gmap MapKey RateRecord * Prog Reply :=
  if underApi (url req) then
    match rateLimiterMiddleware rateLimit now req with
    | None => (rateLimit, Ret (Sent tooManyRequests))
    | Some rateLimit' => (rateLimit', routes env_key req)
    end
  else (rateLimit, routes env_key req).

End Server.

(** ** The deployment variants side by side *)

Inductive Variant :=
| ServerlessRewrite
| ServerlessVerify
| ServerlessVerifyPlain
| Express.

(** One request served by a variant: the rate-limit map afterwards and the
    interaction that ends in the reply. *)
Definition deployed (v : Variant) (env_key : option string)
    (rateLimit : gmap MapKey RateRecord) (now : Z) (req : Request)
  : gmap MapKey RateRecord * Prog Reply :=
  match v with
  | ServerlessRewrite =>
      let '(rateLimit', p) := Rewrite.handler env_key rateLimit now req in
      (rateLimit', sent p)
  | ServerlessVerify =>
      let '(rateLimit', p) := Verify.handler rateLimit now req in
      (rateLimit', sent p)
  | ServerlessVerifyPlain => (rateLimit, sent (VerifyPlain.handler req))
  | Express => Server.app env_key rateLimit now req
  end.

(** The key under which a variant counts a request, when it counts it at
    all. *)
Definition clientOf (v : Variant) (req : Request) : option MapKey :=
  match v with
  | ServerlessRewrite => Some (Rewrite.ip req)
  | ServerlessVerify => Some (Verify.ip req)
  | ServerlessVerifyPlain => None
  | Express => if Server.underApi (url req) then Some (Server.ip req) else None
  end.

(** What a variant does with a request the rate limiter let through. *)
Definition afterLimiter (v : Variant) (env_key : option string) (req : Request)
  : Prog Reply :=
  match v with
  | ServerlessRewrite => sent (Rewrite.afterLimiter env_key req)
  | ServerlessVerify => sent (Verify.afterLimiter req)
  | ServerlessVerifyPlain => sent (VerifyPlain.handler req)
  | Express => Server.routes env_key req
  end.

(** Is the request a rewrite (verify) operation of the variant? *)
Definition isRewrite (v : Variant) (req : Request) : bool :=
  match v with
  | ServerlessRewrite => String.eqb (method req) "POST"
  | Express => String.eqb (method req) "POST" && String.eqb (url req) "/api/rewrite"
  | _ => false
  end.

Definition isVerify (v : Variant) (req : Request) : bool :=
  match v with
  | ServerlessVerify | ServerlessVerifyPlain => String.eqb (method req) "POST"
  | Express => String.eqb (method req) "POST" && String.eqb (url req) "/api/verify"
  | ServerlessRewrite => false
  end.

(** Requests served one after the other, each with the clock reading at its
    arrival: the map and the reply after each of them. *)
Fixpoint serve (v : Variant) (env_key : option string)
    (rateLimit : gmap MapKey RateRecord) (reqs : list (Z * Request))
  : list (gmap MapKey RateRecord * Prog Reply) :=
  match reqs with
  | [] => []
  | (now, req) :: rest =>
      let '(rateLimit', reply) := deployed v env_key rateLimit now req in
      (rateLimit', reply) :: serve v env_key rateLimit' rest
  end.

(** ** What the properties speak about *)

(** The window of client [k] is over at [now]: there is no record, or the
    record's window started more than [WINDOW_MS] ago. *)
Definition windowOver (rateLimit : gmap MapKey RateRecord) (k : MapKey) (now : Z) : Prop :=
  match rateLimit !! k with
  | Some record => now - lastReset record > WINDOW_MS
  | None => True
  end.

(** Requests of one client [k], none later than [WINDOW_MS] after [t0]. *)
Definition withinWindow (v : Variant) (k : MapKey) (t0 : Z) (reqs : list (Z * Request)) : Prop :=
  Forall (fun tr => clientOf v (snd tr) = Some k /\ fst tr - t0 <= WINDOW_MS) reqs.

(** The rate limiter of the variant, if it has one in front of the request,
    lets the request through. *)
Definition admitted (v : Variant) (rateLimit : gmap MapKey RateRecord) (now : Z)
    (req : Request) : bool :=
  match clientOf v req with
  | Some k =>
      match rateLimitCheck rateLimit k now with
      | Some _ => true
      | None => false
      end
  | None => true
  end.

(** The reply to a request whose method is not POST, once it is past the
    rate limiter: 405 from a serverless function; in the Express server no
    route matches. *)
Definition nonPostReply (v : Variant) : Prog Reply :=
  match v with
  | Express => Ret Next
  | _ => Ret (Sent methodNotAllowed)
  end.

(** The calls a handler issues against an upstream service, and its reply. *)
Definition callsOf {U A : Type} (upstream : U -> GenerationRequest -> Awaited * U)
    (p : Prog A) (u : U) : list GenerationRequest :=
  snd (fst (exec upstream p u)).

Definition replyOf {U A : Type} (upstream : U -> GenerationRequest -> Awaited * U)
    (p : Prog A) (u : U) : A :=
  fst (fst (exec upstream p u)).

(** The first upstream call of a handler, if it makes one. *)
Definition firstCall {A : Type} (p : Prog A) : option GenerationRequest :=
  match p with
  | Call req _ => Some req
  | Ret _ => None
  end.

(** The calls of a list that go to the flash model. *)
Definition flashCalls (calls : list GenerationRequest) : list GenerationRequest :=
  List.filter (fun c => String.eqb (model c) "gemini-3-flash-preview") calls.

(** The response to a fulfilled generation call. *)
Definition rewritten (text : option string) : Response :=
  respond 200 [("text", text)].

(** [sub] occurs in [s]. *)
Definition Occurs (sub s : string) : Prop :=
  exists pre post, s = String.append pre (String.append sub post).

(** ** The specification's wording *)

Module Spec.

(** ASCII white space: tab, line feed, vertical tab, form feed, carriage
    return and space. *)
Definition isSpace (c : ascii) : bool :=
  let n := nat_of_ascii c in
  ((9 <=? n)%nat && (n <=? 13)%nat) || (n =? 32)%nat.

Fixpoint trimStart (s : string) : string :=
  match s with
  | EmptyString => EmptyString
  | String c rest => if isSpace c then trimStart rest else s
  end.

Fixpoint trimEnd (s : string) : string :=
  match s with
  | EmptyString => EmptyString
  | String c rest =>
      match trimEnd rest with
      | EmptyString => if isSpace c then EmptyString else String c EmptyString
      | kept => String c kept
      end
  end.

(** The string without its leading and trailing white space. *)
Definition trim (s : string) : string := trimEnd (trimStart s).



(** The client identifier as the specification words it: the first value of
    the forwarded-address header if present, otherwise the peer address,
    otherwise ["unknown"]. *)
Definition clientIdentifier (req : Request) : string :=
  match firstForwarded (x_forwarded_for req) with
  | Some first => first
  | None =>
      match remoteAddress req with
      | Some peer => peer
      | None => "unknown"
      end
  end.

(** A body as the specification wants it: it has an [error] field, or it is
    a success payload, with the rewritten [text] or the status ["valid"]. *)
Definition bodyAsSpecified (r : Response) : Prop :=
  field "error" (body r) <> None
  \/ field "text" (body r) <> None
  \/ field "status" (body r) = Some "valid".

End Spec.

(** ** Sample requests and upstream services *)

(** Sample requests. *)
Definition sampleRewrite : Request :=
  {| method := "POST"; url := "/api/rewrite";
     x_forwarded_for := Some (HString "203.0.113.7"); remoteAddress := Some "10.0.0.1";
     req_body := BObject {| Body.text := Some "The weather is nice today.";
                         Body.apiKey := Some "user-key" |} |}.

Definition sampleVerify : Request :=
  {| method := "POST"; url := "/api/verify";
     x_forwarded_for := Some (HString "203.0.113.7"); remoteAddress := Some "10.0.0.1";
     req_body := BObject {| Body.text := None; Body.apiKey := Some "user-key" |} |}.

Definition sampleGet : Request :=
  {| method := "GET"; url := "/api/rewrite";
     x_forwarded_for := Some (HString "203.0.113.7"); remoteAddress := Some "10.0.0.1";
     req_body := BUndefined |}.

Definition sampleClient : MapKey := KString "203.0.113.7".


(** A rewrite request that reaches the server directly, without a
    forwarded-address header. *)
Definition directRequest : Request :=
  {| method := "POST"; url := "/api/rewrite";
     x_forwarded_for := None; remoteAddress := Some "10.0.0.1";
     req_body := BObject {| Body.text := Some "The weather is nice today.";
                         Body.apiKey := Some "user-key" |} |}.

(** An upstream service for examples: the pro model is out of quota, the
    flash model answers. *)
Definition quotaError : JsError :=
  {| status := Some 429;
     message := Some "You exceeded your current quota";
     error := None;
     serialized := "{}" |}.

Definition proExhausted (u : unit) (req : GenerationRequest) : Awaited * unit :=
  if String.eqb (model req) "gemini-3.1-pro-preview"
  then (Rejected quotaError, u)
  else (Fulfilled (Some "Fallback text"), u).

(** An upstream service that refuses every call. *)
Definition keyInvalid : JsError :=
  {| status := Some 400;
     message := Some "API key not valid. Please pass a valid API key.";
     error := None;
     serialized := "{}" |}.

Definition refusing (u : unit) (req : GenerationRequest) : Awaited * unit :=
  (Rejected keyInvalid, u).

(** An upstream service that answers every call. *)
Definition answering (u : unit) (req : GenerationRequest) : Awaited * unit :=
  (Fulfilled (Some "It's a decent day, I guess."), u).

(** An upstream service where both models fail: the pro model is out of
    quota, the flash model is overloaded. *)
Definition overloaded : JsError :=
  {| status := Some 503;
     message := Some "The model is overloaded.";
     error := None;
     serialized := "{}" |}.

Definition bothFailing (u : unit) (req : GenerationRequest) : Awaited * unit :=
  if String.eqb (model req) "gemini-3.1-pro-preview"
  then (Rejected quotaError, u)
  else (Rejected overloaded, u).

(** An upstream service where both models are out of quota. *)
Definition exhausted429 : JsError :=
  {| status := Some 429;
     message := Some "429 RESOURCE_EXHAUSTED: quota exceeded";
     error := None;
     serialized := "{}" |}.

Definition proExhausted429 (u : unit) (req : GenerationRequest) : Awaited * unit :=
  (Rejected exhausted429, u).

(** The map of a client that has used up its window opened at 1000. *)
Definition exhaustedMap : gmap MapKey RateRecord :=
  {[sampleClient := {| count := 20; lastReset := 1000 |}]}.

(** An upstream service that fulfils every call without any text. *)
Definition textless (u : unit) (req : GenerationRequest) : Awaited * unit :=
  (Fulfilled None, u).

(** A request to the verify operation with another method. *)
Definition verifyGet : Request :=
  {| method := "GET"; url := "/api/verify";
     x_forwarded_for := Some (HString "203.0.113.7"); remoteAddress := Some "10.0.0.1";
     req_body := BUndefined |}.


Definition bodilessVerify : Request :=
  {| method := "POST"; url := "/api/verify";
     x_forwarded_for := Some (HString "203.0.113.7"); remoteAddress := Some "10.0.0.1";
     req_body := BUndefined |}.


(** A verify request with a body but without a key. *)
Definition keylessVerify : Request :=
  {| method := "POST"; url := "/api/verify";
     x_forwarded_for := Some (HString "203.0.113.7"); remoteAddress := Some "10.0.0.1";
     req_body := BObject {| Body.text := None; Body.apiKey := None |} |}.


(** A request that came through two proxies: the header is an array. *)
Definition proxiedRequest : Request :=
  {| method := "POST"; url := "/api/rewrite";
     x_forwarded_for := Some (HArray 1 ["203.0.113.7"; "198.51.100.2"]);
     remoteAddress := Some "10.0.0.1";
     req_body := BObject {| Body.text := Some "The weather is nice today.";
                            Body.apiKey := Some "user-key" |} |}.

(** A request whose header is the empty string. *)
Definition emptyHeaderRequest : Request :=
  {| method := "POST"; url := "/api/rewrite";
     x_forwarded_for := Some (HString ""); remoteAddress := Some "10.0.0.1";
     req_body := BObject {| Body.text := Some "The weather is nice today.";
                            Body.apiKey := Some "user-key" |} |}.

(** An error that tells of the quota in its nested [error.code] only. *)
Definition nestedQuota : JsError :=
  {| status := None;
     message := Some "Quota exceeded";
     error := Some {| code := Some 429; nested_status := None |};
     serialized := String.concat dquote ["{"; "error"; ":{"; "code"; ":429}}"] |}.

(** A thrown object without a [message], and an upstream service that fails
    every call with it. *)
Definition messageless : JsError :=
  {| status := None; message := None; error := None; serialized := "{}" |}.

Definition failingSilently (u : unit) (req : GenerationRequest) : Awaited * unit :=
  (Rejected messageless, u).

(** ** The serverless functions side by side *)

(** The rewrite function and the rate-limited verify function are modules of
    their own, and each declares its own [rateLimit] map. *)
Record FunctionMaps := {
  rewrite_rateLimit : gmap MapKey RateRecord;
  verify_rateLimit : gmap MapKey RateRecord
}.

Inductive Endpoint :=
| RewriteEndpoint
| VerifyEndpoint.

(** One invocation of one of the two functions. *)
Definition invoke (env_key : option string) (maps : FunctionMaps) (now : Z)
    (endpoint : Endpoint) (req : Request) : FunctionMaps * Prog Response :=
  match endpoint with
  | RewriteEndpoint =>
      let '(rateLimit', p) := Rewrite.handler env_key (rewrite_rateLimit maps) now req in
      ({| rewrite_rateLimit := rateLimit'; verify_rateLimit := verify_rateLimit maps |}, p)
  | VerifyEndpoint =>
      let '(rateLimit', p) := Verify.handler (verify_rateLimit maps) now req in
      ({| rewrite_rateLimit := rewrite_rateLimit maps; verify_rateLimit := rateLimit' |}, p)
  end.

(** Invocations one after the other: the maps and the handler's interaction
    after each. *)
Fixpoint invokeEach (env_key : option string) (maps : FunctionMaps)
    (calls : list (Z * Endpoint * Request)) : list (FunctionMaps * Prog Response) :=
  match calls with
  | [] => []
  | (now, endpoint, req) :: rest =>
      let '(maps', p) := invoke env_key maps now endpoint req in
      (maps', p) :: invokeEach env_key maps' rest
  end.

(** ** Counting admissions *)

(** How many requests of a list the rate limiter of a variant lets through,
    the requests being served one after the other. *)
Fixpoint admissions (v : Variant) (env_key : option string)
    (rateLimit : gmap MapKey RateRecord) (reqs : list (Z * Request)) : nat :=
  match reqs with
  | [] => 0%nat
  | (now, req) :: rest =>
      ((if admitted v rateLimit now req then 1 else 0)
       + admissions v env_key (fst (deployed v env_key rateLimit now req)) rest)%nat
  end.

(** Requests of one client [k] with clock readings between [a] and
    [a + WINDOW_MS]. *)
Definition withinSpan (v : Variant) (k : MapKey) (a : Z) (reqs : list (Z * Request)) : Prop :=
  Forall (fun tr => clientOf v (snd tr) = Some k /\ a <= fst tr <= a + WINDOW_MS) reqs.

(** Every record of the map holds a count between 1 and [MAX_REQUESTS]. *)
Definition boundedCounts (rateLimit : gmap MapKey RateRecord) : Prop :=
  map_Forall (fun _ record => 1 <= count record <= MAX_REQUESTS) rateLimit.

(** ** The browser client ([App]) *)

Module App.

Inductive KeyStatus :=
| idle
| valid
| invalid.

(** The state of the component, and the [gemini_api_key] entry of
    [localStorage]. *)
Record State := {
  inputText : string;
  outputText : string;
  isLoading : bool;
  error : option string;
  copied : bool;
  apiKey : string;
  showApiKeyModal : bool;
  showInfoModal : bool;
  tempApiKey : string;
  isTestingKey : bool;
  keyStatus : KeyStatus;
  gemini_api_key : option string
}.

Definition setInputText (x : string) (s : State) : State :=
  {| inputText := x; outputText := outputText s; isLoading := isLoading s;
     error := error s; copied := copied s; apiKey := apiKey s;
     showApiKeyModal := showApiKeyModal s; showInfoModal := showInfoModal s;
     tempApiKey := tempApiKey s; isTestingKey := isTestingKey s;
     keyStatus := keyStatus s; gemini_api_key := gemini_api_key s |}.

Definition setOutputText (x : string) (s : State) : State :=
  {| inputText := inputText s; outputText := x; isLoading := isLoading s;
     error := error s; copied := copied s; apiKey := apiKey s;
     showApiKeyModal := showApiKeyModal s; showInfoModal := showInfoModal s;
     tempApiKey := tempApiKey s; isTestingKey := isTestingKey s;
     keyStatus := keyStatus s; gemini_api_key := gemini_api_key s |}.

Definition setIsLoading (x : bool) (s : State) : State :=
  {| inputText := inputText s; outputText := outputText s; isLoading := x;
     error := error s; copied := copied s; apiKey := apiKey s;
     showApiKeyModal := showApiKeyModal s; showInfoModal := showInfoModal s;
     tempApiKey := tempApiKey s; isTestingKey := isTestingKey s;
     keyStatus := keyStatus s; gemini_api_key := gemini_api_key s |}.

Definition setError (x : option string) (s : State) : State :=
  {| inputText := inputText s; outputText := outputText s; isLoading := isLoading s;
     error := x; copied := copied s; apiKey := apiKey s;
     showApiKeyModal := showApiKeyModal s; showInfoModal := showInfoModal s;
     tempApiKey := tempApiKey s; isTestingKey := isTestingKey s;
     keyStatus := keyStatus s; gemini_api_key := gemini_api_key s |}.

Definition setApiKey (x : string) (s : State) : State :=
  {| inputText := inputText s; outputText := outputText s; isLoading := isLoading s;
     error := error s; copied := copied s; apiKey := x;
     showApiKeyModal := showApiKeyModal s; showInfoModal := showInfoModal s;
     tempApiKey := tempApiKey s; isTestingKey := isTestingKey s;
     keyStatus := keyStatus s; gemini_api_key := gemini_api_key s |}.

Definition setShowApiKeyModal (x : bool) (s : State) : State :=
  {| inputText := inputText s; outputText := outputText s; isLoading := isLoading s;
     error := error s; copied := copied s; apiKey := apiKey s;
     showApiKeyModal := x; showInfoModal := showInfoModal s;
     tempApiKey := tempApiKey s; isTestingKey := isTestingKey s;
     keyStatus := keyStatus s; gemini_api_key := gemini_api_key s |}.

Definition setTempApiKey (x : string) (s : State) : State :=
  {| inputText := inputText s; outputText := outputText s; isLoading := isLoading s;
     error := error s; copied := copied s; apiKey := apiKey s;
     showApiKeyModal := showApiKeyModal s; showInfoModal := showInfoModal s;
     tempApiKey := x; isTestingKey := isTestingKey s;
     keyStatus := keyStatus s; gemini_api_key := gemini_api_key s |}.

Definition setIsTestingKey (x : bool) (s : State) : State :=
  {| inputText := inputText s; outputText := outputText s; isLoading := isLoading s;
     error := error s; copied := copied s; apiKey := apiKey s;
     showApiKeyModal := showApiKeyModal s; showInfoModal := showInfoModal s;
     tempApiKey := tempApiKey s; isTestingKey := x;
     keyStatus := keyStatus s; gemini_api_key := gemini_api_key s |}.

Definition setKeyStatus (x : KeyStatus) (s : State) : State :=
  {| inputText := inputText s; outputText := outputText s; isLoading := isLoading s;
     error := error s; copied := copied s; apiKey := apiKey s;
     showApiKeyModal := showApiKeyModal s; showInfoModal := showInfoModal s;
     tempApiKey := tempApiKey s; isTestingKey := isTestingKey s;
     keyStatus := x; gemini_api_key := gemini_api_key s |}.

(** [localStorage.setItem('gemini_api_key', x)] and
    [localStorage.removeItem('gemini_api_key')]. *)
Definition storeKey (x : option string) (s : State) : State :=
  {| inputText := inputText s; outputText := outputText s; isLoading := isLoading s;
     error := error s; copied := copied s; apiKey := apiKey s;
     showApiKeyModal := showApiKeyModal s; showInfoModal := showInfoModal s;
     tempApiKey := tempApiKey s; isTestingKey := isTestingKey s;
     keyStatus := keyStatus s; gemini_api_key := x |}.

(** The component as it is first rendered, for a given content of
    [localStorage]. *)
Definition initialState (stored : option string) : State :=
  {| inputText := ""; outputText := ""; isLoading := false; error := None;
     copied := false; apiKey := ""; showApiKeyModal := false;
     showInfoModal := false; tempApiKey := ""; isTestingKey := false;
     keyStatus := idle; gemini_api_key := stored |}.

(** The effect run on mount: a stored key, if it is non-empty, becomes the
    key in use. *)
Definition loadStoredKey (s : State) : State :=
  if Js.truthy (gemini_api_key s)
  then setApiKey (Js.or_str (gemini_api_key s) "") s
  else s.

(** A page load. *)
Definition mount (stored : option string) : State :=
  loadStoredKey (initialState stored).

(** *** Requests to the backend *)

(** A [fetch] call: the path, the method and the fields of the JSON body. *)
Record FetchRequest := {
  fetch_url : string;
  fetch_method : string;
  fetch_body : list (string * string)
}.

(** What [response.json()] gives: the parsed object, or an exception with
    its message. *)
Inductive Payload :=
| Json (data : list (string * string))
| NotJson (message : string).

(** What awaiting [fetch] gives: a response with its status, or an exception
    (network failure, or the abort after the timeout) with its message. *)
Inductive FetchResult :=
| Fetched (status : Z) (payload : Payload)
| FetchFailed (message : string).

(** [response.ok]. *)
Definition ok (status : Z) : bool := (200 <=? status) && (status <=? 299).

(** A callback as an interaction tree over [fetch]. *)
Inductive Client (A : Type) : Type :=
| Done (a : A)
| Fetch (req : FetchRequest) (k : FetchResult -> Client A).

Arguments Done {A} a.
Arguments Fetch {A} req k.

Fixpoint andThen {A B : Type} (c : Client A) (f : A -> Client B) : Client B :=
  match c with
  | Done a => f a
  | Fetch req k => Fetch req (fun r => andThen (k r) f)
  end.

(** A callback run over a network that answers each request in a fixed
    way. *)
Fixpoint run {A : Type} (network : FetchRequest -> FetchResult) (c : Client A) : A :=
  match c with
  | Done a => a
  | Fetch req k => run network (k (network req))
  end.

(** The requests a callback sends over such a network. *)
Fixpoint requests {A : Type} (network : FetchRequest -> FetchResult) (c : Client A)
  : list FetchRequest :=
  match c with
  | Done _ => []
  | Fetch req k => req :: requests network (k (network req))
  end.

Definition verifyRequest (keyToTest : string) : FetchRequest :=
  {| fetch_url := "/api/verify"; fetch_method := "POST";
     fetch_body := [("apiKey", keyToTest)] |}.

Definition rewriteRequest (text key : string) : FetchRequest :=
  {| fetch_url := "/api/rewrite"; fetch_method := "POST";
     fetch_body := [("text", text); ("apiKey", key)] |}.

(** *** The callbacks *)

(** [testApiKey]: the state afterwards and the value returned. *)
Definition testApiKey (s : State) (keyToTest : string) : Client (State * bool) :=
  if negb (String.prefix "AIza" keyToTest) then Done (setKeyStatus invalid s, false)
  else
    let s1 := setKeyStatus idle (setIsTestingKey true s) in
    Fetch (verifyRequest keyToTest)
      (fun r =>
         match r with
         | Fetched status _ =>
             if ok status
             then Done (setIsTestingKey false (setKeyStatus valid s1), true)
             else Done (setIsTestingKey false (setKeyStatus invalid s1), false)
         | FetchFailed _ =>
             Done (setIsTestingKey false (setKeyStatus invalid s1), false)
         end).

(** [removeApiKey]. *)
Definition removeApiKey (s : State) : State :=
  setKeyStatus idle (setShowApiKeyModal false (storeKey None (setApiKey "" s))).

(** [clearAll]. *)
Definition clearAll (s : State) : State :=
  setError None (setOutputText "" (setInputText "" s)).

Definition quotaMessage : string :=
  "You have exceeded your API quota. Please check your plan or wait a moment.".

Definition keyMessage : string :=
  "Invalid API Key or Access Denied. Please check your key settings.".

Definition genericMessage : string :=
  "Failed to rewrite text. Please try again.".

(** The [catch] and [finally] blocks of [handleRewrite]: [s0] is the state
    the callback was created in, [s] the state with the updates made so far,
    [message] the message of the error caught. *)
Definition rewriteFailed (s0 s : State) (message : string) : State :=
  let quota := Js.includes message "429" || Js.includes message "RESOURCE_EXHAUSTED" in
  let key := Js.includes message "API Key" || Js.includes message "403" in
  let errorMessage :=
    if quota then quotaMessage else if key then keyMessage else genericMessage in
  let s1 :=
    if negb quota && key && negb (String.eqb (apiKey s0) "")
    then storeKey None (setApiKey "" s)
    else s in
  setIsLoading false (setError (Some errorMessage) s1).

Section Trim.

(** [String.prototype.trim]. *)
Variable trim : string -> string.

(** [saveApiKey]; [keyStatus] is read as it was when the callback was
    created. *)
Definition saveApiKey (s : State) : Client State :=
  if negb (String.eqb (trim (tempApiKey s)) "") then
    let save (s1 : State) : Client State :=
      match keyStatus s with
      | invalid => Done s1
      | _ =>
          Done (setKeyStatus idle
                  (setTempApiKey ""
                     (setShowApiKeyModal false
                        (storeKey (Some (trim (tempApiKey s)))
                           (setApiKey (trim (tempApiKey s)) s1)))))
      end in
    match keyStatus s with
    | idle =>
        andThen (testApiKey s (trim (tempApiKey s)))
          (fun tested => if snd tested then save (fst tested) else Done (fst tested))
    | _ => save s
    end
  else Done s.

(** [handleRewrite]. *)
Definition handleRewrite (s : State) : Client State :=
  if String.eqb (trim (inputText s)) "" then Done s
  else
    let s1 := setOutputText "" (setError None (setIsLoading true s)) in
    Fetch (rewriteRequest (inputText s) (apiKey s))
      (fun r =>
         match r with
         | FetchFailed message => Done (rewriteFailed s s1 message)
         | Fetched _ (NotJson message) => Done (rewriteFailed s s1 message)
         | Fetched status (Json data) =>
             if negb (ok status) then
               if status =? 401
               then Done (rewriteFailed s (setShowApiKeyModal true s1)
                            "Please provide an API Key to continue.")
               else Done (rewriteFailed s s1
                            (Js.or_str (field "error" data) "Failed to rewrite text"))
             else
               Done (setIsLoading false
                       (if Js.truthy (field "text" data)
                        then setOutputText (Js.or_str (field "text" data) "") s1
                        else s1))
         end).

(** *** The component over time *)

(** What the user does: typing into the input or into the key field (which
    resets the key status), opening or closing the key dialog, and the
    buttons. *)
Inductive Event :=
| TypeInput (x : string)
| TypeKey (x : string)
| ShowKeyDialog (b : bool)
| TestConnection
| Save
| Remove
| Rewrite
| Clear.

(** One event handled to its end over a network. *)
Definition step (network : FetchRequest -> FetchResult) (s : State) (ev : Event) : State :=
  match ev with
  | TypeInput x => setInputText x s
  | TypeKey x => setKeyStatus idle (setTempApiKey x s)
  | ShowKeyDialog b => setShowApiKeyModal b s
  | TestConnection => fst (run network (testApiKey s (trim (tempApiKey s))))
  | Save => run network (saveApiKey s)
  | Remove => removeApiKey s
  | Rewrite => run network (handleRewrite s)
  | Clear => clearAll s
  end.

(** Events handled one after the other, each over its own network. *)
Fixpoint steps (s : State) (evs : list ((FetchRequest -> FetchResult) * Event)) : State :=
  match evs with
  | [] => s
  | (network, ev) :: rest => steps (step network s ev) rest
  end.

End Trim.

(** The key in use is the stored key, or empty when none is stored. *)
Definition keyInSync (s : State) : Prop :=
  apiKey s = Js.or_str (gemini_api_key s) "".

End App.

(** ** The client in front of a deployment *)

Section Linked.

Context {U : Type} (upstream : U -> GenerationRequest -> Awaited * U).
Variables (v : Variant) (env_key : option string).
Variables (forwarded : option HeaderValue) (peer : option string) (now : Z).

(** The request a [fetch] call arrives as, with the forwarded-address header
    and the peer address the network gives it; [fetch] is always called with
    a JSON object as body. *)
Definition arrives (f : App.FetchRequest) : Request :=
  {| method := App.fetch_method f;
     url := App.fetch_url f;
     x_forwarded_for := forwarded;
     remoteAddress := peer;
     req_body := BObject {| Body.text := field "text" (App.fetch_body f);
                         Body.apiKey := field "apiKey" (App.fetch_body f) |} |}.

(** A callback run against the deployment over a network that delivers:
    the result, the rate-limit map and the upstream service afterwards.
    [None] when the Express server hands a request on to a middleware that
    is not modelled. *)
Fixpoint linked {A : Type} (c : App.Client A) (rateLimit : gmap MapKey RateRecord) (u : U)
  : option (A * gmap MapKey RateRecord * U) :=
  match c with
  | App.Done a => Some (a, rateLimit, u)
  | App.Fetch f k =>
      let '(rateLimit', p) := deployed v env_key rateLimit now (arrives f) in
      let '(reply, _, u') := exec upstream p u in
      match reply with
      | Sent r => linked (k (App.Fetched (statusCode r) (App.Json (body r)))) rateLimit' u'
      | Next => None
      end
  end.

End Linked.

(** * Properties *)

(** ** The rate limiter *)

Lemma rateLimitCheck_over (rateLimit : gmap MapKey RateRecord) k now :
  windowOver rateLimit k now ->
  rateLimitCheck rateLimit k now
  = Some (<[k := {| count := 1; lastReset := now |}]> rateLimit).
Proof.
  unfold windowOver, rateLimitCheck. intros Hover.
  destruct (rateLimit !! k) as [record|]; [|reflexivity].
  destruct (Z.gtb_spec (now - lastReset record) WINDOW_MS) as [_|Hle]; [reflexivity|lia].
Qed.

Lemma rateLimitCheck_within (rateLimit : gmap MapKey RateRecord) k now c t0 :
  rateLimit !! k = Some {| count := c; lastReset := t0 |} ->
  now - t0 <= WINDOW_MS ->
  rateLimitCheck rateLimit k now
  = if c >=? MAX_REQUESTS then None
    else Some (<[k := {| count := c + 1; lastReset := t0 |}]> rateLimit).
Proof.
  unfold rateLimitCheck. intros -> Hin. cbn [lastReset count].
  destruct (Z.gtb_spec (now - t0) WINDOW_MS) as [Hgt|_]; [lia|reflexivity].
Qed.

(** A counted request goes through the rate-limiting statements first. *)
Lemma deployed_counted v env_key (rateLimit : gmap MapKey RateRecord) now req k :
  clientOf v req = Some k ->
  deployed v env_key rateLimit now req
  = match rateLimitCheck rateLimit k now with
    | None => (rateLimit, Ret (Sent tooManyRequests))
    | Some rateLimit' => (rateLimit', afterLimiter v env_key req)
    end.
Proof.
  destruct v; cbn [clientOf deployed afterLimiter].
  - intros [= <-]. unfold Rewrite.handler.
    destruct (rateLimitCheck rateLimit (Rewrite.ip req) now); reflexivity.
  - intros [= <-]. unfold Verify.handler.
    destruct (rateLimitCheck rateLimit (Verify.ip req) now); reflexivity.
  - discriminate.
  - unfold Server.app, Server.rateLimiterMiddleware.
    destruct (Server.underApi (url req)); [|discriminate].
    intros [= <-]. reflexivity.
Qed.

Lemma serve_within v env_key k t0 :
  forall reqs (rateLimit : gmap MapKey RateRecord) c i t r,
    0 <= c <= MAX_REQUESTS ->
    rateLimit !! k = Some {| count := c; lastReset := t0 |} ->
    withinWindow v k t0 reqs ->
    reqs !! i = Some (t, r) ->
    serve v env_key rateLimit reqs !! i
    = Some (<[k := {| count := Z.min (c + Z.of_nat i + 1) MAX_REQUESTS;
                      lastReset := t0 |}]> rateLimit,
            if c + Z.of_nat i <? MAX_REQUESTS then afterLimiter v env_key r
            else Ret (Sent tooManyRequests)).
Proof.
  unfold MAX_REQUESTS.
  induction reqs as [|[t1 r1] reqs IH]; intros rateLimit c i t r Hc Hk Hall Hi.
  - destruct i; discriminate.
  - apply Forall_cons in Hall as [[Hclient Hin] Hall]. cbn [fst snd] in *.
    cbn [serve]. rewrite (deployed_counted _ _ _ _ _ _ Hclient).
    rewrite (rateLimitCheck_within _ _ _ _ _ Hk Hin). unfold MAX_REQUESTS.
    destruct (Z.geb_spec c 20) as [Hfull|Hroom].
    + assert (c = 20) as -> by lia. cbn [serve].
      destruct i as [|i].
      * injection Hi as <- <-. cbn [lookup list_lookup]. f_equal. f_equal.
        symmetry. apply insert_id. rewrite Hk. reflexivity.
      * cbn [lookup list_lookup] in Hi |- *.
        etrans; [exact (IH rateLimit 20 i t r ltac:(lia) Hk Hall Hi)|].
        replace (Z.min (20 + Z.of_nat (S i) + 1) 20) with (Z.min (20 + Z.of_nat i + 1) 20) by lia.
        destruct (Z.ltb_spec (20 + Z.of_nat i) 20), (Z.ltb_spec (20 + Z.of_nat (S i)) 20);
          try lia; reflexivity.
    + fold (serve v env_key).
      destruct i as [|i].
      * injection Hi as <- <-. cbn [lookup list_lookup].
        replace (Z.min (c + Z.of_nat 0 + 1) 20) with (c + 1) by lia.
        destruct (Z.ltb_spec (c + Z.of_nat 0) 20); [reflexivity|lia].
      * cbn [lookup list_lookup] in Hi |- *.
        etrans; [exact (IH _ (c + 1) i t r ltac:(lia) (lookup_insert_eq _ _ _) Hall Hi)|].
        rewrite insert_insert_eq.
        replace (Z.min (c + 1 + Z.of_nat i + 1) 20) with (Z.min (c + Z.of_nat (S i) + 1) 20) by lia.
        destruct (Z.ltb_spec (c + 1 + Z.of_nat i) 20), (Z.ltb_spec (c + Z.of_nat (S i)) 20);
          try lia; reflexivity.
Qed.

Lemma deployed_admitted v env_key (rateLimit : gmap MapKey RateRecord) now req :
  admitted v rateLimit now req = true ->
  snd (deployed v env_key rateLimit now req) = afterLimiter v env_key req.
Proof.
  unfold admitted. destruct (clientOf v req) as [k|] eqn:Hclient.
  - rewrite (deployed_counted _ _ _ _ _ _ Hclient).
    destruct (rateLimitCheck rateLimit k now); [reflexivity | discriminate].
  - intros _. destruct v; cbn [clientOf] in Hclient; try discriminate.
    + reflexivity.
    + cbn [deployed]. unfold Server.app.
      destruct (Server.underApi (url req)); [discriminate | reflexivity].
Qed.

(** A window opened by its first request: the [i]-th request of the client
    (counted from 0) is let through exactly when [i < 20], and the record
    after it holds [min (i + 1) 20]. *)
Lemma serve_new_window v env_key k (rateLimit : gmap MapKey RateRecord) t0 r0 more i t r :
  windowOver rateLimit k t0 ->
  withinWindow v k t0 ((t0, r0) :: more) ->
  ((t0, r0) :: more) !! i = Some (t, r) ->
  serve v env_key rateLimit ((t0, r0) :: more) !! i
  = Some (<[k := {| count := Z.min (Z.of_nat i + 1) MAX_REQUESTS; lastReset := t0 |}]> rateLimit,
          if (i <? 20)%nat then afterLimiter v env_key r
          else Ret (Sent tooManyRequests)).
Proof.
  intros Hover Hall Hi.
  apply Forall_cons in Hall as [[Hclient _] Hall]. cbn [fst snd] in *.
  cbn [serve]. rewrite (deployed_counted _ _ _ _ _ _ Hclient).
  rewrite (rateLimitCheck_over _ _ _ Hover).
  destruct i as [|i].
  - injection Hi as <- <-. reflexivity.
  - cbn [lookup list_lookup] in Hi |- *.
    etrans; [exact (serve_within v env_key k t0 more _ 1 i t r ltac:(unfold MAX_REQUESTS; lia)
                      (lookup_insert_eq _ _ _) Hall Hi)|].
    rewrite insert_insert_eq. unfold MAX_REQUESTS.
    replace (Z.min (1 + Z.of_nat i + 1) 20) with (Z.min (Z.of_nat (S i) + 1) 20) by lia.
    destruct (Z.ltb_spec (1 + Z.of_nat i) 20), (Nat.ltb_spec (S i) 20); try lia; reflexivity.
Qed.

(** The plain verify function serves every request of a sequence, and leaves
    the map alone. *)
Lemma serve_plain env_key :
  forall reqs (rateLimit : gmap MapKey RateRecord) i t r,
    reqs !! i = Some (t, r) ->
    serve ServerlessVerifyPlain env_key rateLimit reqs !! i
    = Some (rateLimit, sent (VerifyPlain.handler r)).
Proof.
  induction reqs as [|[t1 r1] reqs IH]; intros rateLimit i t r Hi.
  - destruct i; discriminate.
  - destruct i as [|i].
    + injection Hi as <- <-. reflexivity.
    + cbn [lookup list_lookup] in Hi. exact (IH rateLimit i t r Hi).
Qed.

(** C4: in every variant that carries the rate limiter, a request that
    arrives when the client has no record, or more than 60,000 ms after the
    record's window start, is handed on whatever the old count was, and the
    record stored after it has count 1 and the arrival time as window
    start. *)
Theorem window_reset_readmits v env_key (rateLimit : gmap MapKey RateRecord) now req k :
  clientOf v req = Some k ->
  windowOver rateLimit k now ->
  deployed v env_key rateLimit now req
  = (<[k := {| count := 1; lastReset := now |}]> rateLimit, afterLimiter v env_key req).
Proof.
  intros Hclient Hover.
  rewrite (deployed_counted _ _ _ _ _ _ Hclient).
  rewrite (rateLimitCheck_over _ _ _ Hover). reflexivity.
Qed.

Lemma window_reset_readmits_witness :
  clientOf ServerlessRewrite sampleRewrite = Some sampleClient
  /\ windowOver {[sampleClient := {| count := 20; lastReset := 1000 |}]} sampleClient 61001
  /\ deployed ServerlessRewrite None
       {[sampleClient := {| count := 20; lastReset := 1000 |}]} 61001 sampleRewrite
     = (<[sampleClient := {| count := 1; lastReset := 61001 |}]>
          {[sampleClient := {| count := 20; lastReset := 1000 |}]},
        afterLimiter ServerlessRewrite None sampleRewrite).
Proof.
  assert (Hover : windowOver {[sampleClient := {| count := 20; lastReset := 1000 |}]}
                    sampleClient 61001).
  { unfold windowOver. rewrite lookup_singleton_eq. reflexivity. }
  split; [reflexivity|]. split; [exact Hover|].
  exact (window_reset_readmits ServerlessRewrite None _ 61001 sampleRewrite sampleClient
           eq_refl Hover).
Defined.

(** ** Requests with another method than POST *)

Lemma afterLimiter_non_post v env_key req :
  method req <> "POST" -> afterLimiter v env_key req = nonPostReply v.
Proof.
  intros Hm. apply String.eqb_neq in Hm.
  destruct v; cbn [afterLimiter nonPostReply];
    unfold Rewrite.afterLimiter, Verify.afterLimiter, VerifyPlain.handler, Server.routes;
    rewrite Hm; reflexivity.
Qed.

(** C10, as stated, fails: the plain verify function counts nothing.
    Twenty requests with another method are each answered 405, and the
    client's next request, a POST, is probed and answered 200. *)
Lemma plain_verify_counts_nothing :
  (forall i, (i < 20)%nat ->
      serve ServerlessVerifyPlain None ∅
        (replicate 20 (1000, verifyGet) ++ [(2000, sampleVerify)]) !! i
      = Some (∅, Ret (Sent {| statusCode := 405;
                              body := [("error", "Method Not Allowed")] |})))
  /\ (exists p,
         serve ServerlessVerifyPlain None ∅
           (replicate 20 (1000, verifyGet) ++ [(2000, sampleVerify)]) !! 20%nat
         = Some (∅, p)
         /\ replyOf answering p tt
            = Sent {| statusCode := 200; body := [("status", "valid")] |}).
Proof.
  split.
  - intros i Hi.
    assert (Hget : (replicate 20 (1000, verifyGet) ++ [(2000, sampleVerify)])%list !! i
                   = Some (1000, verifyGet)).
    { do 20 (destruct i as [|i]; [reflexivity|]). lia. }
    exact (serve_plain None _ ∅ i 1000 verifyGet Hget).
  - eexists. split; [eapply serve_plain; reflexivity|].
    reflexivity.
Qed.

(** C10, amended: in every variant that carries the rate limiter, twenty
    requests of one client with a method other than POST, the first opening
    a window and the others within it, are each counted (the stored count
    after the [i]-th, from 0, is [i + 1]) and then answered as non-POST
    requests: 405 by a serverless function, while the Express server has no
    route for them; the client's next request within the window, whatever
    its method, is then answered with 429, not 405, and the count stays at
    20.  The plain verify function counts nothing: it answers a non-POST
    request 405 and leaves the map as it is. *)
Theorem non_post_requests_are_counted :
  (forall v env_key k (rateLimit : gmap MapKey RateRecord) t0 r0 more t r,
      windowOver rateLimit k t0 ->
      withinWindow v k t0 (((t0, r0) :: more) ++ [(t, r)]) ->
      Forall (fun tr => method (snd tr) <> "POST") ((t0, r0) :: more) ->
      length ((t0, r0) :: more) = 20%nat ->
      (forall i ti ri,
          ((t0, r0) :: more) !! i = Some (ti, ri) ->
          serve v env_key rateLimit (((t0, r0) :: more) ++ [(t, r)]) !! i
          = Some (<[k := {| count := Z.of_nat i + 1; lastReset := t0 |}]> rateLimit,
                  match v with
                  | Express => Ret Next
                  | _ => Ret (Sent {| statusCode := 405;
                                      body := [("error", "Method Not Allowed")] |})
                  end))
      /\ serve v env_key rateLimit (((t0, r0) :: more) ++ [(t, r)]) !! 20%nat
         = Some (<[k := {| count := 20; lastReset := t0 |}]> rateLimit,
                 Ret (Sent {| statusCode := 429;
                              body := [("error",
                                        "Too many requests. Please try again later.")] |})))
  /\ (forall env_key (rateLimit : gmap MapKey RateRecord) now req,
         method req <> "POST" ->
         deployed ServerlessVerifyPlain env_key rateLimit now req
         = (rateLimit, Ret (Sent {| statusCode := 405;
                                    body := [("error", "Method Not Allowed")] |}))).
Proof.
  split.
  - intros v env_key k rateLimit t0 r0 more t r Hover Hall Hmeth Hlen. split.
    + intros i ti ri Hi.
      assert (Hlt : (i < 20)%nat) by (rewrite <- Hlen; eapply lookup_lt_Some; exact Hi).
      pose proof (Forall_lookup_1 _ _ _ _ Hmeth Hi) as Hm. cbn [snd] in Hm.
      etrans; [exact (serve_new_window v env_key k rateLimit t0 r0 (more ++ [(t, r)]) i ti ri
                        Hover Hall (lookup_app_l_Some _ _ _ _ Hi))|].
      unfold MAX_REQUESTS. replace (Z.min (Z.of_nat i + 1) 20) with (Z.of_nat i + 1) by lia.
      destruct (Nat.ltb_spec i 20); [|lia].
      rewrite (afterLimiter_non_post _ _ _ Hm). destruct v; reflexivity.
    + exact (serve_new_window v env_key k rateLimit t0 r0 (more ++ [(t, r)]) 20 t r
               Hover Hall (list_lookup_middle _ _ _ _ (eq_sym Hlen))).
  - intros env_key rateLimit now req Hm. cbn [deployed]. f_equal.
    exact (afterLimiter_non_post ServerlessVerifyPlain env_key req Hm).
Qed.

Lemma non_post_requests_are_counted_witness :
  windowOver ∅ sampleClient 1000
  /\ withinWindow ServerlessRewrite sampleClient 1000
       (((1000, sampleGet) :: replicate 19 (2000, sampleGet)) ++ [(3000, sampleRewrite)])
  /\ Forall (fun tr => method (snd tr) <> "POST")
       ((1000, sampleGet) :: replicate 19 (2000, sampleGet))
  /\ length ((1000, sampleGet) :: replicate 19 (2000, sampleGet)) = 20%nat
  /\ serve ServerlessRewrite None ∅
       (((1000, sampleGet) :: replicate 19 (2000, sampleGet)) ++ [(3000, sampleRewrite)]) !! 19%nat
     = Some (<[sampleClient := {| count := 20; lastReset := 1000 |}]> ∅,
             Ret (Sent {| statusCode := 405; body := [("error", "Method Not Allowed")] |}))
  /\ serve ServerlessRewrite None ∅
       (((1000, sampleGet) :: replicate 19 (2000, sampleGet)) ++ [(3000, sampleRewrite)]) !! 20%nat
     = Some (<[sampleClient := {| count := 20; lastReset := 1000 |}]> ∅,
             Ret (Sent {| statusCode := 429;
                          body := [("error", "Too many requests. Please try again later.")] |}))
  /\ (method verifyGet <> "POST"
      /\ deployed ServerlessVerifyPlain None exhaustedMap 2000 verifyGet
         = (exhaustedMap,
            Ret (Sent {| statusCode := 405; body := [("error", "Method Not Allowed")] |}))).
Proof.
  assert (Hover : windowOver ∅ sampleClient 1000) by exact I.
  assert (Hget : method verifyGet <> "POST") by discriminate.
  assert (Hall : withinWindow ServerlessRewrite sampleClient 1000
       (((1000, sampleGet) :: replicate 19 (2000, sampleGet)) ++ [(3000, sampleRewrite)])).
  { unfold withinWindow. cbn [replicate app].
    repeat (apply Forall_cons; split; [split; [reflexivity | vm_compute; discriminate]|]).
    apply Forall_nil_2. }
  assert (Hmeth : Forall (fun tr => method (snd tr) <> "POST")
       ((1000, sampleGet) :: replicate 19 (2000, sampleGet))).
  { cbn [replicate]. repeat (apply Forall_cons; split; [discriminate|]). apply Forall_nil_2. }
  split; [exact Hover|]. split; [exact Hall|]. split; [exact Hmeth|]. split; [reflexivity|].
  split; [|split].
  - exact (proj1 (proj1 non_post_requests_are_counted ServerlessRewrite None sampleClient ∅
                    1000 sampleGet (replicate 19 (2000, sampleGet)) 3000 sampleRewrite
                    Hover Hall Hmeth eq_refl) 19%nat 2000 sampleGet eq_refl).
  - exact (proj2 (proj1 non_post_requests_are_counted ServerlessRewrite None sampleClient ∅
                    1000 sampleGet (replicate 19 (2000, sampleGet)) 3000 sampleRewrite
                    Hover Hall Hmeth eq_refl)).
  - split; [exact Hget|].
    exact (proj2 non_post_requests_are_counted None exhaustedMap 2000 verifyGet Hget).
Defined.

(** ** The rewrite flow *)

(** The rewrite operation of a variant, for a request with a body and a
    usable key, run against any upstream service: what is called, and what
    is answered. *)
Lemma rewrite_flow v env_key req b {U : Type}
    (upstream : U -> GenerationRequest -> Awaited * U) (u : U) :
  isRewrite v req = true ->
  req_body req = BObject b ->
  Js.truthy (Js.or (body_apiKey req) env_key) = true ->
  exec upstream (afterLimiter v env_key req) u
  = let key := Js.or (body_apiKey req) env_key in
    let '(o1, u1) := upstream u (proRequest key (body_text req)) in
    match o1 with
    | Fulfilled text =>
        (Sent (rewritten text), [proRequest key (body_text req)], u1)
    | Rejected e =>
        if isQuotaError e then
          let '(o2, u2) := upstream u1 (flashRequest key (body_text req)) in
          (Sent match o2 with
                | Fulfilled text => rewritten text
                | Rejected e2 => Rewrite.serverError e2
                end,
           [proRequest key (body_text req); flashRequest key (body_text req)], u2)
        else (Sent (Rewrite.serverError e), [proRequest key (body_text req)], u1)
    end.
Proof.
  intros Hop Hbody Hkey.
  assert (Hflow : forall p : Prog Response,
             p = tryCatchAll (Rewrite.attempt env_key req) Rewrite.serverError ->
             exec upstream (sent p) u
             = let key := Js.or (body_apiKey req) env_key in
               let '(o1, u1) := upstream u (proRequest key (body_text req)) in
               match o1 with
               | Fulfilled text =>
                   (Sent (rewritten text), [proRequest key (body_text req)], u1)
               | Rejected e =>
                   if isQuotaError e then
                     let '(o2, u2) := upstream u1 (flashRequest key (body_text req)) in
                     (Sent match o2 with
                           | Fulfilled text => rewritten text
                           | Rejected e2 => Rewrite.serverError e2
                           end,
                      [proRequest key (body_text req); flashRequest key (body_text req)], u2)
                   else (Sent (Rewrite.serverError e), [proRequest key (body_text req)], u1)
               end).
  { intros p ->. unfold Rewrite.attempt. unfold body_apiKey, body_text in *.
    rewrite Hbody in *. rewrite Hkey. cbn.
    destruct (upstream u (proRequest (Js.or (Body.apiKey b) env_key) (Body.text b)))
      as [[text|e] u1]; cbn; [reflexivity|].
    destruct (isQuotaError e); cbn; [|reflexivity].
    destruct (upstream u1 (flashRequest (Js.or (Body.apiKey b) env_key) (Body.text b)))
      as [[text|e2] u2]; reflexivity. }
  destruct v; cbn [isRewrite] in Hop; try discriminate; cbn [afterLimiter].
  - apply Hflow. unfold Rewrite.afterLimiter. rewrite Hop. reflexivity.
  - unfold Server.routes.
    apply andb_prop in Hop as [Hpost Hurl]. apply String.eqb_eq in Hurl.
    rewrite Hpost, Hurl. cbn [andb String.eqb]. cbn -[body_apiKey body_text].
    apply Hflow. reflexivity.
Qed.

Lemma append_cons (a : ascii) (p post : string) :
  String.append (String a p) post = String a (String.append p post).
Proof. reflexivity. Qed.

(** A request either has a body that can be destructured, or [req.body] is
    [undefined] or [null]. *)
Lemma body_cases req : (exists b, req_body req = BObject b) \/ nullish (req_body req).
Proof.
  destruct (req_body req) as [b| |]; [left; eauto|right..]; intros b' H; discriminate.
Qed.

(** The message of the [TypeError] is not empty. *)
Lemma cannotDestructure_message property value :
  exists msg, message (cannotDestructure property value) = Some msg /\ msg <> "".
Proof.
  eexists. split; [reflexivity|]. rewrite append_cons. discriminate.
Qed.

(** The rewrite operation of a variant for a request without a body: the
    destructuring throws, and the outer [catch] answers. *)
Lemma rewrite_without_body v env_key req :
  isRewrite v req = true ->
  nullish (req_body req) ->
  afterLimiter v env_key req
  = Ret (Sent (Rewrite.serverError (cannotDestructure "text" (req_body req)))).
Proof.
  intros Hop Hbody.
  assert (Hflow : sent (tryCatchAll (Rewrite.attempt env_key req) Rewrite.serverError)
                  = Ret (Sent (Rewrite.serverError (cannotDestructure "text" (req_body req))))).
  { unfold Rewrite.attempt.
    destruct (req_body req) as [b| |]; [destruct (Hbody b); reflexivity|reflexivity..]. }
  destruct v; cbn [isRewrite] in Hop; try discriminate; cbn [afterLimiter].
  - unfold Rewrite.afterLimiter. rewrite Hop. exact Hflow.
  - unfold Server.routes.
    apply andb_prop in Hop as [Hpost Hurl]. apply String.eqb_eq in Hurl.
    rewrite Hpost, Hurl. cbn [andb String.eqb]. exact Hflow.
Qed.

(** The outer [catch] block of the rewrite operation answers the [TypeError]
    with status 500 and the error's message. *)
Lemma serverError_cannotDestructure property value :
  exists msg, message (cannotDestructure property value) = Some msg
              /\ Rewrite.serverError (cannotDestructure property value)
                 = {| statusCode := 500; body := [("error", msg)] |}.
Proof.
  destruct (cannotDestructure_message property value) as (msg & Hmsg & Hne).
  exists msg. split; [exact Hmsg|].
  unfold Rewrite.serverError. rewrite Hmsg. cbn [status cannotDestructure Js.or_num Js.or_str].
  apply String.eqb_neq in Hne. rewrite Hne. reflexivity.
Qed.

(** The rewrite operation of a variant when neither the request nor the
    server has a key. *)
Lemma rewrite_without_key v env_key req b :
  isRewrite v req = true ->
  req_body req = BObject b ->
  Js.truthy (Js.or (body_apiKey req) env_key) = false ->
  afterLimiter v env_key req = Ret (Sent keyMissing).
Proof.
  intros Hop Hbody Hkey.
  assert (Hflow : sent (tryCatchAll (Rewrite.attempt env_key req) Rewrite.serverError)
                  = Ret (Sent keyMissing)).
  { unfold Rewrite.attempt. unfold body_apiKey in Hkey.
    rewrite Hbody in *. rewrite Hkey. reflexivity. }
  destruct v; cbn [isRewrite] in Hop; try discriminate; cbn [afterLimiter].
  - unfold Rewrite.afterLimiter. rewrite Hop. exact Hflow.
  - unfold Server.routes.
    apply andb_prop in Hop as [Hpost Hurl]. apply String.eqb_eq in Hurl.
    rewrite Hpost, Hurl. exact Hflow.
Qed.

(** A request that is neither operation of the variant gets the reply of a
    request with another method. *)
Lemma afterLimiter_other v env_key req :
  isRewrite v req = false ->
  isVerify v req = false ->
  afterLimiter v env_key req
  = match v with
    | Express => Ret Next
    | _ => Ret (Sent methodNotAllowed)
    end.
Proof.
  intros Hrewrite Hverify.
  destruct v; cbn [isRewrite isVerify] in Hrewrite, Hverify; cbn [afterLimiter].
  - unfold Rewrite.afterLimiter. rewrite Hrewrite. reflexivity.
  - unfold Verify.afterLimiter. rewrite Hverify. reflexivity.
  - unfold VerifyPlain.handler. rewrite Hverify. reflexivity.
  - unfold Server.routes. rewrite Hverify, Hrewrite. reflexivity.
Qed.

(** [apiKey || process.env.GEMINI_API_KEY] when the request's key is usable,
    or else the server's. *)
Lemma keyToUse_cases (apiKey env_key : option string) (key : string) :
  key <> "" ->
  apiKey = Some key \/ ((apiKey = None \/ apiKey = Some "") /\ env_key = Some key) ->
  Js.or apiKey env_key = Some key /\ Js.truthy (Js.or apiKey env_key) = true.
Proof.
  intros Hne Hcases. apply String.eqb_neq in Hne.
  assert (Htruthy : Js.truthy (Some key) = true) by (cbn; rewrite Hne; reflexivity).
  unfold Js.or.
  destruct Hcases as [->|[[->| ->] ->]]; [rewrite Htruthy|cbn [Js.truthy String.eqb negb]..];
    split; first [reflexivity | exact Htruthy].
Qed.

(** What a request with a body carries is what its body holds. *)
Lemma body_fields req b :
  req_body req = BObject b ->
  body_apiKey req = Body.apiKey b /\ body_text req = Body.text b.
Proof.
  intros Hbody. unfold body_apiKey, body_text. rewrite Hbody. split; reflexivity.
Qed.

(** C1: in the rewrite operation of the serverless function and of the
    Express route, for a request with a body that is past the rate limiter,
    with a usable key (its own, or else the server's), and for any upstream
    service:
    the pro model is called first; the flash model is called, once and after
    the pro call, exactly when the pro call failed with an error that
    [isQuotaError] accepts; the reply is then what the flash call gave: 200
    with its text, or its own error, answered with the error's own status
    (500 when it has none) and its own message (["Internal Server Error"]
    when it has none); in every other case the reply is what the pro call
    gave, a failure being answered with the status and message of the error
    thrown, unchanged. *)
Theorem fallback_only_on_quota v env_key (rateLimit : gmap MapKey RateRecord) now req b key
    {U : Type} (upstream : U -> GenerationRequest -> Awaited * U) (u : U) :
  admitted v rateLimit now req = true ->
  isRewrite v req = true ->
  req_body req = BObject b ->
  key <> "" ->
  Body.apiKey b = Some key
  \/ ((Body.apiKey b = None \/ Body.apiKey b = Some "") /\ env_key = Some key) ->
  let handled := snd (deployed v env_key rateLimit now req) in
  let primary :=
    {| apiKey := Some key;
       model := "gemini-3.1-pro-preview";
       contents := Body.text b;
       config := Some {| systemInstruction := SYSTEM_INSTRUCTION;
                         temperature := 1.1; topP := 0.98; topK := 100 |} |} in
  let secondary :=
    {| apiKey := Some key;
       model := "gemini-3-flash-preview";
       contents := Body.text b;
       config := Some {| systemInstruction := SYSTEM_INSTRUCTION;
                         temperature := 1.0; topP := 0.95; topK := 64 |} |} in
  let success := fun text : option string =>
    {| statusCode := 200;
       body := match text with
               | Some t => [("text", t)]
               | None => []
               end |} in
  let failure := fun e : JsError =>
    {| statusCode := match status e with
                     | Some n => if n =? 0 then 500 else n
                     | None => 500
                     end;
       body := [("error",
                 match message e with
                 | Some m => if String.eqb m "" then "Internal Server Error" else m
                 | None => "Internal Server Error"
                 end)] |} in
  let o1 := fst (upstream u primary) in
  let o2 := fst (upstream (snd (upstream u primary)) secondary) in
  let quota := match o1 with
               | Rejected e => isQuotaError e
               | Fulfilled _ => false
               end in
  callsOf upstream handled u = primary :: (if quota then [secondary] else [])
  /\ flashCalls (callsOf upstream handled u) = (if quota then [secondary] else [])
  /\ replyOf upstream handled u
     = Sent match o1 with
            | Fulfilled text => success text
            | Rejected e =>
                if isQuotaError e then
                  match o2 with
                  | Fulfilled text => success text
                  | Rejected e2 => failure e2
                  end
                else failure e
            end.
Proof.
  intros Hadm Hop Hbody Hne Hcases handled primary secondary success failure o1 o2 quota.
  destruct (keyToUse_cases _ _ _ Hne Hcases) as [Hor Htruthy].
  destruct (body_fields req b Hbody) as [HapiKey Htext].
  subst handled. rewrite (deployed_admitted v env_key rateLimit now req Hadm).
  unfold callsOf, replyOf.
  rewrite (rewrite_flow v env_key req b upstream u Hop Hbody);
    [|rewrite HapiKey; exact Htruthy].
  cbn zeta. rewrite HapiKey, Htext, Hor.
  change (proRequest (Some key) (Body.text b)) with primary.
  change (flashRequest (Some key) (Body.text b)) with secondary.
  subst quota o2 o1.
  destruct (upstream u primary) as [[text|e] u1]; cbn [fst snd].
  - split; [reflexivity|]. split; [reflexivity|]. destruct text; reflexivity.
  - destruct (isQuotaError e).
    + destruct (upstream u1 secondary) as [[text|e2] u2]; cbn [fst snd];
        (split; [reflexivity|]); (split; [reflexivity|]);
        [destruct text; reflexivity | reflexivity].
    + split; [reflexivity|]. split; reflexivity.
Qed.

Lemma fallback_only_on_quota_witness :
  admitted Express ∅ 1000 sampleRewrite = true
  /\ isRewrite Express sampleRewrite = true
  /\ req_body sampleRewrite
     = BObject {| Body.text := Some "The weather is nice today.";
                  Body.apiKey := Some "user-key" |}
  /\ "user-key" <> ""
  /\ (replyOf bothFailing (snd (deployed Express None ∅ 1000 sampleRewrite)) tt
      = Sent {| statusCode := 503; body := [("error", "The model is overloaded.")] |}
      /\ map model (callsOf bothFailing (snd (deployed Express None ∅ 1000 sampleRewrite)) tt)
         = ["gemini-3.1-pro-preview"; "gemini-3-flash-preview"])
  /\ (replyOf refusing (snd (deployed Express None ∅ 1000 sampleRewrite)) tt
      = Sent {| statusCode := 400;
                body := [("error", "API key not valid. Please pass a valid API key.")] |}
      /\ map model (callsOf refusing (snd (deployed Express None ∅ 1000 sampleRewrite)) tt)
         = ["gemini-3.1-pro-preview"])
  /\ replyOf proExhausted (snd (deployed Express None ∅ 1000 sampleRewrite)) tt
     = Sent {| statusCode := 200; body := [("text", "Fallback text")] |}.
Proof.
  assert (Hne : "user-key" <> "") by discriminate.
  split; [reflexivity|]. split; [reflexivity|]. split; [reflexivity|]. split; [exact Hne|].
  split; [|split].
  - split.
    + exact (proj2 (proj2 (fallback_only_on_quota Express None ∅ 1000 sampleRewrite _
                             "user-key" bothFailing tt eq_refl eq_refl eq_refl Hne
                             (or_introl eq_refl)))).
    + exact (f_equal (map model)
               (proj1 (fallback_only_on_quota Express None ∅ 1000 sampleRewrite _
                         "user-key" bothFailing tt eq_refl eq_refl eq_refl Hne
                         (or_introl eq_refl)))).
  - split.
    + exact (proj2 (proj2 (fallback_only_on_quota Express None ∅ 1000 sampleRewrite _
                             "user-key" refusing tt eq_refl eq_refl eq_refl Hne
                             (or_introl eq_refl)))).
    + exact (f_equal (map model)
               (proj1 (fallback_only_on_quota Express None ∅ 1000 sampleRewrite _
                         "user-key" refusing tt eq_refl eq_refl eq_refl Hne
                         (or_introl eq_refl)))).
  - exact (proj2 (proj2 (fallback_only_on_quota Express None ∅ 1000 sampleRewrite _
                           "user-key" proExhausted tt eq_refl eq_refl eq_refl Hne
                           (or_introl eq_refl)))).
Defined.

(** ** The quota check *)

Lemma prefix_append (p s : string) :
  String.prefix p s = true <-> exists post, s = String.append p post.
Proof.
  revert s. induction p as [|a p IH]; intros s.
  - split; [intros _; exists s; reflexivity | intros _; destruct s; reflexivity].
  - destruct s as [|b s]; cbn.
    + split; [discriminate | intros [post Hpost]; discriminate].
    + destruct (ascii_dec a b) as [->|Hne].
      * rewrite IH. split; intros [post Hpost]; exists post;
          rewrite append_cons in *; congruence.
      * split; [discriminate | intros [post Hpost]; rewrite append_cons in Hpost; congruence].
Qed.

Lemma includes_occurs (s sub : string) :
  Js.includes s sub = true <-> Occurs sub s.
Proof.
  unfold Occurs. induction s as [|a s IH]; cbn [Js.includes].
  - rewrite orb_false_r, prefix_append. split.
    + intros [post Hpost]. exists EmptyString, post. exact Hpost.
    + intros [pre [post Hs]]. destruct pre as [|b pre]; [|discriminate].
      exists post. exact Hs.
  - rewrite orb_true_iff, IH, prefix_append. split.
    + intros [[post Hpost]|[pre [post Hs]]].
      * exists EmptyString, post. exact Hpost.
      * exists (String a pre), post. rewrite append_cons, Hs. reflexivity.
    + intros [pre [post Hs]]. destruct pre as [|b pre].
      * left. exists post. exact Hs.
      * right. exists pre, post. rewrite append_cons in Hs. congruence.
Qed.

Lemma num_is_eq (a : option Z) (n : Z) : Js.num_is a n = true <-> a = Some n.
Proof.
  destruct a as [m|]; cbn; [|split; discriminate].
  rewrite Z.eqb_eq. split; congruence.
Qed.

Lemma str_is_eq (a : option string) (s : string) : Js.str_is a s = true <-> a = Some s.
Proof.
  destruct a as [t|]; cbn; [|split; discriminate].
  rewrite String.eqb_eq. split; congruence.
Qed.

Lemma opt_includes_occurs (a : option string) (sub : string) :
  Js.opt_includes a sub = true <-> exists m, a = Some m /\ Occurs sub m.
Proof.
  destruct a as [m|]; cbn.
  - rewrite includes_occurs. split.
    + intros Hocc. exists m. split; [reflexivity | exact Hocc].
    + intros [m' [[= <-] Hocc]]. exact Hocc.
  - split; [discriminate | intros [m [Hm _]]; discriminate].
Qed.

(** C2: [isQuotaError] accepts an error exactly when its status is 429, or
    its message contains ["429"] or ["RESOURCE_EXHAUSTED"], or it has a
    nested [error] whose code is 429 or whose status is
    ["RESOURCE_EXHAUSTED"], or its serialization contains
    ["RESOURCE_EXHAUSTED"]; an error with status 429 is accepted whatever
    its message and other fields are, and in the rewrite operation such a
    failure of the pro model is followed by a call of the flash model. *)
Theorem quota_check_cases :
  (forall e,
      isQuotaError e = true <->
      status e = Some 429
      \/ (exists m, message e = Some m /\ Occurs "429" m)
      \/ (exists m, message e = Some m /\ Occurs "RESOURCE_EXHAUSTED" m)
      \/ (exists nested, error e = Some nested /\ code nested = Some 429)
      \/ (exists nested, error e = Some nested
                         /\ nested_status nested = Some "RESOURCE_EXHAUSTED")
      \/ Occurs "RESOURCE_EXHAUSTED" (serialized e))
  /\ (forall msg nested ser,
         isQuotaError {| status := Some 429; message := msg;
                         error := nested; serialized := ser |} = true)
  /\ (forall v env_key (rateLimit : gmap MapKey RateRecord) now req b key
             (U : Type) (upstream : U -> GenerationRequest -> Awaited * U) (u : U) e,
         admitted v rateLimit now req = true ->
         isRewrite v req = true ->
         req_body req = BObject b ->
         key <> "" ->
         Body.apiKey b = Some key
         \/ ((Body.apiKey b = None \/ Body.apiKey b = Some "") /\ env_key = Some key) ->
         (forall u' call, model call = "gemini-3.1-pro-preview" ->
                          fst (upstream u' call) = Rejected e) ->
         status e = Some 429 ->
         map model (callsOf upstream (snd (deployed v env_key rateLimit now req)) u)
         = ["gemini-3.1-pro-preview"; "gemini-3-flash-preview"]).
Proof.
  split; [|split].
  - intros e. unfold isQuotaError, error_code, error_status.
    rewrite !orb_true_iff, !num_is_eq, !str_is_eq, !opt_includes_occurs, includes_occurs.
    assert (Hcode : match error e with Some n => code n | None => None end = Some 429
                    <-> exists nested, error e = Some nested /\ code nested = Some 429).
    { destruct (error e) as [n|].
      - split; [intros Hn; exists n; split; [reflexivity | exact Hn]|].
        intros [n' [[= <-] Hn]]. exact Hn.
      - split; [discriminate | intros [n' [Hn _]]; discriminate]. }
    assert (Hstatus : match error e with Some n => nested_status n | None => None end
                      = Some "RESOURCE_EXHAUSTED"
                      <-> exists nested, error e = Some nested
                                         /\ nested_status nested = Some "RESOURCE_EXHAUSTED").
    { destruct (error e) as [n|].
      - split; [intros Hn; exists n; split; [reflexivity | exact Hn]|].
        intros [n' [[= <-] Hn]]. exact Hn.
      - split; [discriminate | intros [n' [Hn _]]; discriminate]. }
    rewrite Hcode, Hstatus. tauto.
  - intros msg nested ser. reflexivity.
  - intros v env_key rateLimit now req b key U upstream u e
      Hadm Hop Hbody Hne Hcases Hpro Hstatus.
    destruct (keyToUse_cases _ _ _ Hne Hcases) as [Hor Htruthy].
    destruct (body_fields req b Hbody) as [HapiKey Htext].
    rewrite (deployed_admitted v env_key rateLimit now req Hadm).
    unfold callsOf.
    rewrite (rewrite_flow v env_key req b upstream u Hop Hbody);
      [|rewrite HapiKey; exact Htruthy].
    cbn zeta. rewrite HapiKey, Htext, Hor.
    pose proof (Hpro u (proRequest (Some key) (Body.text b)) eq_refl) as Hfails.
    destruct (upstream u (proRequest (Some key) (Body.text b))) as [o1 u1].
    cbn [fst] in Hfails. subst o1.
    assert (Hquota : isQuotaError e = true).
    { unfold isQuotaError. rewrite Hstatus. reflexivity. }
    rewrite Hquota.
    destruct (upstream u1 (flashRequest (Some key) (Body.text b))) as [o2 u2]. reflexivity.
Qed.

Lemma quota_check_cases_witness :
  (error nestedQuota = Some {| code := Some 429; nested_status := None |}
   /\ isQuotaError nestedQuota = true)
  /\ admitted Express ∅ 1000 sampleRewrite = true
  /\ isRewrite Express sampleRewrite = true
  /\ req_body sampleRewrite
     = BObject {| Body.text := Some "The weather is nice today.";
                  Body.apiKey := Some "user-key" |}
  /\ "user-key" <> ""
  /\ (forall u' call, model call = "gemini-3.1-pro-preview" ->
                      fst (proExhausted u' call) = Rejected quotaError)
  /\ status quotaError = Some 429
  /\ map model (callsOf proExhausted (snd (deployed Express None ∅ 1000 sampleRewrite)) tt)
     = ["gemini-3.1-pro-preview"; "gemini-3-flash-preview"].
Proof.
  assert (Hne : "user-key" <> "") by discriminate.
  assert (Hpro : forall u' call, model call = "gemini-3.1-pro-preview" ->
                                 fst (proExhausted u' call) = Rejected quotaError).
  { intros u' call Hmodel. unfold proExhausted. rewrite Hmodel. reflexivity. }
  split.
  { split; [reflexivity|].
    exact (proj2 (proj1 quota_check_cases nestedQuota)
             (or_intror (or_intror (or_intror (or_introl
                (ex_intro _ _ (conj eq_refl eq_refl))))))). }
  split; [reflexivity|]. split; [reflexivity|]. split; [reflexivity|]. split; [exact Hne|].
  split; [exact Hpro|]. split; [reflexivity|].
  exact (proj2 (proj2 quota_check_cases) Express None ∅ 1000 sampleRewrite _ "user-key" unit
           proExhausted tt quotaError eq_refl eq_refl eq_refl Hne (or_introl eq_refl)
           Hpro eq_refl).
Defined.

(** ** The verify operation *)

(** The verify operation of a variant without a key in the request. *)
Lemma verify_without_key v env_key req b :
  isVerify v req = true ->
  req_body req = BObject b ->
  Js.truthy (body_apiKey req) = false ->
  afterLimiter v env_key req = Ret (Sent keyRequired).
Proof.
  intros Hop Hbody Hkey.
  assert (Hflow : sent (tryCatchAll (Verify.attempt req) Verify.verificationError)
                  = Ret (Sent keyRequired)).
  { unfold Verify.attempt. unfold body_apiKey in Hkey.
    rewrite Hbody in *. rewrite Hkey. reflexivity. }
  destruct v; cbn [isVerify] in Hop; try discriminate; cbn [afterLimiter].
  - unfold Verify.afterLimiter. rewrite Hop. exact Hflow.
  - unfold VerifyPlain.handler. rewrite Hop. exact Hflow.
  - unfold Server.routes. rewrite Hop. exact Hflow.
Qed.

(** The verify operation of a variant for a request without a body: the
    destructuring throws, and the [catch] block answers. *)
Lemma verify_without_body v env_key req :
  isVerify v req = true ->
  nullish (req_body req) ->
  afterLimiter v env_key req
  = Ret (Sent (Verify.verificationError (cannotDestructure "apiKey" (req_body req)))).
Proof.
  intros Hop Hbody.
  assert (Hflow : sent (tryCatchAll (Verify.attempt req) Verify.verificationError)
                  = Ret (Sent (Verify.verificationError
                                 (cannotDestructure "apiKey" (req_body req))))).
  { unfold Verify.attempt.
    destruct (req_body req) as [b| |]; [destruct (Hbody b); reflexivity|reflexivity..]. }
  destruct v; cbn [isVerify] in Hop; try discriminate; cbn [afterLimiter].
  - unfold Verify.afterLimiter. rewrite Hop. exact Hflow.
  - unfold VerifyPlain.handler. rewrite Hop. exact Hflow.
  - unfold Server.routes. rewrite Hop. exact Hflow.
Qed.

(** The [catch] block of the verify operation answers the [TypeError] with
    status 400, the status ["invalid"] and the error's message. *)
Lemma verificationError_cannotDestructure property value :
  exists msg, message (cannotDestructure property value) = Some msg
              /\ Verify.verificationError (cannotDestructure property value)
                 = {| statusCode := 400; body := [("status", "invalid"); ("error", msg)] |}.
Proof.
  destruct (cannotDestructure_message property value) as (msg & Hmsg & Hne).
  exists msg. split; [exact Hmsg|].
  unfold Verify.verificationError. rewrite Hmsg. reflexivity.
Qed.

(** The verify operation of a variant with a key, run against any upstream
    service. *)
Lemma verify_flow v env_key req {U : Type}
    (upstream : U -> GenerationRequest -> Awaited * U) (u : U) :
  isVerify v req = true ->
  Js.truthy (body_apiKey req) = true ->
  exec upstream (afterLimiter v env_key req) u
  = let '(o, u1) := upstream u (probeRequest (body_apiKey req)) in
    (Sent match o with
          | Fulfilled _ => respond 200 [("status", Some "valid")]
          | Rejected e => Verify.verificationError e
          end,
     [probeRequest (body_apiKey req)], u1).
Proof.
  intros Hop Hkey.
  assert (Hflow : exec upstream
                    (sent (tryCatchAll (Verify.attempt req) Verify.verificationError)) u
                  = let '(o, u1) := upstream u (probeRequest (body_apiKey req)) in
                    (Sent match o with
                          | Fulfilled _ => respond 200 [("status", Some "valid")]
                          | Rejected e => Verify.verificationError e
                          end,
                     [probeRequest (body_apiKey req)], u1)).
  { unfold Verify.attempt. unfold body_apiKey in *.
    destruct (req_body req) as [b| |]; [|discriminate Hkey..]. rewrite Hkey. cbn.
    destruct (upstream u (probeRequest (Body.apiKey b))) as [[text|e] u1]; reflexivity. }
  destruct v; cbn [isVerify] in Hop; try discriminate; cbn [afterLimiter].
  - unfold Verify.afterLimiter. rewrite Hop. exact Hflow.
  - unfold VerifyPlain.handler. rewrite Hop. exact Hflow.
  - unfold Server.routes. rewrite Hop. exact Hflow.
Qed.

Lemma nullish_cases (value : BodyValue) :
  value = BUndefined \/ value = BNull -> nullish value.
Proof.
  intros [-> | ->] b; discriminate.
Qed.

(** C6, as stated, fails: a POST request that came without a body is not
    answered with ["API Key is required"].  Destructuring [req.body] throws,
    and the [catch] block answers 400 with the status ["invalid"] and the
    message of the [TypeError]. *)
Lemma bodiless_verify_is_invalid :
  snd (deployed ServerlessVerifyPlain None ∅ 1000 bodilessVerify)
  = Ret (Sent {| statusCode := 400;
                 body := [("status", "invalid");
                          ("error",
                           "Cannot destructure property 'apiKey' of 'req.body' as it is undefined.")] |})
  /\ snd (deployed ServerlessVerifyPlain None ∅ 1000 bodilessVerify)
     <> Ret (Sent {| statusCode := 400; body := [("error", "API Key is required")] |}).
Proof.
  split; [reflexivity|]. cbv. discriminate.
Qed.

(** C6, amended: the verify operation of the two serverless functions and of
    the Express route, for a request that is past the rate limiter (where
    there is one), whatever the server's default credential is.  When the
    request has a body: without an [apiKey] in it (absent or empty) the
    reply is 400 with the error ["API Key is required"] and nothing is
    called; otherwise exactly one call is made, to the flash model, with the
    request's key, the prompt ["Hi"] and no configuration, and the reply is
    200 with status ["valid"] when the call is fulfilled, and 400 with
    status ["invalid"] and the error's message when it fails, whatever the
    error is.  When the request has no body ([req.body] is [undefined] or
    [null]), the reply is 400 with status ["invalid"] and an error message,
    and nothing is called. *)
Theorem verify_contract v env_key (rateLimit : gmap MapKey RateRecord) now req
    {U : Type} (upstream : U -> GenerationRequest -> Awaited * U) (u : U) :
  admitted v rateLimit now req = true ->
  isVerify v req = true ->
  let handled := snd (deployed v env_key rateLimit now req) in
  (forall b,
      req_body req = BObject b ->
      Body.apiKey b = None \/ Body.apiKey b = Some "" ->
      handled = Ret (Sent {| statusCode := 400; body := [("error", "API Key is required")] |}))
  /\ (forall b key,
         req_body req = BObject b ->
         Body.apiKey b = Some key ->
         key <> "" ->
         let probe := {| apiKey := Some key;
                         model := "gemini-3-flash-preview";
                         contents := Some "Hi";
                         config := None |} in
         callsOf upstream handled u = [probe]
         /\ replyOf upstream handled u
            = Sent match fst (upstream u probe) with
                   | Fulfilled _ =>
                       {| statusCode := 200; body := [("status", "valid")] |}
                   | Rejected e =>
                       {| statusCode := 400;
                          body := match message e with
                                  | Some m => [("status", "invalid"); ("error", m)]
                                  | None => [("status", "invalid")]
                                  end |}
                   end)
  /\ (req_body req = BUndefined \/ req_body req = BNull ->
      exists msg,
        handled = Ret (Sent {| statusCode := 400;
                               body := [("status", "invalid"); ("error", msg)] |})).
Proof.
  intros Hadm Hop handled.
  subst handled. rewrite (deployed_admitted v env_key rateLimit now req Hadm).
  split; [|split].
  - intros b Hbody Hnone.
    apply (verify_without_key v env_key req b Hop Hbody).
    rewrite (proj1 (body_fields req b Hbody)). destruct Hnone as [-> | ->]; reflexivity.
  - intros b key Hbody Hkey Hne probe.
    assert (HapiKey : body_apiKey req = Some key).
    { rewrite (proj1 (body_fields req b Hbody)). exact Hkey. }
    assert (Htruthy : Js.truthy (body_apiKey req) = true).
    { rewrite HapiKey. cbn. apply String.eqb_neq in Hne. rewrite Hne. reflexivity. }
    unfold callsOf, replyOf.
    rewrite (verify_flow v env_key req upstream u Hop Htruthy). rewrite HapiKey.
    change (probeRequest (Some key)) with probe.
    destruct (upstream u probe) as [[text|e] u1]; cbn [fst snd].
    + split; reflexivity.
    + split; [reflexivity|]. unfold Verify.verificationError.
      destruct (message e); reflexivity.
  - intros Hbody. apply nullish_cases in Hbody.
    rewrite (verify_without_body v env_key req Hop Hbody).
    destruct (verificationError_cannotDestructure "apiKey" (req_body req)) as (msg & _ & ->).
    exists msg. reflexivity.
Qed.

Lemma verify_contract_witness :
  (admitted ServerlessVerifyPlain ∅ 1000 sampleVerify = true
   /\ isVerify ServerlessVerifyPlain sampleVerify = true
   /\ req_body sampleVerify = BObject {| Body.text := None; Body.apiKey := Some "user-key" |}
   /\ "user-key" <> ""
   /\ callsOf refusing
        (snd (deployed ServerlessVerifyPlain (Some "server-key") ∅ 1000 sampleVerify)) tt
      = [{| apiKey := Some "user-key"; model := "gemini-3-flash-preview";
            contents := Some "Hi"; config := None |}]
   /\ replyOf refusing
        (snd (deployed ServerlessVerifyPlain (Some "server-key") ∅ 1000 sampleVerify)) tt
      = Sent {| statusCode := 400;
                body := [("status", "invalid");
                         ("error", "API key not valid. Please pass a valid API key.")] |})
  /\ (admitted Express ∅ 1000 bodilessVerify = true
      /\ isVerify Express bodilessVerify = true
      /\ req_body bodilessVerify = BUndefined
      /\ exists msg,
           snd (deployed Express (Some "server-key") ∅ 1000 bodilessVerify)
           = Ret (Sent {| statusCode := 400;
                          body := [("status", "invalid"); ("error", msg)] |}))
  /\ (admitted ServerlessVerify ∅ 1000 keylessVerify = true
      /\ isVerify ServerlessVerify keylessVerify = true
      /\ req_body keylessVerify = BObject {| Body.text := None; Body.apiKey := None |}
      /\ snd (deployed ServerlessVerify (Some "server-key") ∅ 1000 keylessVerify)
         = Ret (Sent {| statusCode := 400; body := [("error", "API Key is required")] |})).
Proof.
  assert (Hne : "user-key" <> "") by discriminate.
  split; [|split].
  - split; [reflexivity|]. split; [reflexivity|]. split; [reflexivity|]. split; [exact Hne|].
    exact (proj1 (proj2 (verify_contract ServerlessVerifyPlain (Some "server-key") ∅ 1000
                           sampleVerify refusing tt eq_refl eq_refl))
             _ "user-key" eq_refl eq_refl Hne).
  - split; [reflexivity|]. split; [reflexivity|]. split; [reflexivity|].
    exact (proj2 (proj2 (verify_contract Express (Some "server-key") ∅ 1000
                           bodilessVerify answering tt eq_refl eq_refl))
             (or_introl eq_refl)).
  - split; [reflexivity|]. split; [reflexivity|]. split; [reflexivity|].
    exact (proj1 (verify_contract ServerlessVerify (Some "server-key") ∅ 1000
                    keylessVerify answering tt eq_refl eq_refl)
             _ eq_refl (or_introl eq_refl)).
Defined.

(** ** The rate limiter across the variants *)

(** C3, as stated, fails.  The plain verify function has no rate limiter:
    the 21st request of a client within a second is probed and answered like
    the first.  And the serverless rewrite and verify functions count
    separately: after twenty rewrite requests of a client, the same client's
    verify request within the same window, its 21st request, is admitted. *)
Lemma twenty_first_request_served :
  (exists p,
      serve ServerlessVerifyPlain None ∅ (replicate 21 (1000, sampleVerify)) !! 20%nat
      = Some (∅, p)
      /\ replyOf answering p tt
         = Sent {| statusCode := 200; body := [("status", "valid")] |})
  /\ (exists maps p,
         invokeEach None {| rewrite_rateLimit := ∅; verify_rateLimit := ∅ |}
           (replicate 20 (1000, RewriteEndpoint, sampleRewrite)
            ++ [(2000, VerifyEndpoint, sampleVerify)]) !! 20%nat
         = Some (maps, p)
         /\ rewrite_rateLimit maps !! sampleClient = Some {| count := 20; lastReset := 1000 |}
         /\ verify_rateLimit maps !! sampleClient = Some {| count := 1; lastReset := 2000 |}
         /\ replyOf answering p tt
            = {| statusCode := 200; body := [("status", "valid")] |}).
Proof.
  split.
  - eexists. split; [eapply serve_plain; reflexivity|].
    reflexivity.
  - eexists _, _. split; [vm_compute; reflexivity|].
    split; [vm_compute; reflexivity|]. split; [vm_compute; reflexivity|]. reflexivity.
Qed.

(** The verify operation answers 200, 400 or 405. *)
Lemma plain_verify_status req {U : Type}
    (upstream : U -> GenerationRequest -> Awaited * U) (u : U) :
  exists resp, replyOf upstream (sent (VerifyPlain.handler req)) u = Sent resp
               /\ (statusCode resp = 200 \/ statusCode resp = 400 \/ statusCode resp = 405).
Proof.
  change (sent (VerifyPlain.handler req)) with (afterLimiter ServerlessVerifyPlain None req).
  unfold replyOf.
  destruct (isVerify ServerlessVerifyPlain req) eqn:Hverify.
  - destruct (body_cases req) as [[b Hbody]|Hbody].
    + destruct (Js.truthy (body_apiKey req)) eqn:Hkey.
      * rewrite (verify_flow ServerlessVerifyPlain None req upstream u Hverify Hkey).
        destruct (upstream u (probeRequest (body_apiKey req))) as [[text|e] u1];
          eexists; (split; [reflexivity|]); [left | right; left]; reflexivity.
      * rewrite (verify_without_key ServerlessVerifyPlain None req b Hverify Hbody Hkey).
        eexists. split; [reflexivity|]. right; left; reflexivity.
    + rewrite (verify_without_body ServerlessVerifyPlain None req Hverify Hbody).
      eexists. split; [reflexivity|]. right; left; reflexivity.
  - rewrite (afterLimiter_other ServerlessVerifyPlain None req eq_refl Hverify).
    eexists. split; [reflexivity|]. right; right; reflexivity.
Qed.

(** C3, amended: per rate-limit map.  In every variant that carries the rate
    limiter (the serverless rewrite function and the rate-limited serverless
    verify function, each with a map of its own, and the Express server,
    where verify and rewrite requests share one), and for every client
    identifier [k]: when a request at [t0] opens a window and all requests of
    the list are counted under [k] no later than 60,000 ms after [t0], the
    request at position [i] (from 0) is handed on when [i < 20] and answered
    with 429 and the error ["Too many requests. Please try again later."]
    otherwise, whatever its operation; the stored count after it is
    [min (i + 1) 20], so a rejected request leaves it at 20.  The plain
    verify function never touches a map and never answers 429. *)
Theorem first_twenty_admitted :
  (forall v env_key k (rateLimit : gmap MapKey RateRecord) t0 r0 more i t r,
      windowOver rateLimit k t0 ->
      withinWindow v k t0 ((t0, r0) :: more) ->
      ((t0, r0) :: more) !! i = Some (t, r) ->
      serve v env_key rateLimit ((t0, r0) :: more) !! i
      = Some (<[k := {| count := Z.min (Z.of_nat i + 1) 20; lastReset := t0 |}]> rateLimit,
              if (i <? 20)%nat then afterLimiter v env_key r
              else Ret (Sent {| statusCode := 429;
                                body := [("error",
                                          "Too many requests. Please try again later.")] |})))
  /\ (forall env_key (rateLimit : gmap MapKey RateRecord) reqs i t r
             (U : Type) (upstream : U -> GenerationRequest -> Awaited * U) (u : U),
         reqs !! i = Some (t, r) ->
         exists p resp,
           serve ServerlessVerifyPlain env_key rateLimit reqs !! i = Some (rateLimit, p)
           /\ replyOf upstream p u = Sent resp
           /\ statusCode resp <> 429).
Proof.
  split.
  - intros v env_key k rateLimit t0 r0 more i t r Hover Hall Hi.
    exact (serve_new_window v env_key k rateLimit t0 r0 more i t r Hover Hall Hi).
  - intros env_key rateLimit reqs i t r U upstream u Hi.
    destruct (plain_verify_status r upstream u) as (resp & Hreply & Hstatus).
    exists (sent (VerifyPlain.handler r)), resp.
    split; [exact (serve_plain env_key reqs rateLimit i t r Hi)|].
    split; [exact Hreply|]. lia.
Qed.

Lemma first_twenty_admitted_witness :
  windowOver ∅ sampleClient 1000
  /\ withinWindow Express sampleClient 1000
       ((1000, sampleVerify) :: replicate 19 (2000, sampleRewrite) ++ [(61000, sampleVerify)])
  /\ ((1000, sampleVerify) :: replicate 19 (2000, sampleRewrite) ++ [(61000, sampleVerify)]) !! 20%nat
     = Some (61000, sampleVerify)
  /\ serve Express None ∅
       ((1000, sampleVerify) :: replicate 19 (2000, sampleRewrite) ++ [(61000, sampleVerify)]) !! 20%nat
     = Some (<[sampleClient := {| count := 20; lastReset := 1000 |}]> ∅,
             Ret (Sent {| statusCode := 429;
                          body := [("error", "Too many requests. Please try again later.")] |}))
  /\ (replicate 21 (1000, sampleVerify) !! 20%nat = Some (1000, sampleVerify)
      /\ exists p resp,
           serve ServerlessVerifyPlain None exhaustedMap (replicate 21 (1000, sampleVerify))
             !! 20%nat
           = Some (exhaustedMap, p)
           /\ replyOf answering p tt = Sent resp
           /\ statusCode resp <> 429).
Proof.
  assert (Hover : windowOver ∅ sampleClient 1000) by exact I.
  assert (Hall : withinWindow Express sampleClient 1000
       ((1000, sampleVerify) :: replicate 19 (2000, sampleRewrite) ++ [(61000, sampleVerify)])).
  { unfold withinWindow. cbn [replicate app].
    repeat (apply Forall_cons; split; [split; [reflexivity | vm_compute; discriminate]|]).
    apply Forall_nil_2. }
  split; [exact Hover|]. split; [exact Hall|]. split; [reflexivity|]. split.
  - exact (proj1 first_twenty_admitted Express None sampleClient ∅ 1000 sampleVerify
             (replicate 19 (2000, sampleRewrite) ++ [(61000, sampleVerify)])%list 20%nat
             61000 sampleVerify Hover Hall eq_refl).
  - split; [reflexivity|].
    exact (proj2 first_twenty_admitted None exhaustedMap (replicate 21 (1000, sampleVerify))
             20%nat 1000 sampleVerify unit answering tt eq_refl).
Defined.

(** ** Credential resolution *)





(** ** The client identifier *)

(** C7, as stated, fails.  The serverless rewrite function files a request
    without the header under ["unknown"], not under its peer address, and so
    does the rate-limited verify function.  The rewrite function files a
    request whose header is an array under the array object itself, not
    under its first value.  And the Express server files a request whose
    header is the empty string under the peer address. *)
Lemma serverless_ignores_peer_address :
  (clientOf ServerlessRewrite directRequest = Some (KString "unknown")
   /\ Spec.clientIdentifier directRequest = "10.0.0.1"
   /\ clientOf ServerlessRewrite directRequest
      <> Some (KString (Spec.clientIdentifier directRequest)))
  /\ clientOf ServerlessVerify directRequest = Some (KString "unknown")
  /\ (Spec.clientIdentifier proxiedRequest = "203.0.113.7"
      /\ clientOf ServerlessRewrite proxiedRequest = Some (KObject 1))
  /\ (Spec.clientIdentifier emptyHeaderRequest = ""
      /\ clientOf Express emptyHeaderRequest = Some (KString "10.0.0.1")).
Proof.
  split; [split; [reflexivity|]; split; [reflexivity | discriminate]|].
  split; [reflexivity|]. split; split; reflexivity.
Qed.

Lemma or_str_nonempty (s d : string) : s <> "" -> Js.or_str (Some s) d = s.
Proof.
  intros Hs. cbn. apply String.eqb_neq in Hs. rewrite Hs. reflexivity.
Qed.

Lemma or_str_falsy (a : option string) (d : string) :
  Js.truthy a = false -> Js.or_str a d = d.
Proof.
  destruct a as [s|]; cbn; [|reflexivity].
  destruct (String.eqb s ""); [reflexivity | discriminate].
Qed.

(** C7, amended.  The Express rate limiter files a request under the first
    value of [x-forwarded-for] (the header itself when it is a string, its
    first element when it is an array) if that is non-empty, otherwise under
    the socket address if that is non-empty, otherwise under ["unknown"].
    The serverless functions never read the socket address: the
    rate-limited verify function uses the first value of the header if it is
    non-empty and ["unknown"] otherwise; the rewrite function uses the
    header as it is, a non-empty string as a string key and an array as a
    key of its own, and ["unknown"] when the header is absent or empty.
    The header has no usable first value when it is absent, the empty
    string, an empty array, or an array that starts with the empty
    string. *)
Theorem client_identifier req :
  let noFirstValue :=
    x_forwarded_for req = None
    \/ x_forwarded_for req = Some (HString "")
    \/ (exists ref, x_forwarded_for req = Some (HArray ref []))
    \/ (exists ref rest, x_forwarded_for req = Some (HArray ref ("" :: rest))) in
  (forall first,
      x_forwarded_for req = Some (HString first)
      \/ (exists ref rest, x_forwarded_for req = Some (HArray ref (first :: rest))) ->
      first <> "" ->
      Server.ip req = KString first /\ Verify.ip req = KString first)
  /\ (forall s,
         x_forwarded_for req = Some (HString s) -> s <> "" ->
         Rewrite.ip req = KString s)
  /\ (forall ref values,
         x_forwarded_for req = Some (HArray ref values) ->
         Rewrite.ip req = KObject ref)
  /\ (forall peer,
         noFirstValue ->
         remoteAddress req = Some peer -> peer <> "" ->
         Server.ip req = KString peer)
  /\ (noFirstValue ->
      remoteAddress req = None \/ remoteAddress req = Some "" ->
      Server.ip req = KString "unknown")
  /\ (noFirstValue ->
      Verify.ip req = KString "unknown")
  /\ (x_forwarded_for req = None \/ x_forwarded_for req = Some (HString "") ->
      Rewrite.ip req = KString "unknown").
Proof.
  intros noFirstValue.
  assert (Hnone : noFirstValue -> Js.truthy (firstForwarded (x_forwarded_for req)) = false).
  { intros [H|[H|[[ref H]|[ref [rest H]]]]]; rewrite H; reflexivity. }
  assert (Hsome : forall first,
             x_forwarded_for req = Some (HString first)
             \/ (exists ref rest, x_forwarded_for req = Some (HArray ref (first :: rest))) ->
             firstForwarded (x_forwarded_for req) = Some first).
  { intros first [H|[ref [rest H]]]; rewrite H; reflexivity. }
  unfold Server.ip, Verify.ip, Rewrite.ip.
  split; [|split; [|split; [|split; [|split; [|split]]]]].
  - intros first Hfirst Hne. rewrite (Hsome first Hfirst). split.
    + unfold Js.or. cbn [Js.truthy].
      apply String.eqb_neq in Hne. rewrite Hne. cbn [negb].
      apply String.eqb_neq in Hne. rewrite (or_str_nonempty _ _ Hne). reflexivity.
    + rewrite (or_str_nonempty _ _ Hne). reflexivity.
  - intros s Hs Hne. rewrite Hs. apply String.eqb_neq in Hne. rewrite Hne. reflexivity.
  - intros ref values Hs. rewrite Hs. reflexivity.
  - intros peer Hfirst Hpeer Hne. unfold Js.or. rewrite (Hnone Hfirst), Hpeer.
    rewrite (or_str_nonempty _ _ Hne). reflexivity.
  - intros Hfirst Hpeer. unfold Js.or. rewrite (Hnone Hfirst).
    destruct Hpeer as [-> | ->]; reflexivity.
  - intros Hfirst. rewrite (or_str_falsy _ _ (Hnone Hfirst)). reflexivity.
  - intros [Hnone'|Hempty]; [rewrite Hnone' | rewrite Hempty]; reflexivity.
Qed.

Lemma client_identifier_witness :
  x_forwarded_for proxiedRequest = Some (HArray 1 ["203.0.113.7"; "198.51.100.2"])
  /\ "203.0.113.7" <> ""
  /\ (Server.ip proxiedRequest = KString "203.0.113.7"
      /\ Verify.ip proxiedRequest = KString "203.0.113.7")
  /\ Rewrite.ip proxiedRequest = KObject 1
  /\ (x_forwarded_for directRequest = None
      /\ remoteAddress directRequest = Some "10.0.0.1"
      /\ "10.0.0.1" <> ""
      /\ Server.ip directRequest = KString "10.0.0.1"
      /\ Verify.ip directRequest = KString "unknown").
Proof.
  assert (Hne : "203.0.113.7" <> "") by discriminate.
  assert (Hpeer : "10.0.0.1" <> "") by discriminate.
  split; [reflexivity|]. split; [exact Hne|]. split; [|split].
  - exact (proj1 (client_identifier proxiedRequest) "203.0.113.7"
             (or_intror (ex_intro _ 1%positive (ex_intro _ ["198.51.100.2"] eq_refl))) Hne).
  - exact (proj1 (proj2 (proj2 (client_identifier proxiedRequest)))
             1%positive ["203.0.113.7"; "198.51.100.2"] eq_refl).
  - split; [reflexivity|]. split; [reflexivity|]. split; [exact Hpeer|]. split.
    + exact (proj1 (proj2 (proj2 (proj2 (client_identifier directRequest))))
               "10.0.0.1" (or_introl eq_refl) eq_refl Hpeer).
    + exact (proj1 (proj2 (proj2 (proj2 (proj2 (proj2 (client_identifier directRequest))))))
               (or_introl eq_refl)).
Defined.

(** ** The serverless rewrite function against the Express route *)

(** C8, as stated, fails: for a request without the forwarded-address header
    the two variants count under different keys, so the maps they leave
    differ. *)
Lemma variants_differ_without_header :
  deployed ServerlessRewrite None ∅ 1000 directRequest
  <> deployed Express None ∅ 1000 directRequest.
Proof.
  intros Heq.
  apply (f_equal (fun served => fst served !! KString "unknown")) in Heq.
  vm_compute in Heq. discriminate Heq.
Qed.

(** With a non-empty string as header both variants derive the same key. *)
Lemma same_key_for_string_header req s :
  x_forwarded_for req = Some (HString s) -> s <> "" ->
  Rewrite.ip req = Server.ip req.
Proof.
  intros Hs Hne. unfold Rewrite.ip, Server.ip, Js.or. rewrite Hs. cbn.
  apply String.eqb_neq in Hne. rewrite Hne. cbn. rewrite Hne. reflexivity.
Qed.

(** C8, amended: for every POST request to [/api/rewrite] for which the two
    variants derive the same client identifier (as they do when
    [x-forwarded-for] is a non-empty string), the serverless rewrite function
    and the Express server, started with the same rate-limit map, leave the
    same map and answer through the same interaction: the same upstream
    calls, status and body. *)
Theorem rewrite_variants_agree env_key (rateLimit : gmap MapKey RateRecord) now req :
  method req = "POST" ->
  url req = "/api/rewrite" ->
  Rewrite.ip req = Server.ip req ->
  deployed ServerlessRewrite env_key rateLimit now req
  = deployed Express env_key rateLimit now req.
Proof.
  intros Hpost Hurl Hip.
  assert (Hunder : Server.underApi (url req) = true) by (rewrite Hurl; reflexivity).
  rewrite (deployed_counted ServerlessRewrite env_key rateLimit now req (Rewrite.ip req) eq_refl).
  rewrite (deployed_counted Express env_key rateLimit now req (Rewrite.ip req)).
  2: { cbn [clientOf]. rewrite Hunder, Hip. reflexivity. }
  destruct (rateLimitCheck rateLimit (Rewrite.ip req) now); [|reflexivity].
  f_equal. cbn [afterLimiter].
  unfold Rewrite.afterLimiter, Server.routes. rewrite Hpost, Hurl. reflexivity.
Qed.

Lemma rewrite_variants_agree_witness :
  method sampleRewrite = "POST"
  /\ url sampleRewrite = "/api/rewrite"
  /\ Rewrite.ip sampleRewrite = Server.ip sampleRewrite
  /\ deployed ServerlessRewrite (Some "server-key") ∅ 1000 sampleRewrite
     = deployed Express (Some "server-key") ∅ 1000 sampleRewrite.
Proof.
  split; [reflexivity|]. split; [reflexivity|]. split; [reflexivity|].
  exact (rewrite_variants_agree (Some "server-key") ∅ 1000 sampleRewrite
           eq_refl eq_refl eq_refl).
Defined.

(** ** The shape of the responses *)

(** C9, as stated, fails.  When the pro call is fulfilled without text, the
    serverless rewrite function answers 200 with an empty object, which has
    neither a [text] nor an [error] field.  And when the probe of the verify
    operation fails with an error that has no message, the reply is 400 with
    the status ["invalid"] alone, without an [error] field. *)
Lemma textless_success_has_empty_body :
  (replyOf textless (snd (deployed ServerlessRewrite None ∅ 1000 sampleRewrite)) tt
   = Sent {| statusCode := 200; body := [] |}
   /\ ~ Spec.bodyAsSpecified {| statusCode := 200; body := [] |})
  /\ (replyOf failingSilently (snd (deployed ServerlessVerifyPlain None ∅ 1000 sampleVerify)) tt
      = Sent {| statusCode := 400; body := [("status", "invalid")] |}
      /\ ~ Spec.bodyAsSpecified {| statusCode := 400; body := [("status", "invalid")] |}).
Proof.
  split; (split; [reflexivity|]);
    unfold Spec.bodyAsSpecified; cbn; intros [Herr|[Htext|Hvalid]]; congruence.
Qed.

(** A request is answered by the 429 response or by what comes after the
    rate limiter. *)
Lemma deployed_cases v env_key (rateLimit : gmap MapKey RateRecord) now req :
  snd (deployed v env_key rateLimit now req) = Ret (Sent tooManyRequests)
  \/ snd (deployed v env_key rateLimit now req) = afterLimiter v env_key req.
Proof.
  destruct (clientOf v req) as [k|] eqn:Hclient.
  - rewrite (deployed_counted _ _ _ _ _ _ Hclient).
    destruct (rateLimitCheck rateLimit k now); [right | left]; reflexivity.
  - right. destruct v; cbn [clientOf] in Hclient; try discriminate.
    + reflexivity.
    + cbn [deployed afterLimiter]. unfold Server.app.
      destruct (Server.underApi (url req)); [discriminate | reflexivity].
Qed.

(** C9, amended: every response of every operation of every variant has an
    [error] field, or is a success payload with status 200 (the rewritten
    [text], or the status ["valid"] alone), with two exceptions.  A rewrite
    is answered 200 with the empty object, only when an upstream call it
    made was fulfilled without text; a verify is answered 400 with the
    status ["invalid"] alone, only when its probe failed with an error that
    has no message. *)
Theorem responses_are_unambiguous v env_key (rateLimit : gmap MapKey RateRecord) now req
    {U : Type} (upstream : U -> GenerationRequest -> Awaited * U) (u : U) (r : Response) :
  let handled := snd (deployed v env_key rateLimit now req) in
  replyOf upstream handled u = Sent r ->
  field "error" (body r) <> None
  \/ (statusCode r = 200 /\ field "text" (body r) <> None)
  \/ (statusCode r = 200 /\ body r = [("status", "valid")])
  \/ (isRewrite v req = true
      /\ r = {| statusCode := 200; body := [] |}
      /\ exists u' call,
           In call (callsOf upstream handled u)
           /\ fst (upstream u' call) = Fulfilled None)
  \/ (isVerify v req = true
      /\ r = {| statusCode := 400; body := [("status", "invalid")] |}
      /\ exists u' call e,
           In call (callsOf upstream handled u)
           /\ fst (upstream u' call) = Rejected e
           /\ message e = None).
Proof.
  intros handled. subst handled.
  destruct (deployed_cases v env_key rateLimit now req) as [-> | ->].
  { intros [= <-]. left. discriminate. }
  unfold replyOf, callsOf.
  destruct (isRewrite v req) eqn:Hrewrite.
  - destruct (body_cases req) as [[b Hbody]|Hbody].
    + destruct (Js.truthy (Js.or (body_apiKey req) env_key)) eqn:Hkey.
      * rewrite (rewrite_flow v env_key req b upstream u Hrewrite Hbody Hkey). cbn zeta.
        destruct (upstream u (proRequest (Js.or (body_apiKey req) env_key) (body_text req)))
          as [[text|e] u1] eqn:Hpro; cbn [fst snd].
        -- intros [= <-]. destruct text as [text|].
           ++ right. left. split; [reflexivity | discriminate].
           ++ right. right. right. left.
              split; [reflexivity|]. split; [reflexivity|].
              eexists u, _. split; [left; reflexivity|]. rewrite Hpro. reflexivity.
        -- destruct (isQuotaError e).
           ++ destruct (upstream u1 (flashRequest (Js.or (body_apiKey req) env_key)
                                       (body_text req)))
                as [[text|e2] u2] eqn:Hflash; cbn [fst snd].
              ** intros [= <-]. destruct text as [text|].
                 --- right. left. split; [reflexivity | discriminate].
                 --- right. right. right. left.
                     split; [reflexivity|]. split; [reflexivity|].
                     eexists u1, _. split; [right; left; reflexivity|].
                     rewrite Hflash. reflexivity.
              ** intros [= <-]. left. discriminate.
           ++ intros [= <-]. left. discriminate.
      * rewrite (rewrite_without_key v env_key req b Hrewrite Hbody Hkey).
        intros [= <-]. left. discriminate.
    + rewrite (rewrite_without_body v env_key req Hrewrite Hbody).
      destruct (serverError_cannotDestructure "text" (req_body req)) as (msg & _ & ->).
      intros [= <-]. left. discriminate.
  - destruct (isVerify v req) eqn:Hverify.
    + destruct (body_cases req) as [[b Hbody]|Hbody].
      * destruct (Js.truthy (body_apiKey req)) eqn:Hkey.
        -- rewrite (verify_flow v env_key req upstream u Hverify Hkey).
           destruct (upstream u (probeRequest (body_apiKey req)))
             as [[text|e] u1] eqn:Hprobe; cbn [fst snd].
           ++ intros [= <-]. right. right. left. split; reflexivity.
           ++ intros [= <-]. unfold Verify.verificationError.
              destruct (message e) as [msg|] eqn:Hmsg.
              ** left. discriminate.
              ** right. right. right. right.
                 split; [reflexivity|]. split; [reflexivity|].
                 eexists u, _, e. split; [left; reflexivity|].
                 rewrite Hprobe. split; [reflexivity | exact Hmsg].
        -- rewrite (verify_without_key v env_key req b Hverify Hbody Hkey).
           intros [= <-]. left. discriminate.
      * rewrite (verify_without_body v env_key req Hverify Hbody).
        destruct (verificationError_cannotDestructure "apiKey" (req_body req))
          as (msg & _ & ->).
        intros [= <-]. left. discriminate.
    + rewrite (afterLimiter_other v env_key req Hrewrite Hverify).
      destruct v; intros [= <-]; left; discriminate.
Qed.

Lemma responses_are_unambiguous_witness :
  replyOf proExhausted (snd (deployed Express None ∅ 1000 sampleRewrite)) tt
  = Sent {| statusCode := 200; body := [("text", "Fallback text")] |}
  /\ (field "error" [("text", "Fallback text")] <> None
      \/ (200 = 200 /\ field "text" [("text", "Fallback text")] <> None)
      \/ (200 = 200 /\ [("text", "Fallback text")] = [("status", "valid")])
      \/ (isRewrite Express sampleRewrite = true
          /\ {| statusCode := 200; body := [("text", "Fallback text")] |}
             = {| statusCode := 200; body := [] |}
          /\ exists u' call,
               In call (callsOf proExhausted
                          (snd (deployed Express None ∅ 1000 sampleRewrite)) tt)
               /\ fst (proExhausted u' call) = Fulfilled None)
      \/ (isVerify Express sampleRewrite = true
          /\ {| statusCode := 200; body := [("text", "Fallback text")] |}
             = {| statusCode := 400; body := [("status", "invalid")] |}
          /\ exists u' call e,
               In call (callsOf proExhausted
                          (snd (deployed Express None ∅ 1000 sampleRewrite)) tt)
               /\ fst (proExhausted u' call) = Rejected e
               /\ message e = None)).
Proof.
  split; [reflexivity|].
  exact (responses_are_unambiguous Express None ∅ 1000 sampleRewrite proExhausted tt
           {| statusCode := 200; body := [("text", "Fallback text")] |} eq_refl).
Defined.

(** ** Worked examples *)

(** A rewrite request answered by the pro model. *)
Example rewrite_end_to_end :
  replyOf answering (snd (deployed ServerlessRewrite None ∅ 1000 sampleRewrite)) tt
  = Sent {| statusCode := 200; body := [("text", "It's a decent day, I guess.")] |}
  /\ callsOf answering (snd (deployed ServerlessRewrite None ∅ 1000 sampleRewrite)) tt
     = [proRequest (Some "user-key") (Some "The weather is nice today.")].
Proof. split; reflexivity. Qed.

(** The flash model's failure is answered with its own status and message. *)
Example fallback_failure_keeps_its_status :
  replyOf bothFailing (snd (deployed Express None ∅ 1000 sampleRewrite)) tt
  = Sent {| statusCode := 503; body := [("error", "The model is overloaded.")] |}.
Proof. reflexivity. Qed.

(** Exactly 60,000 ms after the window start the window is not over yet: an
    exhausted client is still rejected and its record untouched. *)
Example still_rejected_at_window_end :
  deployed ServerlessRewrite None exhaustedMap 61000 sampleRewrite
  = (exhaustedMap, Ret (Sent tooManyRequests)).
Proof.
  rewrite (deployed_counted ServerlessRewrite None exhaustedMap 61000 sampleRewrite
             sampleClient eq_refl).
  unfold rateLimitCheck, exhaustedMap. rewrite lookup_singleton_eq. reflexivity.
Qed.

(** The plain verify function has no rate limiter: it probes the upstream
    service whatever a map says. *)
Example plain_verify_is_not_limited :
  deployed ServerlessVerifyPlain None exhaustedMap 2000 sampleVerify
  = (exhaustedMap, afterLimiter ServerlessVerifyPlain None sampleVerify)
  /\ firstCall (afterLimiter ServerlessVerifyPlain None sampleVerify)
     = Some (probeRequest (Some "user-key")).
Proof. split; reflexivity. Qed.

(** * Further properties *)

(** ** The rate-limit map over time *)

(** What the rate-limiting statements do to the map, case by case. *)
Lemma rateLimitCheck_cases (rateLimit : gmap MapKey RateRecord) k now :
  match rateLimitCheck rateLimit k now with
  | None =>
      exists record, rateLimit !! k = Some record
                     /\ now - lastReset record <= WINDOW_MS
                     /\ MAX_REQUESTS <= count record
  | Some rateLimit' =>
      (windowOver rateLimit k now
       /\ rateLimit' = <[k := {| count := 1; lastReset := now |}]> rateLimit)
      \/ (exists record, rateLimit !! k = Some record
                         /\ now - lastReset record <= WINDOW_MS
                         /\ count record < MAX_REQUESTS
                         /\ rateLimit' = <[k := {| count := count record + 1;
                                                   lastReset := lastReset record |}]> rateLimit)
  end.
Proof.
  destruct (rateLimit !! k) as [[c t0]|] eqn:Hk.
  - destruct (Z_le_gt_dec (now - t0) WINDOW_MS) as [Hin|Hout].
    + rewrite (rateLimitCheck_within _ _ _ _ _ Hk Hin).
      destruct (Z.geb_spec c MAX_REQUESTS) as [Hfull|Hroom].
      * exists {| count := c; lastReset := t0 |}. cbn. auto.
      * right. exists {| count := c; lastReset := t0 |}. cbn. auto.
    + rewrite rateLimitCheck_over; [|unfold windowOver; rewrite Hk; exact Hout].
      left. split; [unfold windowOver; rewrite Hk; exact Hout | reflexivity].
  - rewrite rateLimitCheck_over; [|unfold windowOver; rewrite Hk; exact I].
    left. split; [unfold windowOver; rewrite Hk; exact I | reflexivity].
Qed.

(** A request that no rate limiter counts leaves the map as it is. *)
Lemma deployed_uncounted v env_key (rateLimit : gmap MapKey RateRecord) now req :
  clientOf v req = None ->
  fst (deployed v env_key rateLimit now req) = rateLimit.
Proof.
  destruct v; cbn [clientOf deployed]; try discriminate.
  - reflexivity.
  - unfold Server.app. destruct (Server.underApi (url req)); [discriminate | reflexivity].
Qed.

(** The map after a counted request. *)
Lemma deployed_counted_map v env_key (rateLimit : gmap MapKey RateRecord) now req k :
  clientOf v req = Some k ->
  fst (deployed v env_key rateLimit now req)
  = match rateLimitCheck rateLimit k now with
    | None => rateLimit
    | Some rateLimit' => rateLimit'
    end.
Proof.
  intros Hclient. rewrite (deployed_counted _ _ _ _ _ _ Hclient).
  destruct (rateLimitCheck rateLimit k now); reflexivity.
Qed.

Lemma deployed_frame v env_key (rateLimit : gmap MapKey RateRecord) now req k :
  clientOf v req <> Some k ->
  fst (deployed v env_key rateLimit now req) !! k = rateLimit !! k.
Proof.
  intros Hother. destruct (clientOf v req) as [k0|] eqn:Hclient.
  - rewrite (deployed_counted_map _ _ _ _ _ _ Hclient).
    pose proof (rateLimitCheck_cases rateLimit k0 now) as Hcases.
    destruct (rateLimitCheck rateLimit k0 now) as [rateLimit'|]; [|reflexivity].
    assert (Hne : k0 <> k) by congruence.
    destruct Hcases as [[_ ->]|[record [_ [_ [_ ->]]]]]; apply lookup_insert_ne; exact Hne.
  - rewrite (deployed_uncounted _ _ _ _ _ Hclient). reflexivity.
Qed.

(** X1: a request changes no record but the one of its own client
    identifier. *)
Theorem other_clients_untouched v env_key (rateLimit : gmap MapKey RateRecord) now req k :
  clientOf v req <> Some k ->
  fst (deployed v env_key rateLimit now req) !! k = rateLimit !! k.
Proof. exact (deployed_frame v env_key rateLimit now req k). Qed.

Lemma other_clients_untouched_witness :
  clientOf Express sampleRewrite <> Some (KString "198.51.100.9")
  /\ fst (deployed Express None
            {[KString "198.51.100.9" := {| count := 20; lastReset := 0 |}]} 1000 sampleRewrite)
       !! KString "198.51.100.9"
     = ({[KString "198.51.100.9" := {| count := 20; lastReset := 0 |}]}
          : gmap MapKey RateRecord) !! KString "198.51.100.9".
Proof.
  assert (Hother : clientOf Express sampleRewrite <> Some (KString "198.51.100.9"))
    by (vm_compute; discriminate).
  split; [exact Hother|].
  exact (other_clients_untouched Express None _ 1000 sampleRewrite _ Hother).
Defined.

Lemma deployed_keeps_counts_bounded v env_key (rateLimit : gmap MapKey RateRecord) now req :
  boundedCounts rateLimit ->
  boundedCounts (fst (deployed v env_key rateLimit now req)).
Proof.
  intros Hbounded. destruct (clientOf v req) as [k|] eqn:Hclient.
  - rewrite (deployed_counted_map _ _ _ _ _ _ Hclient).
    pose proof (rateLimitCheck_cases rateLimit k now) as Hcases.
    destruct (rateLimitCheck rateLimit k now) as [rateLimit'|]; [|exact Hbounded].
    destruct Hcases as [[_ ->]|[record [Hk [_ [Hroom ->]]]]];
      apply map_Forall_insert_2; try exact Hbounded; cbn [count]; unfold MAX_REQUESTS in *.
    + lia.
    + pose proof (map_Forall_lookup_1 _ _ _ _ Hbounded Hk) as Hrec. cbn in Hrec.
      unfold MAX_REQUESTS in Hrec. lia.
  - rewrite (deployed_uncounted _ _ _ _ _ Hclient). exact Hbounded.
Qed.

(** X2: when every stored count lies between 1 and 20, as in the empty map
    a deployment starts with, this still holds after every request of any
    sequence, whatever the requests and the clock readings are. *)
Theorem counts_stay_bounded v env_key (rateLimit : gmap MapKey RateRecord) reqs :
  boundedCounts rateLimit ->
  Forall (fun served => boundedCounts (fst served)) (serve v env_key rateLimit reqs).
Proof.
  revert rateLimit. induction reqs as [|[now req] reqs IH]; intros rateLimit Hbounded.
  - apply Forall_nil_2.
  - cbn [serve].
    pose proof (deployed_keeps_counts_bounded v env_key rateLimit now req Hbounded) as Hstep.
    destruct (deployed v env_key rateLimit now req) as [rateLimit' reply].
    cbn [fst] in Hstep. apply Forall_cons. split; [exact Hstep|].
    apply IH. exact Hstep.
Qed.

Lemma counts_stay_bounded_witness :
  boundedCounts ∅
  /\ Forall (fun served => boundedCounts (fst served))
       (serve Express None ∅ (replicate 25 (1000, sampleVerify))).
Proof.
  assert (Hempty : boundedCounts ∅) by apply map_Forall_empty.
  split; [exact Hempty|].
  exact (counts_stay_bounded Express None ∅ (replicate 25 (1000, sampleVerify)) Hempty).
Defined.

Lemma deployed_keeps_records v env_key (rateLimit : gmap MapKey RateRecord) now req k record :
  rateLimit !! k = Some record ->
  exists record', fst (deployed v env_key rateLimit now req) !! k = Some record'
                  /\ lastReset record <= lastReset record'.
Proof.
  intros Hk. destruct (decide (clientOf v req = Some k)) as [Hclient|Hother].
  - rewrite (deployed_counted_map _ _ _ _ _ _ Hclient).
    pose proof (rateLimitCheck_cases rateLimit k now) as Hcases.
    destruct (rateLimitCheck rateLimit k now) as [rateLimit'|].
    + destruct Hcases as [[Hover ->]|[old [Hold [_ [_ ->]]]]];
        rewrite lookup_insert_eq; eexists; (split; [reflexivity|]); cbn [lastReset].
      * unfold windowOver in Hover. rewrite Hk in Hover. unfold WINDOW_MS in Hover. lia.
      * rewrite Hk in Hold. injection Hold as <-. lia.
    + exists record. split; [exact Hk | lia].
  - exists record. split; [|lia].
    rewrite (deployed_frame _ _ _ _ _ _ Hother). exact Hk.
Qed.

(** X3: no request ever removes a record, and the window start of a record
    never moves backwards: a client that has a record keeps one through
    every sequence of requests, with a window start at least as late. *)
Theorem records_are_kept v env_key (rateLimit : gmap MapKey RateRecord) reqs k record :
  rateLimit !! k = Some record ->
  Forall (fun served =>
            exists record', fst served !! k = Some record'
                            /\ lastReset record <= lastReset record')
         (serve v env_key rateLimit reqs).
Proof.
  revert rateLimit record.
  induction reqs as [|[now req] reqs IH]; intros rateLimit record Hk.
  - apply Forall_nil_2.
  - cbn [serve].
    destruct (deployed_keeps_records v env_key rateLimit now req k record Hk)
      as [record1 [Hk1 Hle1]].
    destruct (deployed v env_key rateLimit now req) as [rateLimit' reply].
    cbn [fst] in Hk1. apply Forall_cons. split.
    + exists record1. split; [exact Hk1 | exact Hle1].
    + eapply Forall_impl; [exact (IH rateLimit' record1 Hk1)|].
      intros served [record' [Hk' Hle']]. exists record'. split; [exact Hk' | lia].
Qed.

Lemma records_are_kept_witness :
  exhaustedMap !! sampleClient = Some {| count := 20; lastReset := 1000 |}
  /\ Forall (fun served =>
               exists record', fst served !! sampleClient = Some record'
                               /\ lastReset {| count := 20; lastReset := 1000 |}
                                  <= lastReset record')
            (serve ServerlessRewrite None exhaustedMap
               [(2000, sampleRewrite); (500, sampleGet); (70000, sampleRewrite)]).
Proof.
  assert (Hk : exhaustedMap !! sampleClient = Some {| count := 20; lastReset := 1000 |})
    by (unfold exhaustedMap; apply lookup_singleton_eq).
  split; [exact Hk|].
  exact (records_are_kept ServerlessRewrite None exhaustedMap
           [(2000, sampleRewrite); (500, sampleGet); (70000, sampleRewrite)]
           sampleClient _ Hk).
Defined.

(** ** How many requests get through *)

Lemma admitted_counted v (rateLimit : gmap MapKey RateRecord) now req k :
  clientOf v req = Some k ->
  admitted v rateLimit now req
  = match rateLimitCheck rateLimit k now with
    | Some _ => true
    | None => false
    end.
Proof. intros Hclient. unfold admitted. rewrite Hclient. reflexivity. Qed.

(** Within the window of a record with count [c], at most [20 - c] further
    requests of the client get through. *)
Lemma admissions_within v env_key k t0 :
  forall reqs (rateLimit : gmap MapKey RateRecord) c,
    0 <= c <= MAX_REQUESTS ->
    rateLimit !! k = Some {| count := c; lastReset := t0 |} ->
    withinWindow v k t0 reqs ->
    Z.of_nat (admissions v env_key rateLimit reqs) <= MAX_REQUESTS - c.
Proof.
  unfold MAX_REQUESTS.
  induction reqs as [|[t r] reqs IH]; intros rateLimit c Hc Hk Hall.
  - cbn. lia.
  - apply Forall_cons in Hall as [[Hclient Hin] Hall]. cbn [fst snd] in *.
    cbn [admissions].
    rewrite (admitted_counted _ _ _ _ _ Hclient), (deployed_counted_map _ _ _ _ _ _ Hclient).
    rewrite (rateLimitCheck_within _ _ _ _ _ Hk Hin). unfold MAX_REQUESTS.
    destruct (Z.geb_spec c 20) as [Hfull|Hroom].
    + pose proof (IH rateLimit c Hc Hk Hall). lia.
    + pose proof (IH (<[k := {| count := c + 1; lastReset := t0 |}]> rateLimit) (c + 1)
                    ltac:(lia) (lookup_insert_eq _ _ _) Hall). lia.
Qed.

Lemma withinSpan_window v k a t reqs :
  a <= t -> withinSpan v k a reqs -> withinWindow v k t reqs.
Proof.
  intros Hat Hall. eapply Forall_impl; [exact Hall|].
  intros [t' r'] [Hclient Hspan]. cbn [fst snd] in *. split; [exact Hclient | lia].
Qed.

Lemma admissions_span v env_key k a :
  forall reqs (rateLimit : gmap MapKey RateRecord),
    match rateLimit !! k with
    | Some record => 0 <= count record <= MAX_REQUESTS
    | None => True
    end ->
    withinSpan v k a reqs ->
    Z.of_nat (admissions v env_key rateLimit reqs)
    <= match rateLimit !! k with
       | Some record => (MAX_REQUESTS - count record) + MAX_REQUESTS
       | None => MAX_REQUESTS
       end.
Proof.
  unfold MAX_REQUESTS.
  induction reqs as [|[t r] reqs IH]; intros rateLimit Hc Hall.
  - cbn. destruct (rateLimit !! k) as [record|]; lia.
  - pose proof Hall as Hall0.
    apply Forall_cons in Hall as [[Hclient Hspan] Hall]. cbn [fst snd] in *.
    cbn [admissions].
    rewrite (admitted_counted _ _ _ _ _ Hclient), (deployed_counted_map _ _ _ _ _ _ Hclient).
    assert (Hfresh : windowOver rateLimit k t ->
              Z.of_nat ((if match rateLimitCheck rateLimit k t with
                             | Some _ => true
                             | None => false
                             end then 1 else 0)
                        + admissions v env_key
                            match rateLimitCheck rateLimit k t with
                            | Some rateLimit' => rateLimit'
                            | None => rateLimit
                            end reqs) <= 20).
    { intros Hover. rewrite (rateLimitCheck_over _ _ _ Hover).
      pose proof (admissions_within v env_key k t reqs
                    (<[k := {| count := 1; lastReset := t |}]> rateLimit) 1
                    ltac:(unfold MAX_REQUESTS; lia) (lookup_insert_eq _ _ _)
                    (withinSpan_window v k a t reqs ltac:(lia) Hall)) as Hrest.
      unfold MAX_REQUESTS in Hrest. lia. }
    destruct (rateLimit !! k) as [[c t0]|] eqn:Hk; cbn [count] in *.
    + destruct (Z_le_gt_dec (t - t0) WINDOW_MS) as [Hin|Hout].
      * rewrite (rateLimitCheck_within _ _ _ _ _ Hk Hin). unfold MAX_REQUESTS.
        destruct (Z.geb_spec c 20) as [Hfull|Hroom].
        -- pose proof (IH rateLimit) as IHsame. rewrite Hk in IHsame. cbn [count] in IHsame.
           specialize (IHsame Hc Hall). lia.
        -- pose proof (IH (<[k := {| count := c + 1; lastReset := t0 |}]> rateLimit)) as IHnext.
           rewrite lookup_insert_eq in IHnext. cbn [count] in IHnext.
           specialize (IHnext ltac:(lia) Hall). lia.
      * assert (Hover : windowOver rateLimit k t)
          by (unfold windowOver; rewrite Hk; exact Hout).
        specialize (Hfresh Hover). lia.
    + assert (Hover : windowOver rateLimit k t)
        by (unfold windowOver; rewrite Hk; exact I).
      exact (Hfresh Hover).
Qed.

(** X4: among the requests of one client whose clock readings lie within
    any span of 60,000 ms, in any order, at most 39 get through the rate
    limiter of a variant, whatever the map held before (with counts within
    bounds), and at most 20 when the client had no record. *)
Theorem at_most_39_per_span v env_key k a (rateLimit : gmap MapKey RateRecord) reqs :
  boundedCounts rateLimit ->
  withinSpan v k a reqs ->
  (admissions v env_key rateLimit reqs <= 39)%nat
  /\ (rateLimit !! k = None -> (admissions v env_key rateLimit reqs <= 20)%nat).
Proof.
  intros Hbounded Hall.
  pose proof (admissions_span v env_key k a reqs rateLimit) as Hspan.
  destruct (rateLimit !! k) as [record|] eqn:Hk.
  - pose proof (map_Forall_lookup_1 _ _ _ _ Hbounded Hk) as Hrec. cbn in Hrec.
    unfold MAX_REQUESTS in *. specialize (Hspan ltac:(lia) Hall).
    split; [lia | discriminate].
  - unfold MAX_REQUESTS in *. specialize (Hspan I Hall). split; [lia | intros _; lia].
Qed.

Lemma at_most_39_per_span_witness :
  boundedCounts exhaustedMap
  /\ withinSpan Express sampleClient 61001 (replicate 50 (61001, sampleRewrite))
  /\ (admissions Express None exhaustedMap (replicate 50 (61001%Z, sampleRewrite)) <= 39)%nat.
Proof.
  assert (Hbounded : boundedCounts exhaustedMap).
  { unfold boundedCounts, exhaustedMap. apply map_Forall_singleton. cbn.
    unfold MAX_REQUESTS. lia. }
  assert (Hall : withinSpan Express sampleClient 61001 (replicate 50 (61001, sampleRewrite))).
  { unfold withinSpan. cbn [replicate].
    repeat (apply Forall_cons; split;
            [split; [reflexivity | cbn; unfold WINDOW_MS; lia]|]).
    apply Forall_nil_2. }
  split; [exact Hbounded|]. split; [exact Hall|].
  exact (proj1 (at_most_39_per_span Express None sampleClient 61001 exhaustedMap
                  (replicate 50 (61001, sampleRewrite)) Hbounded Hall)).
Defined.

(** The bound is reached: 19 requests at the end of an old window and 20 at
    the start of the next one, all within one span of 60,000 ms. *)
Example thirty_nine_get_through :
  admissions Express None {[sampleClient := {| count := 1; lastReset := 0 |}]}
    (replicate 19 (60000, sampleRewrite) ++ replicate 21 (60001, sampleRewrite))
  = 39%nat.
Proof. vm_compute. reflexivity. Qed.

(** ** What reaches the upstream service *)

Lemma operation_is_post v req :
  isRewrite v req = true \/ isVerify v req = true -> method req = "POST".
Proof.
  destruct v; cbn [isRewrite isVerify]; intros [Hop|Hop]; try discriminate;
    try (apply andb_prop in Hop as [Hop _]); apply String.eqb_eq; exact Hop.
Qed.

(** X5: whatever the request, the map and the upstream service are, a
    variant makes at most two upstream calls for it, and none unless the
    method is POST; every call carries a non-empty credential, which is the
    request's own [apiKey], or, in the rewrite operation and only when the
    request has none, the server's default. *)
Theorem upstream_calls_are_keyed v env_key (rateLimit : gmap MapKey RateRecord) now req
    {U : Type} (upstream : U -> GenerationRequest -> Awaited * U) (u : U) :
  (length (callsOf upstream (snd (deployed v env_key rateLimit now req)) u) <= 2)%nat
  /\ (callsOf upstream (snd (deployed v env_key rateLimit now req)) u <> [] ->
      method req = "POST")
  /\ Forall (fun call =>
               Js.truthy (apiKey call) = true
               /\ (apiKey call = body_apiKey req
                   \/ (Js.truthy (body_apiKey req) = false
                       /\ isRewrite v req = true
                       /\ apiKey call = env_key)))
            (callsOf upstream (snd (deployed v env_key rateLimit now req)) u).
Proof.
  assert (Hnone : forall p : Prog Reply,
             (exists reply, p = Ret reply) ->
             (length (callsOf upstream p u) <= 2)%nat
             /\ (callsOf upstream p u <> [] -> method req = "POST")
             /\ Forall (fun call =>
                          Js.truthy (apiKey call) = true
                          /\ (apiKey call = body_apiKey req
                              \/ (Js.truthy (body_apiKey req) = false
                                  /\ isRewrite v req = true
                                  /\ apiKey call = env_key)))
                       (callsOf upstream p u)).
  { intros p [reply ->]. unfold callsOf. cbn.
    split; [lia|]. split; [congruence | apply Forall_nil_2]. }
  destruct (deployed_cases v env_key rateLimit now req) as [-> | ->].
  { apply Hnone. eexists. reflexivity. }
  destruct (isRewrite v req) eqn:Hrewrite.
  - pose proof (operation_is_post v req (or_introl Hrewrite)) as Hpost.
    destruct (body_cases req) as [[b Hbody]|Hbody];
      [|apply Hnone; eexists; exact (rewrite_without_body v env_key req Hrewrite Hbody)].
    destruct (Js.truthy (Js.or (body_apiKey req) env_key)) eqn:Hkey.
    + assert (Hsource : Js.or (body_apiKey req) env_key = body_apiKey req
                        \/ (Js.truthy (body_apiKey req) = false
                            /\ true = true
                            /\ Js.or (body_apiKey req) env_key = env_key)).
      { unfold Js.or. destruct (Js.truthy (body_apiKey req)); auto. }
      unfold callsOf.
      rewrite (rewrite_flow v env_key req b upstream u Hrewrite Hbody Hkey). cbn zeta.
      destruct (upstream u (proRequest (Js.or (body_apiKey req) env_key) (body_text req)))
        as [[text|e] u1].
      * cbn. split; [lia|]. split; [intros _; exact Hpost|].
        apply Forall_cons. split; [split; [exact Hkey | exact Hsource] | apply Forall_nil_2].
      * destruct (isQuotaError e).
        -- destruct (upstream u1 (flashRequest (Js.or (body_apiKey req) env_key)
                                    (body_text req))) as [o2 u2].
           cbn. split; [lia|]. split; [intros _; exact Hpost|].
           repeat (apply Forall_cons; split; [split; [exact Hkey | exact Hsource]|]).
           apply Forall_nil_2.
        -- cbn. split; [lia|]. split; [intros _; exact Hpost|].
           apply Forall_cons. split; [split; [exact Hkey | exact Hsource] | apply Forall_nil_2].
    + apply Hnone. eexists. exact (rewrite_without_key v env_key req b Hrewrite Hbody Hkey).
  - destruct (isVerify v req) eqn:Hverify.
    + pose proof (operation_is_post v req (or_intror Hverify)) as Hpost.
      destruct (body_cases req) as [[b Hbody]|Hbody];
        [|apply Hnone; eexists; exact (verify_without_body v env_key req Hverify Hbody)].
      destruct (Js.truthy (body_apiKey req)) eqn:Hkey.
      * unfold callsOf. rewrite (verify_flow v env_key req upstream u Hverify Hkey).
        destruct (upstream u (probeRequest (body_apiKey req))) as [o u1].
        cbn. split; [lia|]. split; [intros _; exact Hpost|].
        apply Forall_cons. split; [split; [exact Hkey | left; reflexivity] | apply Forall_nil_2].
      * apply Hnone. eexists. exact (verify_without_key v env_key req b Hverify Hbody Hkey).
    + apply Hnone. rewrite (afterLimiter_other v env_key req Hrewrite Hverify).
      destruct v; eexists; reflexivity.
Qed.

Lemma upstream_calls_are_keyed_witness :
  callsOf answering (snd (deployed ServerlessRewrite (Some "server-key") ∅ 1000 sampleRewrite)) tt
  <> []
  /\ method sampleRewrite = "POST".
Proof.
  assert (Hcalls : callsOf answering
                     (snd (deployed ServerlessRewrite (Some "server-key") ∅ 1000 sampleRewrite))
                     tt <> []) by (vm_compute; discriminate).
  split; [exact Hcalls|].
  exact (proj1 (proj2 (upstream_calls_are_keyed ServerlessRewrite (Some "server-key") ∅ 1000
                         sampleRewrite answering tt)) Hcalls).
Defined.

(** ** Paths outside [/api/] *)

(** X6: the Express server neither counts nor answers a request whose path
    is not under [/api/]: the map stays as it is, no route takes the request
    and nothing is called upstream, whatever the client has used up. *)
Theorem outside_api_untouched env_key (rateLimit : gmap MapKey RateRecord) now req :
  Server.underApi (url req) = false ->
  deployed Express env_key rateLimit now req = (rateLimit, Ret Next).
Proof.
  intros Hout. cbn [deployed]. unfold Server.app. rewrite Hout.
  unfold Server.routes.
  destruct (String.eqb_spec (url req) "/api/verify") as [Hurl|_].
  { rewrite Hurl in Hout. discriminate Hout. }
  destruct (String.eqb_spec (url req) "/api/rewrite") as [Hurl|_].
  { rewrite Hurl in Hout. discriminate Hout. }
  rewrite !andb_false_r. reflexivity.
Qed.

Lemma outside_api_untouched_witness :
  Server.underApi "/assets/index.js" = false
  /\ deployed Express None exhaustedMap 2000
       {| method := "GET"; url := "/assets/index.js";
          x_forwarded_for := Some (HString "203.0.113.7"); remoteAddress := None;
          req_body := BUndefined |}
     = (exhaustedMap, Ret Next).
Proof.
  split; [reflexivity|].
  exact (outside_api_untouched None exhaustedMap 2000
           {| method := "GET"; url := "/assets/index.js";
              x_forwarded_for := Some (HString "203.0.113.7"); remoteAddress := None;
              req_body := BUndefined |} eq_refl).
Defined.

(** ** The client: testing a key *)

Lemma deployed_rejected v env_key (rateLimit : gmap MapKey RateRecord) now req :
  admitted v rateLimit now req = false ->
  deployed v env_key rateLimit now req = (rateLimit, Ret (Sent tooManyRequests)).
Proof.
  unfold admitted. destruct (clientOf v req) as [k|] eqn:Hclient; [|discriminate].
  rewrite (deployed_counted _ _ _ _ _ _ Hclient).
  destruct (rateLimitCheck rateLimit k now); [discriminate | reflexivity].
Qed.

Lemma prefixed_key_is_truthy (key : string) :
  String.prefix "AIza" key = true -> Js.truthy (Some key) = true.
Proof. destruct key; [discriminate | reflexivity]. Qed.

(** X7: testing a key from the browser against a verify endpoint.  A key
    that does not start with ["AIza"] is marked invalid without any request:
    it is not even counted by the rate limiter.  Otherwise one request is
    made; when the rate limiter rejects it the key is marked invalid just
    the same; when it is let through, the key is marked valid exactly when
    the upstream probe with that key is fulfilled.  The test flag is off
    afterwards. *)
Theorem key_test_end_to_end v env_key forwarded peer now
    {U : Type} (upstream : U -> GenerationRequest -> Awaited * U)
    (rateLimit : gmap MapKey RateRecord) (u : U) (s : App.State) (key : string) :
  v <> ServerlessRewrite ->
  (String.prefix "AIza" key = false ->
   linked upstream v env_key forwarded peer now (App.testApiKey s key) rateLimit u
   = Some ((App.setKeyStatus App.invalid s, false), rateLimit, u))
  /\ (String.prefix "AIza" key = true ->
      admitted v rateLimit now (arrives forwarded peer (App.verifyRequest key)) = false ->
      exists s',
        linked upstream v env_key forwarded peer now (App.testApiKey s key) rateLimit u
        = Some ((s', false), rateLimit, u)
        /\ App.keyStatus s' = App.invalid /\ App.isTestingKey s' = false)
  /\ (String.prefix "AIza" key = true ->
      admitted v rateLimit now (arrives forwarded peer (App.verifyRequest key)) = true ->
      exists s' rateLimit' u',
        linked upstream v env_key forwarded peer now (App.testApiKey s key) rateLimit u
        = Some ((s', match fst (upstream u (probeRequest (Some key))) with
                     | Fulfilled _ => true
                     | Rejected _ => false
                     end), rateLimit', u')
        /\ App.keyStatus s' = match fst (upstream u (probeRequest (Some key))) with
                              | Fulfilled _ => App.valid
                              | Rejected _ => App.invalid
                              end
        /\ App.isTestingKey s' = false).
Proof.
  intros Hvariant. split; [|split].
  - intros Hprefix. unfold App.testApiKey. rewrite Hprefix. reflexivity.
  - intros Hprefix Hrejected. unfold App.testApiKey. rewrite Hprefix. cbn [negb linked].
    rewrite (deployed_rejected _ env_key _ _ _ Hrejected). cbn.
    eexists. split; [reflexivity|]. split; reflexivity.
  - intros Hprefix Hadmitted. unfold App.testApiKey. rewrite Hprefix. cbn [negb linked].
    pose proof (deployed_admitted v env_key rateLimit now _ Hadmitted) as Hsnd.
    destruct (deployed v env_key rateLimit now
                (arrives forwarded peer (App.verifyRequest key))) as [rateLimit' p].
    cbn [snd] in Hsnd. subst p.
    assert (Hverify : isVerify v (arrives forwarded peer (App.verifyRequest key)) = true)
      by (destruct v; [congruence | reflexivity | reflexivity | reflexivity]).
    rewrite (verify_flow v env_key _ upstream u Hverify (prefixed_key_is_truthy key Hprefix)).
    change (body_apiKey (arrives forwarded peer (App.verifyRequest key))) with (Some key).
    destruct (upstream u (probeRequest (Some key))) as [[text|e] u1]; cbn;
      eexists; eexists; eexists; (split; [reflexivity|]); split; reflexivity.
Qed.

Lemma key_test_end_to_end_witness :
  ServerlessVerify <> ServerlessRewrite
  /\ String.prefix "AIza" "AIzaSample" = true
  /\ admitted ServerlessVerify exhaustedMap 2000
       (arrives (Some (HString "203.0.113.7")) None (App.verifyRequest "AIzaSample")) = false
  /\ exists s',
       linked answering ServerlessVerify None (Some (HString "203.0.113.7")) None 2000
         (App.testApiKey (App.initialState None) "AIzaSample") exhaustedMap tt
       = Some ((s', false), exhaustedMap, tt)
       /\ App.keyStatus s' = App.invalid /\ App.isTestingKey s' = false.
Proof.
  assert (Hvariant : ServerlessVerify <> ServerlessRewrite) by discriminate.
  assert (Hrejected : admitted ServerlessVerify exhaustedMap 2000
            (arrives (Some (HString "203.0.113.7")) None (App.verifyRequest "AIzaSample"))
          = false) by (vm_compute; reflexivity).
  split; [exact Hvariant|]. split; [reflexivity|]. split; [exact Hrejected|].
  exact (proj1 (proj2 (key_test_end_to_end ServerlessVerify None (Some (HString "203.0.113.7"))
                         None 2000 answering exhaustedMap tt (App.initialState None)
                         "AIzaSample" Hvariant)) eq_refl Hrejected).
Defined.

(** ** The client: saving a key *)

(** What [saveApiKey] does to the keys, whatever the network answers. *)
Lemma saveApiKey_outcome (trim : string -> string)
    (network : App.FetchRequest -> App.FetchResult) (s : App.State) :
  let s' := App.run network (App.saveApiKey trim s) in
  let key := trim (App.tempApiKey s) in
  (App.apiKey s' = App.apiKey s
   /\ App.gemini_api_key s' = App.gemini_api_key s
   /\ App.tempApiKey s' = App.tempApiKey s)
  \/ (key <> ""
      /\ App.apiKey s' = key
      /\ App.gemini_api_key s' = Some key
      /\ App.tempApiKey s' = ""
      /\ App.showApiKeyModal s' = false
      /\ App.keyStatus s' = App.idle
      /\ (App.keyStatus s = App.valid
          \/ (App.keyStatus s = App.idle
              /\ String.prefix "AIza" key = true
              /\ exists status payload,
                   network (App.verifyRequest key) = App.Fetched status payload
                   /\ App.ok status = true))).
Proof.
  intros s' key. subst s'. unfold App.saveApiKey. fold key.
  destruct (String.eqb_spec key "") as [Hempty|Hkey]; cbn [negb].
  { left. repeat split. }
  destruct (App.keyStatus s) eqn:Hstatus.
  - unfold App.testApiKey.
    destruct (String.prefix "AIza" key) eqn:Hprefix; cbn [negb App.andThen App.run].
    + destruct (network (App.verifyRequest key)) as [status payload|message] eqn:Hnet.
      * destruct (App.ok status) eqn:Hok; cbn.
        -- right. repeat split; try assumption. right. repeat split.
           exists status, payload. split; [reflexivity | exact Hok].
        -- left. repeat split.
      * cbn. left. repeat split.
    + cbn. left. repeat split.
  - cbn. right. repeat split; try assumption. left. reflexivity.
  - cbn. left. repeat split.
Qed.

(** X8: whatever the network answers, [saveApiKey] either leaves the key in
    use, the stored key and the typed key as they are, or it stores the typed
    key with its surrounding white space removed.  It stores only a
    non-empty key that was marked valid before, or that was not yet tested
    and now passes the test: it starts with ["AIza"] and the verify request
    for it gets a 2xx answer.  A key marked invalid is never stored. *)
Theorem only_tested_keys_are_saved (trim : string -> string)
    (network : App.FetchRequest -> App.FetchResult) (s : App.State) :
  let s' := App.run network (App.saveApiKey trim s) in
  let key := trim (App.tempApiKey s) in
  (App.apiKey s' = App.apiKey s
   /\ App.gemini_api_key s' = App.gemini_api_key s
   /\ App.tempApiKey s' = App.tempApiKey s)
  \/ (key <> ""
      /\ App.apiKey s' = key
      /\ App.gemini_api_key s' = Some key
      /\ App.tempApiKey s' = ""
      /\ App.showApiKeyModal s' = false
      /\ App.keyStatus s' = App.idle
      /\ (App.keyStatus s = App.valid
          \/ (App.keyStatus s = App.idle
              /\ String.prefix "AIza" key = true
              /\ exists status payload,
                   network (App.verifyRequest key) = App.Fetched status payload
                   /\ App.ok status = true))).
Proof. exact (saveApiKey_outcome trim network s). Qed.

(** ** The client: asking for a rewrite *)

(** What [handleRewrite] does to the keys, whatever the network answers. *)
Lemma handleRewrite_keys (trim : string -> string)
    (network : App.FetchRequest -> App.FetchResult) (s : App.State) :
  (App.apiKey (App.run network (App.handleRewrite trim s)) = App.apiKey s
   /\ App.gemini_api_key (App.run network (App.handleRewrite trim s)) = App.gemini_api_key s)
  \/ (App.apiKey (App.run network (App.handleRewrite trim s)) = ""
      /\ App.gemini_api_key (App.run network (App.handleRewrite trim s)) = None).
Proof.
  unfold App.handleRewrite.
  destruct (String.eqb (trim (App.inputText s)) ""); [left; split; reflexivity|].
  cbn [App.run].
  assert (Hfailed : forall s1 message,
             App.apiKey s1 = App.apiKey s ->
             App.gemini_api_key s1 = App.gemini_api_key s ->
             (App.apiKey (App.rewriteFailed s s1 message) = App.apiKey s
              /\ App.gemini_api_key (App.rewriteFailed s s1 message) = App.gemini_api_key s)
             \/ (App.apiKey (App.rewriteFailed s s1 message) = ""
                 /\ App.gemini_api_key (App.rewriteFailed s s1 message) = None)).
  { intros s1 message Hkey Hstored. unfold App.rewriteFailed.
    destruct (negb _ && _ && _); cbn; [right | left]; split; auto. }
  destruct (network (App.rewriteRequest (App.inputText s) (App.apiKey s)))
    as [status [data|message]|message]; cbn [App.run].
  - destruct (App.ok status); cbn [negb].
    + destruct (Js.truthy (field "text" data)); cbn; left; split; reflexivity.
    + destruct (status =? 401); cbn [App.run]; apply Hfailed; reflexivity.
  - apply Hfailed; reflexivity.
  - apply Hfailed; reflexivity.
Qed.

(** X9: [handleRewrite] sends nothing and changes nothing when the input is
    blank.  Otherwise it sends one POST request to [/api/rewrite] carrying
    the input as typed and the key in use, and whatever the network answers:
    the loading flag is off afterwards, the input is as it was, an error and
    an output are never shown together, and the key in use and the stored
    key are either untouched or both removed, the latter only when there was
    a key and the error shown is the invalid-key message. *)
Theorem rewrite_callback_outcome (trim : string -> string)
    (network : App.FetchRequest -> App.FetchResult) (s : App.State) :
  let s' := App.run network (App.handleRewrite trim s) in
  (trim (App.inputText s) = "" ->
   s' = s /\ App.requests network (App.handleRewrite trim s) = [])
  /\ (trim (App.inputText s) <> "" ->
      App.requests network (App.handleRewrite trim s)
      = [App.rewriteRequest (App.inputText s) (App.apiKey s)]
      /\ App.isLoading s' = false
      /\ App.inputText s' = App.inputText s
      /\ (App.error s' = None \/ App.outputText s' = "")
      /\ ((App.apiKey s' = App.apiKey s /\ App.gemini_api_key s' = App.gemini_api_key s)
          \/ (App.apiKey s' = "" /\ App.gemini_api_key s' = None
              /\ App.apiKey s <> ""
              /\ App.error s' = Some App.keyMessage))).
Proof.
  intros s'. subst s'. unfold App.handleRewrite. split.
  - intros Hblank. rewrite Hblank. cbn. split; reflexivity.
  - intros Hinput. apply String.eqb_neq in Hinput. rewrite Hinput.
    cbn [App.run App.requests].
    assert (Hfailed : forall s1 message,
               App.inputText s1 = App.inputText s ->
               App.outputText s1 = "" ->
               App.apiKey s1 = App.apiKey s ->
               App.gemini_api_key s1 = App.gemini_api_key s ->
               App.isLoading (App.rewriteFailed s s1 message) = false
               /\ App.inputText (App.rewriteFailed s s1 message) = App.inputText s
               /\ (App.error (App.rewriteFailed s s1 message) = None
                   \/ App.outputText (App.rewriteFailed s s1 message) = "")
               /\ ((App.apiKey (App.rewriteFailed s s1 message) = App.apiKey s
                    /\ App.gemini_api_key (App.rewriteFailed s s1 message)
                       = App.gemini_api_key s)
                   \/ (App.apiKey (App.rewriteFailed s s1 message) = ""
                       /\ App.gemini_api_key (App.rewriteFailed s s1 message) = None
                       /\ App.apiKey s <> ""
                       /\ App.error (App.rewriteFailed s s1 message)
                          = Some App.keyMessage))).
    { intros s1 message Hin Hout Hkey Hstored. unfold App.rewriteFailed.
      destruct (Js.includes message "429" || Js.includes message "RESOURCE_EXHAUSTED");
        destruct (Js.includes message "API Key" || Js.includes message "403");
        destruct (String.eqb_spec (App.apiKey s) "") as [Hnokey|Hhaskey];
        cbn; repeat split; auto. }
    destruct (network (App.rewriteRequest (App.inputText s) (App.apiKey s)))
      as [status [data|message]|message]; cbn [App.run App.requests].
    + destruct (App.ok status); cbn [negb].
      * destruct (Js.truthy (field "text" data)); cbn; repeat split; auto.
      * destruct (status =? 401); cbn [App.run App.requests];
          (split; [reflexivity|]); apply Hfailed; reflexivity.
    + split; [reflexivity|]. apply Hfailed; reflexivity.
    + split; [reflexivity|]. apply Hfailed; reflexivity.
Qed.

Lemma rewrite_callback_outcome_witness :
  Spec.trim (App.inputText (App.setInputText " Some text. " (App.mount (Some "AIzaStored"))))
  <> ""
  /\ App.requests (fun _ => App.Fetched 403 (App.Json [("error", "403 Forbidden")]))
       (App.handleRewrite Spec.trim
          (App.setInputText " Some text. " (App.mount (Some "AIzaStored"))))
     = [App.rewriteRequest " Some text. " "AIzaStored"].
Proof.
  assert (Hinput : Spec.trim (App.inputText
                      (App.setInputText " Some text. " (App.mount (Some "AIzaStored"))))
                   <> "") by (vm_compute; discriminate).
  split; [exact Hinput|].
  exact (proj1 (proj2 (rewrite_callback_outcome Spec.trim
                         (fun _ => App.Fetched 403 (App.Json [("error", "403 Forbidden")]))
                         (App.setInputText " Some text. " (App.mount (Some "AIzaStored"))))
                  Hinput)).
Defined.

(** ** The client in front of a deployment: rewriting *)

(** The rewrite callback against a deployment: the state afterwards is the
    one the callback reaches over a network that hands it the server's
    response. *)
Lemma linked_handleRewrite (trim : string -> string) v env_key forwarded peer now
    {U : Type} (upstream : U -> GenerationRequest -> Awaited * U)
    (rateLimit : gmap MapKey RateRecord) (u : U) (s : App.State) :
  trim (App.inputText s) <> "" ->
  linked upstream v env_key forwarded peer now (App.handleRewrite trim s) rateLimit u
  = let '(rateLimit', p) :=
      deployed v env_key rateLimit now
        (arrives forwarded peer (App.rewriteRequest (App.inputText s) (App.apiKey s))) in
    let '(reply, _, u') := exec upstream p u in
    match reply with
    | Sent r =>
        Some (App.run (fun _ => App.Fetched (statusCode r) (App.Json (body r)))
                (App.handleRewrite trim s), rateLimit', u')
    | Next => None
    end.
Proof.
  intros Hinput. apply String.eqb_neq in Hinput.
  unfold App.handleRewrite. rewrite Hinput. cbn [linked App.run].
  destruct (deployed v env_key rateLimit now
              (arrives forwarded peer (App.rewriteRequest (App.inputText s) (App.apiKey s))))
    as [rateLimit' p].
  destruct (exec upstream p u) as [[reply calls] u'].
  destruct reply as [r|]; [|reflexivity].
  destruct (App.ok (statusCode r)); cbn [negb]; [reflexivity|].
  destruct (statusCode r =? 401); reflexivity.
Qed.

Lemma arrives_is_rewrite v forwarded peer text key :
  v = ServerlessRewrite \/ v = Express ->
  isRewrite v (arrives forwarded peer (App.rewriteRequest text key)) = true.
Proof. intros [-> | ->]; reflexivity. Qed.

(** X10: a rewrite from the browser against the serverless rewrite function
    or the Express server, for a non-blank input, a request the rate limiter
    lets through and a usable key (the one in use, else the server's).  When
    the pro call is fulfilled with a non-empty text, or fails for quota and
    the flash call is fulfilled with one, that text is shown as output, no
    error is shown, the loading flag is off, and the key in use and the
    stored key are untouched. *)
Theorem rewrite_end_to_end_text (trim : string -> string) v env_key forwarded peer now
    {U : Type} (upstream : U -> GenerationRequest -> Awaited * U)
    (rateLimit : gmap MapKey RateRecord) (u : U) (s : App.State) (text : string) :
  v = ServerlessRewrite \/ v = Express ->
  trim (App.inputText s) <> "" ->
  admitted v rateLimit now
    (arrives forwarded peer (App.rewriteRequest (App.inputText s) (App.apiKey s))) = true ->
  Js.truthy (Js.or (Some (App.apiKey s)) env_key) = true ->
  text <> "" ->
  let key := Js.or (Some (App.apiKey s)) env_key in
  let o1 := fst (upstream u (proRequest key (Some (App.inputText s)))) in
  let o2 := fst (upstream (snd (upstream u (proRequest key (Some (App.inputText s)))))
                   (flashRequest key (Some (App.inputText s)))) in
  o1 = Fulfilled (Some text)
  \/ (exists e, o1 = Rejected e /\ isQuotaError e = true /\ o2 = Fulfilled (Some text)) ->
  exists s' rateLimit' u',
    linked upstream v env_key forwarded peer now (App.handleRewrite trim s) rateLimit u
    = Some (s', rateLimit', u')
    /\ App.outputText s' = text
    /\ App.error s' = None
    /\ App.isLoading s' = false
    /\ App.apiKey s' = App.apiKey s
    /\ App.gemini_api_key s' = App.gemini_api_key s.
Proof.
  intros Hvariant Hinput Hadmitted Hkey Htext key o1 o2 Houtcome.
  rewrite (linked_handleRewrite trim v env_key forwarded peer now upstream rateLimit u s Hinput).
  pose proof (deployed_admitted v env_key rateLimit now _ Hadmitted) as Hsnd.
  destruct (deployed v env_key rateLimit now
              (arrives forwarded peer (App.rewriteRequest (App.inputText s) (App.apiKey s))))
    as [rateLimit' p].
  cbn [snd] in Hsnd. subst p.
  rewrite (rewrite_flow v env_key _ _ upstream u
             (arrives_is_rewrite v forwarded peer _ _ Hvariant) eq_refl Hkey).
  change (body_apiKey (arrives forwarded peer
                         (App.rewriteRequest (App.inputText s) (App.apiKey s))))
    with (Some (App.apiKey s)).
  change (body_text (arrives forwarded peer
                       (App.rewriteRequest (App.inputText s) (App.apiKey s))))
    with (Some (App.inputText s)).
  cbn zeta. fold key. subst o1 o2.
  assert (Hshown : forall (rl' : gmap MapKey RateRecord) (u' : U),
             exists s' rl'' u'',
               Some (App.run (fun _ => App.Fetched (statusCode (rewritten (Some text)))
                                        (App.Json (body (rewritten (Some text)))))
                       (App.handleRewrite trim s), rl', u')
               = Some (s', rl'', u'')
               /\ App.outputText s' = text
               /\ App.error s' = None
               /\ App.isLoading s' = false
               /\ App.apiKey s' = App.apiKey s
               /\ App.gemini_api_key s' = App.gemini_api_key s).
  { intros rl' u'. eexists. eexists. eexists. split; [reflexivity|].
    unfold App.handleRewrite. apply String.eqb_neq in Hinput. rewrite Hinput.
    apply String.eqb_neq in Htext. cbn. rewrite Htext. cbn.
    repeat split. }
  destruct (upstream u (proRequest key (Some (App.inputText s)))) as [o1 u1].
  cbn [fst snd] in Houtcome.
  destruct Houtcome as [-> | [e [-> [Hquota Hflash]]]].
  - apply Hshown.
  - rewrite Hquota.
    destruct (upstream u1 (flashRequest key (Some (App.inputText s)))) as [o2 u2].
    cbn [fst] in Hflash. subst o2. apply Hshown.
Qed.

Lemma rewrite_end_to_end_text_witness :
  (ServerlessRewrite = ServerlessRewrite \/ ServerlessRewrite = Express)
  /\ Spec.trim (App.inputText (App.setInputText "Some text." (App.mount (Some "AIzaStored"))))
     <> ""
  /\ admitted ServerlessRewrite ∅ 1000
       (arrives (Some (HString "203.0.113.7")) None
          (App.rewriteRequest "Some text." "AIzaStored")) = true
  /\ Js.truthy (Js.or (Some "AIzaStored") None) = true
  /\ "Fallback text" <> ""
  /\ exists s' rateLimit' u',
       linked proExhausted ServerlessRewrite None (Some (HString "203.0.113.7")) None 1000
         (App.handleRewrite Spec.trim
            (App.setInputText "Some text." (App.mount (Some "AIzaStored")))) ∅ tt
       = Some (s', rateLimit', u')
       /\ App.outputText s' = "Fallback text"
       /\ App.error s' = None
       /\ App.isLoading s' = false
       /\ App.apiKey s' = "AIzaStored"
       /\ App.gemini_api_key s' = Some "AIzaStored".
Proof.
  assert (Hvariant : ServerlessRewrite = ServerlessRewrite \/ ServerlessRewrite = Express)
    by (left; reflexivity).
  assert (Hinput : Spec.trim (App.inputText
                      (App.setInputText "Some text." (App.mount (Some "AIzaStored"))))
                   <> "") by (vm_compute; discriminate).
  assert (Htext : "Fallback text" <> "") by discriminate.
  split; [exact Hvariant|]. split; [exact Hinput|]. split; [reflexivity|].
  split; [reflexivity|]. split; [exact Htext|].
  exact (rewrite_end_to_end_text Spec.trim ServerlessRewrite None
           (Some (HString "203.0.113.7")) None 1000 proExhausted ∅ tt
           (App.setInputText "Some text." (App.mount (Some "AIzaStored")))
           "Fallback text" Hvariant Hinput eq_refl eq_refl Htext
           (or_intror (ex_intro _ quotaError (conj eq_refl (conj eq_refl eq_refl))))).
Defined.

(** X11: a rewrite from the browser that the rate limiter of the deployment
    rejects.  The 429 response is shown as the generic failure message, not
    as the quota message; no output is shown, the loading flag is off, and
    the key in use, the stored key and the key dialog are as they were.
    Nothing is called upstream and the map is unchanged. *)
Theorem rate_limited_rewrite_as_shown (trim : string -> string) v env_key forwarded peer now
    {U : Type} (upstream : U -> GenerationRequest -> Awaited * U)
    (rateLimit : gmap MapKey RateRecord) (u : U) (s : App.State) :
  trim (App.inputText s) <> "" ->
  admitted v rateLimit now
    (arrives forwarded peer (App.rewriteRequest (App.inputText s) (App.apiKey s))) = false ->
  exists s',
    linked upstream v env_key forwarded peer now (App.handleRewrite trim s) rateLimit u
    = Some (s', rateLimit, u)
    /\ App.error s' = Some "Failed to rewrite text. Please try again."
    /\ App.outputText s' = ""
    /\ App.isLoading s' = false
    /\ App.apiKey s' = App.apiKey s
    /\ App.gemini_api_key s' = App.gemini_api_key s
    /\ App.showApiKeyModal s' = App.showApiKeyModal s.
Proof.
  intros Hinput Hrejected.
  rewrite (linked_handleRewrite trim v env_key forwarded peer now upstream rateLimit u s Hinput).
  rewrite (deployed_rejected v env_key rateLimit now _ Hrejected).
  cbn [exec]. eexists. split; [reflexivity|].
  unfold App.handleRewrite. apply String.eqb_neq in Hinput. rewrite Hinput.
  cbn. repeat split.
Qed.

Lemma rate_limited_rewrite_as_shown_witness :
  Spec.trim (App.inputText (App.setInputText "Some text." (App.mount (Some "AIzaStored"))))
  <> ""
  /\ admitted Express exhaustedMap 2000
       (arrives (Some (HString "203.0.113.7")) None
          (App.rewriteRequest "Some text." "AIzaStored")) = false
  /\ exists s',
       linked answering Express None (Some (HString "203.0.113.7")) None 2000
         (App.handleRewrite Spec.trim
            (App.setInputText "Some text." (App.mount (Some "AIzaStored")))) exhaustedMap tt
       = Some (s', exhaustedMap, tt)
       /\ App.error s' = Some "Failed to rewrite text. Please try again."
       /\ App.outputText s' = ""
       /\ App.isLoading s' = false
       /\ App.apiKey s' = "AIzaStored"
       /\ App.gemini_api_key s' = Some "AIzaStored"
       /\ App.showApiKeyModal s' = false.
Proof.
  assert (Hinput : Spec.trim (App.inputText
                      (App.setInputText "Some text." (App.mount (Some "AIzaStored"))))
                   <> "") by (vm_compute; discriminate).
  assert (Hrejected : admitted Express exhaustedMap 2000
            (arrives (Some (HString "203.0.113.7")) None
               (App.rewriteRequest "Some text." "AIzaStored")) = false)
    by (vm_compute; reflexivity).
  split; [exact Hinput|]. split; [exact Hrejected|].
  exact (rate_limited_rewrite_as_shown Spec.trim Express None (Some (HString "203.0.113.7"))
           None 2000 answering exhaustedMap tt
           (App.setInputText "Some text." (App.mount (Some "AIzaStored")))
           Hinput Hrejected).
Defined.

(** X12: a rewrite from the browser without a key in use, against the
    serverless rewrite function or the Express server without a default
    credential, for a request the rate limiter lets through.  The 401
    response opens the key dialog and the invalid-key message is shown;
    nothing is called upstream, and the stored key is not touched. *)
Theorem missing_key_opens_dialog (trim : string -> string) v env_key forwarded peer now
    {U : Type} (upstream : U -> GenerationRequest -> Awaited * U)
    (rateLimit : gmap MapKey RateRecord) (u : U) (s : App.State) :
  v = ServerlessRewrite \/ v = Express ->
  trim (App.inputText s) <> "" ->
  admitted v rateLimit now
    (arrives forwarded peer (App.rewriteRequest (App.inputText s) (App.apiKey s))) = true ->
  App.apiKey s = "" ->
  Js.truthy env_key = false ->
  exists s' rateLimit',
    linked upstream v env_key forwarded peer now (App.handleRewrite trim s) rateLimit u
    = Some (s', rateLimit', u)
    /\ App.showApiKeyModal s' = true
    /\ App.error s' = Some "Invalid API Key or Access Denied. Please check your key settings."
    /\ App.outputText s' = ""
    /\ App.isLoading s' = false
    /\ App.apiKey s' = ""
    /\ App.gemini_api_key s' = App.gemini_api_key s.
Proof.
  intros Hvariant Hinput Hadmitted Hnokey Henv.
  rewrite (linked_handleRewrite trim v env_key forwarded peer now upstream rateLimit u s Hinput).
  pose proof (deployed_admitted v env_key rateLimit now _ Hadmitted) as Hsnd.
  destruct (deployed v env_key rateLimit now
              (arrives forwarded peer (App.rewriteRequest (App.inputText s) (App.apiKey s))))
    as [rateLimit' p].
  cbn [snd] in Hsnd. subst p.
  assert (Hkey : Js.truthy
                   (Js.or (body_apiKey (arrives forwarded peer
                                          (App.rewriteRequest (App.inputText s) (App.apiKey s))))
                      env_key) = false).
  { change (body_apiKey (arrives forwarded peer
                           (App.rewriteRequest (App.inputText s) (App.apiKey s))))
      with (Some (App.apiKey s)).
    rewrite Hnokey. exact Henv. }
  rewrite (rewrite_without_key v env_key _ _
             (arrives_is_rewrite v forwarded peer _ _ Hvariant) eq_refl Hkey).
  cbn [exec]. eexists. eexists. split; [reflexivity|].
  unfold App.handleRewrite. apply String.eqb_neq in Hinput. rewrite Hinput.
  cbn. rewrite Hnokey. cbn. repeat split. exact Hnokey.
Qed.

Lemma missing_key_opens_dialog_witness :
  (Express = ServerlessRewrite \/ Express = Express)
  /\ Spec.trim (App.inputText (App.setInputText "Some text." (App.mount None))) <> ""
  /\ admitted Express ∅ 1000
       (arrives None (Some "10.0.0.1") (App.rewriteRequest "Some text." "")) = true
  /\ App.apiKey (App.setInputText "Some text." (App.mount None)) = ""
  /\ Js.truthy None = false
  /\ exists s' rateLimit',
       linked answering Express None None (Some "10.0.0.1") 1000
         (App.handleRewrite Spec.trim (App.setInputText "Some text." (App.mount None))) ∅ tt
       = Some (s', rateLimit', tt)
       /\ App.showApiKeyModal s' = true
       /\ App.error s'
          = Some "Invalid API Key or Access Denied. Please check your key settings."
       /\ App.outputText s' = ""
       /\ App.isLoading s' = false
       /\ App.apiKey s' = ""
       /\ App.gemini_api_key s' = None.
Proof.
  assert (Hvariant : Express = ServerlessRewrite \/ Express = Express) by (right; reflexivity).
  assert (Hinput : Spec.trim (App.inputText (App.setInputText "Some text." (App.mount None)))
                   <> "") by (vm_compute; discriminate).
  split; [exact Hvariant|]. split; [exact Hinput|]. split; [reflexivity|].
  split; [reflexivity|]. split; [reflexivity|].
  exact (missing_key_opens_dialog Spec.trim Express None None (Some "10.0.0.1") 1000
           answering ∅ tt (App.setInputText "Some text." (App.mount None))
           Hvariant Hinput eq_refl eq_refl eq_refl).
Defined.

Lemma or_str_not_empty (a : option string) (d : string) : d <> "" -> Js.or_str a d <> "".
Proof.
  intros Hd. destruct a as [s|]; cbn; [|exact Hd].
  destruct (String.eqb_spec s ""); [exact Hd | assumption].
Qed.

(** The message of an error that is not a quota error carries none of the
    markers the client looks for. *)
Lemma no_quota_markers e :
  isQuotaError e = false ->
  Js.includes (Js.or_str (message e) "Internal Server Error") "429"
  || Js.includes (Js.or_str (message e) "Internal Server Error") "RESOURCE_EXHAUSTED"
  = false.
Proof.
  unfold isQuotaError. intros Hnot. rewrite !orb_false_iff in Hnot.
  destruct Hnot as [[[[[_ H429] Hexhausted] _] _] _].
  destruct (message e) as [m|]; cbn in *; [|reflexivity].
  destruct (String.eqb m ""); [reflexivity|].
  rewrite H429, Hexhausted. reflexivity.
Qed.

(** What the client shows for a propagated error without quota markers is
    not the quota message. *)
Lemma propagated_error_as_shown (trim : string -> string) (s : App.State) e :
  trim (App.inputText s) <> "" ->
  Js.includes (Js.or_str (message e) "Internal Server Error") "429"
  || Js.includes (Js.or_str (message e) "Internal Server Error") "RESOURCE_EXHAUSTED"
  = false ->
  App.error (App.run (fun _ => App.Fetched (statusCode (Rewrite.serverError e))
                                 (App.Json (body (Rewrite.serverError e))))
               (App.handleRewrite trim s))
  <> Some App.quotaMessage.
Proof.
  intros Hinput Hmarkers. apply String.eqb_neq in Hinput.
  pose proof (or_str_not_empty (message e) "Internal Server Error" ltac:(discriminate))
    as Hmsg.
  apply String.eqb_neq in Hmsg.
  unfold App.handleRewrite. rewrite Hinput. cbn [App.run].
  unfold Rewrite.serverError. cbn [respond statusCode body json].
  remember (Js.or_str (message e) "Internal Server Error") as msg eqn:Hdef.
  destruct (App.ok (Js.or_num (status e) 500)); cbn [negb].
  - cbn. discriminate.
  - destruct (Js.or_num (status e) 500 =? 401); cbn [App.run].
    + cbn. discriminate.
    + assert (Hfield : Js.or_str (field "error" [("error", msg)]) "Failed to rewrite text"
                       = msg).
      { cbn. rewrite Hmsg. reflexivity. }
      rewrite Hfield. unfold App.rewriteFailed. rewrite Hmarkers. cbn.
      destruct (Js.includes msg "API Key" || Js.includes msg "403"); cbn; discriminate.
Qed.

(** X13: a rewrite from the browser against the serverless rewrite function
    or the Express server, for a non-blank input, a request the rate limiter
    lets through and a usable key.  The client shows the quota message only
    when both models were tried and both failed: the pro call with a quota
    error, and the flash call after it. *)
Theorem quota_message_only_after_fallback (trim : string -> string)
    v env_key forwarded peer now
    {U : Type} (upstream : U -> GenerationRequest -> Awaited * U)
    (rateLimit rateLimit' : gmap MapKey RateRecord) (u u' : U) (s s' : App.State) :
  v = ServerlessRewrite \/ v = Express ->
  trim (App.inputText s) <> "" ->
  admitted v rateLimit now
    (arrives forwarded peer (App.rewriteRequest (App.inputText s) (App.apiKey s))) = true ->
  Js.truthy (Js.or (Some (App.apiKey s)) env_key) = true ->
  linked upstream v env_key forwarded peer now (App.handleRewrite trim s) rateLimit u
  = Some (s', rateLimit', u') ->
  App.error s'
  = Some "You have exceeded your API quota. Please check your plan or wait a moment." ->
  let key := Js.or (Some (App.apiKey s)) env_key in
  exists e e2,
    fst (upstream u (proRequest key (Some (App.inputText s)))) = Rejected e
    /\ isQuotaError e = true
    /\ fst (upstream (snd (upstream u (proRequest key (Some (App.inputText s)))))
              (flashRequest key (Some (App.inputText s))))
       = Rejected e2.
Proof.
  intros Hvariant Hinput Hadmitted Hkey Hlinked Hshown key.
  rewrite (linked_handleRewrite trim v env_key forwarded peer now upstream rateLimit u s Hinput)
    in Hlinked.
  pose proof (deployed_admitted v env_key rateLimit now _ Hadmitted) as Hsnd.
  destruct (deployed v env_key rateLimit now
              (arrives forwarded peer (App.rewriteRequest (App.inputText s) (App.apiKey s))))
    as [rateLimit1 p].
  cbn [snd] in Hsnd. subst p.
  rewrite (rewrite_flow v env_key _ _ upstream u
             (arrives_is_rewrite v forwarded peer _ _ Hvariant) eq_refl Hkey) in Hlinked.
  change (body_apiKey (arrives forwarded peer
                         (App.rewriteRequest (App.inputText s) (App.apiKey s))))
    with (Some (App.apiKey s)) in Hlinked.
  change (body_text (arrives forwarded peer
                       (App.rewriteRequest (App.inputText s) (App.apiKey s))))
    with (Some (App.inputText s)) in Hlinked.
  cbn zeta in Hlinked. fold key in Hlinked.
  assert (Hfulfilled : forall text,
             App.error (App.run (fun _ => App.Fetched (statusCode (rewritten text))
                                            (App.Json (body (rewritten text))))
                          (App.handleRewrite trim s))
             = None).
  { intros text. unfold App.handleRewrite.
    pose proof Hinput as Hne. apply String.eqb_neq in Hne. rewrite Hne.
    destruct text as [text|]; cbn; [|reflexivity].
    destruct (String.eqb text ""); reflexivity. }
  destruct (upstream u (proRequest key (Some (App.inputText s)))) as [[text|e] u1];
    cbn [fst snd].
  - injection Hlinked as Hs _ _.
    assert (Hnone : App.error s' = None) by (rewrite <- Hs; apply (Hfulfilled text)).
    congruence.
  - destruct (isQuotaError e) eqn:Hquota.
    + destruct (upstream u1 (flashRequest key (Some (App.inputText s)))) as [[text|e2] u2];
        cbn [fst].
      * injection Hlinked as Hs _ _.
        assert (Hnone : App.error s' = None) by (rewrite <- Hs; apply (Hfulfilled text)).
        congruence.
      * exists e, e2. split; [reflexivity|]. split; [exact Hquota | reflexivity].
    + injection Hlinked as Hs _ _. exfalso. rewrite <- Hs in Hshown.
      exact (propagated_error_as_shown trim s e Hinput (no_quota_markers e Hquota) Hshown).
Qed.

Lemma quota_message_only_after_fallback_witness :
  (Express = ServerlessRewrite \/ Express = Express)
  /\ Spec.trim (App.inputText (App.setInputText "Some text." (App.mount (Some "AIzaStored"))))
     <> ""
  /\ admitted Express ∅ 1000
       (arrives (Some (HString "203.0.113.7")) None
          (App.rewriteRequest "Some text." "AIzaStored")) = true
  /\ Js.truthy (Js.or (Some "AIzaStored") None) = true
  /\ exists e e2,
       fst (proExhausted429 tt (proRequest (Some "AIzaStored") (Some "Some text.")))
       = Rejected e
       /\ isQuotaError e = true
       /\ fst (proExhausted429 tt (flashRequest (Some "AIzaStored") (Some "Some text.")))
          = Rejected e2.
Proof.
  assert (Hvariant : Express = ServerlessRewrite \/ Express = Express) by (right; reflexivity).
  assert (Hinput : Spec.trim (App.inputText
                      (App.setInputText "Some text." (App.mount (Some "AIzaStored"))))
                   <> "") by (vm_compute; discriminate).
  split; [exact Hvariant|]. split; [exact Hinput|]. split; [reflexivity|].
  split; [reflexivity|].
  exact (quota_message_only_after_fallback Spec.trim Express None
           (Some (HString "203.0.113.7")) None 1000 proExhausted429 ∅ _ tt tt
           (App.setInputText "Some text." (App.mount (Some "AIzaStored"))) _
           Hvariant Hinput eq_refl eq_refl eq_refl eq_refl).
Defined.

(** ** The client: the key in use and the stored key *)

Lemma mount_in_sync stored : App.keyInSync (App.mount stored).
Proof.
  unfold App.keyInSync, App.mount, App.loadStoredKey. cbn.
  destruct stored as [k|]; cbn; [|reflexivity].
  destruct (String.eqb k "") eqn:Hk; cbn; rewrite ?Hk; reflexivity.
Qed.

Lemma step_in_sync (trim : string -> string) network s ev :
  App.keyInSync s -> App.keyInSync (App.step trim network s ev).
Proof.
  unfold App.keyInSync. intros Hsync.
  destruct ev; cbn [App.step]; try exact Hsync.
  - unfold App.testApiKey.
    destruct (String.prefix "AIza" (trim (App.tempApiKey s))); cbn; [|exact Hsync].
    destruct (network _) as [status payload|message]; [destruct (App.ok status)|];
      exact Hsync.
  - destruct (saveApiKey_outcome trim network s) as [[Hkey [Hstored _]]|Hsaved].
    + rewrite Hkey, Hstored. exact Hsync.
    + destruct Hsaved as [Hne [Hkey [Hstored _]]]. rewrite Hkey, Hstored.
      cbn. apply String.eqb_neq in Hne. rewrite Hne. reflexivity.
  - reflexivity.
  - destruct (handleRewrite_keys trim network s) as [[Hkey Hstored]|[Hkey Hstored]].
    + rewrite Hkey, Hstored. exact Hsync.
    + rewrite Hkey, Hstored. reflexivity.
Qed.

Lemma steps_in_sync (trim : string -> string) evs s :
  App.keyInSync s -> App.keyInSync (App.steps trim s evs).
Proof.
  revert s. induction evs as [|[network ev] evs IH]; intros s Hsync; [exact Hsync|].
  cbn [App.steps]. apply IH. apply step_in_sync. exact Hsync.
Qed.

(** X14: the key in use and the stored key never drift apart.  After a page
    load and any sequence of events, each handled to its end and whatever
    the network answers, the key in use is the stored key (empty when none
    is stored), so loading the page again brings back exactly the key in
    use. *)
Theorem reload_keeps_the_key (trim : string -> string) (stored : option string)
    (evs : list ((App.FetchRequest -> App.FetchResult) * App.Event)) :
  App.keyInSync (App.steps trim (App.mount stored) evs)
  /\ App.apiKey (App.mount (App.gemini_api_key (App.steps trim (App.mount stored) evs)))
     = App.apiKey (App.steps trim (App.mount stored) evs).
Proof.
  pose proof (steps_in_sync trim evs (App.mount stored) (mount_in_sync stored)) as Hsync.
  split; [exact Hsync|].
  rewrite Hsync. generalize (App.gemini_api_key (App.steps trim (App.mount stored) evs)).
  intros [k|]; [|reflexivity].
  unfold App.mount, App.loadStoredKey. cbn.
  destruct (String.eqb k "") eqn:Hk; cbn; rewrite ?Hk; reflexivity.
Qed.

(** A key is typed with white space around it, tested, saved, and a rewrite
    fails with a 403: the key is removed from the component and from the
    storage together. *)
Example key_saved_then_dropped :
  let accepting := fun _ : App.FetchRequest => App.Fetched 200 (App.Json [("status", "valid")]) in
  let forbidding := fun _ : App.FetchRequest => App.Fetched 403 (App.Json [("error", "403 Forbidden")]) in
  let saved := App.steps Spec.trim (App.mount None)
                 [(accepting, App.TypeKey " AIzaSample "); (accepting, App.Save)] in
  let failed := App.steps Spec.trim saved
                  [(forbidding, App.TypeInput "Some text."); (forbidding, App.Rewrite)] in
  App.apiKey saved = "AIzaSample"
  /\ App.gemini_api_key saved = Some "AIzaSample"
  /\ App.apiKey failed = ""
  /\ App.gemini_api_key failed = None
  /\ App.error failed = Some App.keyMessage.
Proof. vm_compute. repeat split. Qed.

(** ** The client in front of a deployment: saving a key *)

(** X15: saving a key that was not tested yet, from the browser against a
    verify endpoint: the typed key, trimmed, starts with ["AIza"], and the
    rate limiter lets the verify request through.  The key becomes the key
    in use and the stored key, and the dialog closes, exactly when the
    upstream probe with that key is fulfilled; when the probe fails, the key
    in use and the stored key stay as they were and the typed key is marked
    invalid. *)
Theorem save_end_to_end (trim : string -> string) v env_key forwarded peer now
    {U : Type} (upstream : U -> GenerationRequest -> Awaited * U)
    (rateLimit : gmap MapKey RateRecord) (u : U) (s : App.State) :
  v <> ServerlessRewrite ->
  App.keyStatus s = App.idle ->
  String.prefix "AIza" (trim (App.tempApiKey s)) = true ->
  admitted v rateLimit now
    (arrives forwarded peer (App.verifyRequest (trim (App.tempApiKey s)))) = true ->
  let key := trim (App.tempApiKey s) in
  exists s' rateLimit' u',
    linked upstream v env_key forwarded peer now (App.saveApiKey trim s) rateLimit u
    = Some (s', rateLimit', u')
    /\ match fst (upstream u (probeRequest (Some key))) with
       | Fulfilled _ =>
           App.apiKey s' = key /\ App.gemini_api_key s' = Some key
           /\ App.showApiKeyModal s' = false /\ App.tempApiKey s' = ""
       | Rejected _ =>
           App.apiKey s' = App.apiKey s /\ App.gemini_api_key s' = App.gemini_api_key s
           /\ App.keyStatus s' = App.invalid /\ App.tempApiKey s' = App.tempApiKey s
       end.
Proof.
  intros Hvariant Hstatus Hprefix Hadmitted key.
  assert (Hkey : String.eqb key "" = false).
  { subst key. destruct (trim (App.tempApiKey s)); [discriminate Hprefix | reflexivity]. }
  unfold App.saveApiKey. fold key. rewrite Hkey, Hstatus. cbn [negb].
  unfold App.testApiKey. fold key in Hprefix, Hadmitted. rewrite Hprefix.
  cbn [negb App.andThen linked].
  pose proof (deployed_admitted v env_key rateLimit now _ Hadmitted) as Hsnd.
  destruct (deployed v env_key rateLimit now (arrives forwarded peer (App.verifyRequest key)))
    as [rateLimit' p].
  cbn [snd] in Hsnd. subst p.
  assert (Hverify : isVerify v (arrives forwarded peer (App.verifyRequest key)) = true)
    by (destruct v; [congruence | reflexivity | reflexivity | reflexivity]).
  rewrite (verify_flow v env_key _ upstream u Hverify (prefixed_key_is_truthy key Hprefix)).
  change (body_apiKey (arrives forwarded peer (App.verifyRequest key))) with (Some key).
  destruct (upstream u (probeRequest (Some key))) as [[text|e] u1]; cbn;
    eexists; eexists; eexists; (split; [reflexivity|]); repeat split.
Qed.

Lemma save_end_to_end_witness :
  Express <> ServerlessRewrite
  /\ App.keyStatus (App.setTempApiKey " AIzaSample " (App.mount None)) = App.idle
  /\ String.prefix "AIza"
       (Spec.trim (App.tempApiKey (App.setTempApiKey " AIzaSample " (App.mount None)))) = true
  /\ admitted Express ∅ 1000
       (arrives None (Some "10.0.0.1") (App.verifyRequest "AIzaSample")) = true
  /\ exists s' rateLimit' u',
       linked answering Express None None (Some "10.0.0.1") 1000
         (App.saveApiKey Spec.trim (App.setTempApiKey " AIzaSample " (App.mount None))) ∅ tt
       = Some (s', rateLimit', u')
       /\ App.apiKey s' = "AIzaSample" /\ App.gemini_api_key s' = Some "AIzaSample"
       /\ App.showApiKeyModal s' = false /\ App.tempApiKey s' = "".
Proof.
  assert (Hvariant : Express <> ServerlessRewrite) by discriminate.
  split; [exact Hvariant|]. split; [reflexivity|]. split; [reflexivity|].
  split; [reflexivity|].
  exact (save_end_to_end Spec.trim Express None None (Some "10.0.0.1") 1000 answering ∅ tt
           (App.setTempApiKey " AIzaSample " (App.mount None))
           Hvariant eq_refl eq_refl eq_refl).
Defined.
